(** * TaskManager: the scheduling core of [task_manager.py]

    A shallow embedding of the Python module [task_manager.py] (the
    Tkinter weekly planner) and the proofs of the properties its
    specification states about it: overlap of time blocks, the busy-hour
    grid, the request sent to the scheduling service, the parser of its
    answer, the conflict report and the reminder loop.  A last part
    proves further properties of the same code and of the task and goal
    forms, the display and the session as a whole.

    Conventions of the embedding.
    - A Python [str] is a [string]; equality and order are those of the
      code points.  Character classes ([\d], white space) are decided on
      the ASCII range only: text with digits or spaces outside ASCII is
      refused where Python may accept it, and kept where [strip] would
      remove it.
    - A Python [int] is a [Z]; a [float] is a [float].
    - A [dict] with keys made at run time is an insertion-ordered
      association list ([odict]): the code iterates over [.items()] and
      the order is observable.  A [dict] the code builds with fixed keys
      is a record.
    - A call that can raise returns a [result]; [try/except] is a match
      on the raised exception.  Callbacks that assign to [self] return the
      new state.
    - Fields annotated [str] hold strings, and so do the values of the
      entries of a response; the record fields of [Goal] and of the
      dictionaries carry a prefix where Rocq needs distinct names.
    - The widgets are left out, except the variables of the two forms,
      the list boxes and the goal selector; a dialog is recorded by its
      call. *)

From Stdlib Require Import ZArith String Ascii List Lia Bool Permutation Sorted.
From Stdlib Require Import Floats.
From stdpp Require Import base decidable option list strings gmap sets.

Local Open Scope string_scope.
Local Open Scope list_scope.
Local Open Scope Z_scope.

(** ** Exceptions *)

Module Py.

Inductive exn : Type :=
| KeyError
| ValueError
| OverflowError
| RuntimeError.

Inductive result (A : Type) : Type :=
| Ok (a : A)
| Raise (e : exn).

Global Arguments Ok {A} a.
Global Arguments Raise {A} e.

Global Instance result_ret : MRet result := λ A, Ok.

Global Instance result_bind : MBind result := λ A B k m,
  match m with
  | Ok a => k a
  | Raise e => Raise e
  end.

Definition is_ok {A} (m : result A) : bool :=
  match m with Ok _ => true | Raise _ => false end.

(** [for x in xs: body], with an accumulator threaded through and the
    first exception leaving the loop. *)
Fixpoint for_each {A S} (xs : list A) (body : S → A → result S) (s : S)
  : result S :=
  match xs with
  | [] => Ok s
  | x :: xs' => s' ← body s x; for_each xs' body s'
  end.

End Py.

Import Py.

(** ** Insertion-ordered dictionaries *)

Module odict.

Section Defs.
Context {V : Type}.

Definition t := list (string * V).

(** [d.get(k)] *)
Fixpoint get (k : string) (d : list (string * V)) : option V :=
  match d with
  | [] => None
  | (k', v) :: d' => if String.eqb k k' then Some v else get k d'
  end.

(** [d[k]] *)
Definition getitem (k : string) (d : list (string * V)) : result V :=
  match get k d with
  | Some v => Ok v
  | None => Raise KeyError
  end.

(** [d[k] = v]: an existing key keeps its position. *)
Fixpoint set (k : string) (v : V) (d : list (string * V))
  : list (string * V) :=
  match d with
  | [] => [(k, v)]
  | (k', v') :: d' =>
      if String.eqb k k' then (k', v) :: d' else (k', v') :: set k v d'
  end.

Definition keys (d : list (string * V)) : list string := fst <$> d.
End Defs.

End odict.

(** ** The module constants *)

Definition WEEKDAYS : list string :=
  ["Monday"; "Tuesday"; "Wednesday"; "Thursday"; "Friday"; "Saturday";
   "Sunday"].

(** [x in xs] on a list of strings *)
Definition str_in (x : string) (xs : list string) : bool :=
  existsb (String.eqb x) xs.

Global Arguments str_in : simpl never.

(** [xs.index(x)] *)
Fixpoint list_index (x : string) (xs : list string) : result Z :=
  match xs with
  | [] => Raise ValueError
  | y :: ys => if String.eqb x y then Ok 0 else i ← list_index x ys; Ok (i + 1)
  end.

(** ** datetime

    A naive [datetime] is a calendar date and a time of day.  The date is
    kept as its proleptic Gregorian ordinal ([date.toordinal()], day 1 is
    Monday 0001-01-01): the program only shifts dates by whole days and
    asks for the weekday.  Python bounds dates to the years 1..9999:
    [plus] and [minus] are the sums with that test, as the first loop of
    [_reminder_loop] meets it, and [add] and [sub] the sums alone.  The
    window test of the second loop is taken with [add]: its sum leaves
    the range only for a fire time in the last minute of the year 9999. *)

Module datetime.

Record t : Type := mk
  { ordinal : Z; hour : Z; minute : Z; second : Z; microsecond : Z }.

Definition wf (d : t) : Prop :=
  0 ≤ hour d < 24 ∧ 0 ≤ minute d < 60 ∧ 0 ≤ second d < 60
  ∧ 0 ≤ microsecond d < 1000000.

Definition us_per_day : Z := 86400000000.

(** microseconds since the start of day 0 *)
Definition to_us (d : t) : Z :=
  (((ordinal d * 24 + hour d) * 60 + minute d) * 60 + second d) * 1000000
  + microsecond d.

Definition of_us (n : Z) : t :=
  let day := n `div` us_per_day in
  let r := n `mod` us_per_day in
  let secs := r `div` 1000000 in
  {| ordinal := day;
     hour := secs `div` 3600;
     minute := (secs `mod` 3600) `div` 60;
     second := secs `mod` 60;
     microsecond := r `mod` 1000000 |}.

(** [timedelta(weeks=w, days=d, minutes=m)], in microseconds *)
Definition timedelta (weeks days minutes : Z) : Z :=
  (weeks * 7 + days) * us_per_day + minutes * 60000000.

(** the sum and the difference, before the test of the range *)
Definition add (d : t) (delta : Z) : t := of_us (to_us d + delta).
Definition sub (d : t) (delta : Z) : t := of_us (to_us d - delta).

(** [date.min] and [date.max] as ordinals: 0001-01-01 and 9999-12-31 *)
Definition min_ordinal : Z := 1.
Definition max_ordinal : Z := 3652059.

(** a date outside the years 1..9999 raises [OverflowError] *)
Definition in_years (d : t) : result t :=
  if (min_ordinal <=? ordinal d) && (ordinal d <=? max_ordinal) then Ok d
  else Raise OverflowError.

(** [d + delta] and [d - delta] *)
Definition plus (d : t) (delta : Z) : result t := in_years (add d delta).
Definition minus (d : t) (delta : Z) : result t := in_years (sub d delta).

(** [d.weekday()]: Monday is 0 *)
Definition weekday (d : t) : Z := (ordinal d + 6) `mod` 7.

(** the arguments of [replace] are read as C [int]s *)
Definition c_int (n : Z) : bool := (-2147483648 <=? n) && (n <=? 2147483647).

(** [d.replace(hour=h, minute=m, second=0, microsecond=0)] *)
Definition replace_hm (d : t) (h m : Z) : result t :=
  if negb (c_int h && c_int m) then Raise OverflowError
  else if negb ((0 <=? h) && (h <? 24)) then Raise ValueError
  else if negb ((0 <=? m) && (m <? 60)) then Raise ValueError
  else Ok {| ordinal := ordinal d; hour := h; minute := m;
             second := 0; microsecond := 0 |}.

(** Comparison is that of the field tuples. *)
Definition compare (a b : t) : comparison :=
  match ordinal a ?= ordinal b with
  | Eq =>
      match hour a ?= hour b with
      | Eq =>
          match minute a ?= minute b with
          | Eq =>
              match second a ?= second b with
              | Eq => microsecond a ?= microsecond b
              | c => c
              end
          | c => c
          end
      | c => c
      end
  | c => c
  end.

Definition ltb (a b : t) : bool :=
  match compare a b with Lt => true | _ => false end.
Definition leb (a b : t) : bool :=
  match compare a b with Gt => false | _ => true end.

(** *** [datetime.strptime(s, "%H:%M")]

    [_strptime] compiles the format to the regular expression
    [(?P<H>2[0-3]|[0-1]\d|\d):(?P<M>[0-5]\d|\d)], matches it at the
    start of the text and then refuses text left over.  A group is
    modelled by the list of its matches in the order the back-tracking
    matcher tries them, each with the rest of the text. *)

Definition is_digit (c : ascii) : bool :=
  let n := N_of_ascii c in (48 <=? n)%N && (n <=? 57)%N.

Definition digit (c : ascii) : Z := Z.of_N (N_of_ascii c) - 48.

Definition in_range (lo hi : Z) (c : ascii) : bool :=
  is_digit c && (lo <=? digit c) && (digit c <=? hi).

Definition re_two (lo hi : Z) (s : string) : list (Z * string) :=
  match s with
  | String a (String b r) =>
      if in_range lo hi a && is_digit b
      then [(10 * digit a + digit b, r)] else []
  | _ => []
  end.

Definition re_one (s : string) : list (Z * string) :=
  match s with
  | String a r => if is_digit a then [(digit a, r)] else []
  | _ => []
  end.

(** [2[0-3]|[0-1]\d|\d] *)
Definition re_H (s : string) : list (Z * string) :=
  match s with
  | String a (String b r) =>
      if in_range 2 2 a && in_range 0 3 b
      then [(10 * digit a + digit b, r)] else []
  | _ => []
  end ++ re_two 0 1 s ++ re_one s.

(** [[0-5]\d|\d] *)
Definition re_M (s : string) : list (Z * string) :=
  re_two 0 5 s ++ re_one s.

Definition re_colon (s : string) : list string :=
  match s with
  | String ":" r => [r]
  | _ => []
  end.

(** all matches of the whole expression, first choice first *)
Definition re_HM (s : string) : list (Z * Z * string) :=
  '(h, r1) ← re_H s;
  r2 ← re_colon r1;
  '(m, r3) ← re_M r2;
  [(h, m, r3)].

(** ordinal of 1900-01-01, the date [strptime] fills in *)
Definition ordinal_1900 : Z := 693596.

(** minutes since midnight *)
Definition minute_of_day (d : t) : Z := 60 * hour d + minute d.

Definition strptime_HM (s : string) : result t :=
  match re_HM s with
  | [] => Raise ValueError
  | (h, m, rest) :: _ =>
      if String.eqb rest "" then
        Ok {| ordinal := ordinal_1900; hour := h; minute := m;
              second := 0; microsecond := 0 |}
      else Raise ValueError
  end.

End datetime.

(** ** The data classes *)

Record TimeBlock : Type := mkTimeBlock
  { title : string;
    day : string;
    start_time : string;
    end_time : string;
    details : string }.

(** [TimeBlock.overlaps] *)
Definition overlaps (self other : TimeBlock) : result bool :=
  if negb (String.eqb (day self) (day other)) then Ok false
  else
    start_a ← datetime.strptime_HM (start_time self);
    end_a ← datetime.strptime_HM (end_time self);
    start_b ← datetime.strptime_HM (start_time other);
    end_b ← datetime.strptime_HM (end_time other);
    Ok (datetime.ltb start_a end_b && datetime.ltb start_b end_a).


Record Task : Type := mkTask
  { name : string;
    duration_hours : float;
    difficulty : string;
    notes : string;
    goal : option string }.

Record Goal : Type := mkGoal
  { goal_name : string;
    goal_difficulty : string;
    goal_notes : string }.

(** ** Formatting *)

(** Decimal digits of a non-negative integer, most significant first. *)
Fixpoint dec_digits (fuel : nat) (n : Z) (acc : string) : string :=
  match fuel with
  | O => acc
  | S fuel' =>
      let acc' := String (ascii_of_N (Z.to_N (48 + n `mod` 10))) acc in
      if n `div` 10 =? 0 then acc' else dec_digits fuel' (n `div` 10) acc'
  end.

Definition dec (n : Z) : string := dec_digits (S (Z.to_nat (Z.log2 n))) n "".

(** [f"{n:02d}"]: the sign counts towards the width of two. *)
Definition fmt_02d (n : Z) : string :=
  if n <? 0 then "-" +:+ dec (- n)
  else if n <? 10 then "0" +:+ dec n
  else dec n.

(** ** The application state

    The fields of [TaskManagerApp] the scheduling core reads and writes.
    The widgets are left out, except for what the code's control flow
    depends on: the availability grid has one button per weekday and hour
    of the day, and [generate_schedule] enables the reminder button. *)

(** the [{"start": .., "end": .., "title": ..}] dictionaries of the busy
    context *)
Record BusyEntry : Type := mkBusyEntry
  { be_start : string; be_end : string; be_title : string }.

(** the per-task dictionaries grouped under a goal *)
Record TaskSummary : Type := mkTaskSummary
  { ts_name : string;
    ts_duration_hours : float;
    ts_difficulty : string;
    ts_notes : string }.

(** the entries of [goal_focus] *)
Record GoalFocus : Type := mkGoalFocus
  { gf_goal : string;
    gf_difficulty : string;
    gf_notes : string;
    gf_tasks : list TaskSummary }.

Record Context : Type := mkContext
  { ctx_goals : list Goal;
    ctx_tasks : list Task;
    ctx_busy : list (string * list BusyEntry);
    ctx_goal_focus : list GoalFocus;
    ctx_guidelines : list (string * string) }.

(** The response of the service, as [json.loads] returns it when it has
    the documented shape:
    [{"days": {weekday: [{"title": .., "start": .., "end": ..,
    "details": ..}, ..]}}], with text for every value.  A response of
    another shape (a number for a start, a list where an object is
    expected), on which the code raises [TypeError] or [AttributeError],
    is not a [Schedule]: what is proved of a response is proved of those
    of this shape. *)
Definition Entry : Type := list (string * string).
Definition Days : Type := list (string * list Entry).
Definition Schedule : Type := list (string * Days).

(** [GPTScheduler]: [client] is [None] without the package or the key;
    a present client stands for the request and the decoding of its
    answer. *)
Record GPTScheduler : Type := mkGPT
  { client : option (Context → result Schedule);
    model : string }.

Inductive ButtonState : Type := normal | disabled.

(** the reminder thread: whether it is still running ([is_alive()]) and
    the blocks it was started on *)
Record ReminderThread : Type := mkThread
  { thread_alive : bool;
    thread_blocks : list TimeBlock }.

Record App : Type := mkApp
  { gpt : GPTScheduler;
    tasks : list Task;
    goals : list Goal;
    busy_slots : list (string * list (Z * Z));
    generated_blocks : list TimeBlock;
    reminder_thread : option ReminderThread;
    stop_event : bool;
    start_reminders_button : ButtonState;
    schedule_text : string }.

Definition with_busy_slots (app : App) (b : list (string * list (Z * Z)))
  : App :=
  {| gpt := gpt app; tasks := tasks app; goals := goals app;
     busy_slots := b; generated_blocks := generated_blocks app;
     reminder_thread := reminder_thread app; stop_event := stop_event app;
     start_reminders_button := start_reminders_button app;
     schedule_text := schedule_text app |}.

(** [{day: [] for day in WEEKDAYS}] *)
Definition empty_week {V : Type} : list (string * list V) :=
  (λ d, (d, [])) <$> WEEKDAYS.

(** [TaskManagerApp.__init__], given the scheduler it creates *)
Definition new_app (g : GPTScheduler) : App :=
  {| gpt := g; tasks := []; goals := []; busy_slots := empty_week;
     generated_blocks := []; reminder_thread := None; stop_event := false;
     start_reminders_button := disabled; schedule_text := "" |}.

(** ** Availability editing *)

(** the keys of [availability_buttons] *)
Definition has_button (day : string) (hour : Z) : bool :=
  str_in day WEEKDAYS && (0 <=? hour) && (hour <? 24).

(** the two branches of [toggle_busy] on the day's list *)
Definition toggle_list (hour : Z) (busy_list : list (Z * Z))
  : list (Z * Z) :=
  if existsb (Z.eqb hour) (fst <$> busy_list)
  then filter (λ p, fst p ≠ hour) busy_list
  else busy_list ++ [(hour, 1)].

(** [TaskManagerApp.toggle_busy] *)
Definition toggle_busy (app : App) (day : string) (hour : Z) : result App :=
  if negb (has_button day hour) then Raise KeyError
  else
    busy_list ← odict.getitem day (busy_slots app);
    Ok (with_busy_slots app
          (odict.set day (toggle_list hour busy_list) (busy_slots app))).

(** ** Building the request *)

(** the body of the inner loop of [_build_busy_context] *)
Definition busy_entry (slot : Z * Z) : BusyEntry :=
  let '(hour, duration) := slot in
  let start := fmt_02d hour +:+ ":00" in
  let end_hour := hour + duration in
  let end_ := fmt_02d end_hour +:+ ":00" in
  {| be_start := start; be_end := end_; be_title := "Busy" |}.

(** [TaskManagerApp._build_busy_context] *)
Definition _build_busy_context (app : App)
  : result (list (string * list BusyEntry)) :=
  for_each (busy_slots app)
    (λ busy_context '(day, slots),
       for_each slots
         (λ busy_context slot,
            l ← odict.getitem day busy_context;
            Ok (odict.set day (l ++ [busy_entry slot]) busy_context))
         busy_context)
    empty_week.

Definition task_summary (task : Task) : TaskSummary :=
  {| ts_name := name task;
     ts_duration_hours := duration_hours task;
     ts_difficulty := difficulty task;
     ts_notes := notes task |}.

(** [task.goal if task.goal else "Unaligned"]: [None] and the empty
    string are the false values *)
Definition goal_key (task : Task) : string :=
  match goal task with
  | Some g => if String.eqb g "" then "Unaligned" else g
  | None => "Unaligned"
  end.

(** [d.setdefault(key, []).append(x)] *)
Definition setdefault_append {V : Type} (key : string) (x : V)
    (d : list (string * list V)) : list (string * list V) :=
  match odict.get key d with
  | Some l => odict.set key (l ++ [x]) d
  | None => d ++ [(key, [x])]
  end.

(** the first loop of [_build_schedule_context] *)
Definition group_tasks (ts : list Task) : list (string * list TaskSummary) :=
  foldl (λ tasks_by_goal task,
           setdefault_append (goal_key task) (task_summary task)
             tasks_by_goal)
        [] ts.

(** [{goal.name: goal for goal in self.goals}] *)
Definition goal_lookup (gs : list Goal) : list (string * Goal) :=
  foldl (λ d g, odict.set (goal_name g) g d) [] gs.

Definition guidelines : list (string * string) :=
  [("bundle_tasks",
    "Group related tasks into shared focus blocks when possible.");
   ("balance",
    "Balance workload across the week and mix easy and difficult sessions.");
   ("avoid_single_task_blocks",
    "Avoid mapping each task to its own block unless necessary.")].

(** the second loop of [_build_schedule_context] and the test after it *)
Definition goal_summaries (ts : list Task) (gs : list Goal)
  : list GoalFocus :=
  let tasks_by_goal := group_tasks ts in
  let named :=
    (λ '(name, g),
       {| gf_goal := name;
          gf_difficulty := goal_difficulty g;
          gf_notes := goal_notes g;
          gf_tasks := default [] (odict.get name tasks_by_goal) |})
    <$> goal_lookup gs in
  match odict.get "Unaligned" tasks_by_goal with
  | Some l =>
      named ++ [ {| gf_goal := "Unaligned"; gf_difficulty := "";
                    gf_notes := ""; gf_tasks := l |} ]
  | None => named
  end.

(** [TaskManagerApp._build_schedule_context] *)
Definition _build_schedule_context (app : App) : result Context :=
  busy ← _build_busy_context app;
  Ok {| ctx_goals := goals app;
        ctx_tasks := tasks app;
        ctx_busy := busy;
        ctx_goal_focus := goal_summaries (tasks app) (goals app);
        ctx_guidelines := guidelines |}.

(** ** Parsing the response *)

(** the [TimeBlock(...)] call in the [try] of [_parse_schedule] *)
Definition make_block (day : string) (entry : Entry) : result TimeBlock :=
  t ← odict.getitem "title" entry;
  s ← odict.getitem "start" entry;
  e ← odict.getitem "end" entry;
  Ok {| title := t; day := day; start_time := s; end_time := e;
        details := default "" (odict.get "details" entry) |}.

(** one round of the inner loop: [except KeyError: continue] *)
Definition parse_entry (day : string) (blocks : list TimeBlock)
    (entry : Entry) : result (list TimeBlock) :=
  match make_block day entry with
  | Ok block => Ok (blocks ++ [block])
  | Raise KeyError => Ok blocks
  | Raise e => Raise e
  end.

(** one round of the outer loop *)
Definition parse_day (blocks : list TimeBlock)
    (item : string * list Entry) : result (list TimeBlock) :=
  let '(day, entries) := item in
  if negb (str_in day WEEKDAYS) then Ok blocks
  else for_each entries (parse_entry day) blocks.

(** tuples [(int, str)] under [<] *)
Definition key_lt (a b : Z * string) : bool :=
  if fst a =? fst b then String.ltb (snd a) (snd b) else fst a <? fst b.

(** [lambda b: (WEEKDAYS.index(b.day), b.start_time)] *)
Definition sort_key (b : TimeBlock) : result (Z * string) :=
  i ← list_index (day b) WEEKDAYS;
  Ok (i, start_time b).

(** [sorted] is stable and compares keys with [<] only: an element goes
    in front of the first one that is not smaller than it. *)
Fixpoint insert_keyed {A : Type} (x : (Z * string) * A)
    (l : list ((Z * string) * A)) : list ((Z * string) * A) :=
  match l with
  | [] => [x]
  | y :: l' =>
      if key_lt (fst y) (fst x) then y :: insert_keyed x l' else x :: y :: l'
  end.

Fixpoint sort_keyed {A : Type} (l : list ((Z * string) * A))
  : list ((Z * string) * A) :=
  match l with
  | [] => []
  | x :: l' => insert_keyed x (sort_keyed l')
  end.

(** [sorted(blocks, key=...)]: the keys are all computed first *)
Definition sorted_blocks (blocks : list TimeBlock) : result (list TimeBlock) :=
  keyed ← for_each blocks
             (λ acc b, k ← sort_key b; Ok (acc ++ [(k, b)])) [];
  Ok (snd <$> (sort_keyed keyed)).

(** [TaskManagerApp._parse_schedule] *)
Definition _parse_schedule (schedule : Schedule) : result (list TimeBlock) :=
  let days := default [] (odict.get "days" schedule) in
  blocks ← for_each days parse_day [];
  sorted_blocks blocks.

(** ** Conflicts *)

Definition conflict_message (block : TimeBlock) : string :=
  title block +:+ " on " +:+ day block +:+ " " +:+ start_time block +:+ "-"
  +:+ end_time block +:+ " overlaps busy time.".

(** the list comprehension of [_find_conflicts] *)
Definition busy_blocks_of (busy : list (string * list BusyEntry))
  : list TimeBlock :=
  '(day, slots) ← busy;
  slot ← slots;
  [ {| title := "Busy"; day := day; start_time := be_start slot;
       end_time := be_end slot; details := "" |} ].

(** [TaskManagerApp._find_conflicts] *)
Definition _find_conflicts (app : App) (blocks : list TimeBlock)
  : result (list string) :=
  busy ← _build_busy_context app;
  let busy_blocks := busy_blocks_of busy in
  for_each blocks
    (λ messages block,
       for_each busy_blocks
         (λ messages busy,
            hit ← overlaps block busy;
            Ok (if hit : bool then messages ++ [conflict_message block]
                else messages))
         messages)
    [].

(** ** Display *)

Fixpoint repeat_string (s : string) (n : nat) : string :=
  match n with
  | O => ""
  | S n' => s +:+ repeat_string s n'
  end.

(** ["\n".join(lines)] *)
Fixpoint join_lines (lines : list string) : string :=
  match lines with
  | [] => ""
  | [l] => l
  | l :: ls => l +:+ String "010" (join_lines ls)
  end.

(** [TaskManagerApp._day_context] *)
Definition _day_context (app : App) (day : string) (blocks : list TimeBlock)
  : result (list string) :=
  busy ← _build_busy_context app;
  slots ← odict.getitem day busy;
  let commitments :=
    match slots with
    | [] => ["Existing commitments: None"]
    | _ =>
        "Existing commitments:"
        :: ((λ slot, "  " +:+ be_start slot +:+ "-" +:+ be_end slot
                     +:+ ": " +:+ be_title slot) <$> slots)
    end in
  let planned :=
    match blocks with
    | [] => ["Planned tasks: None"]
    | _ =>
        "Planned tasks:"
        :: ((λ block, "  " +:+ start_time block +:+ "-" +:+ end_time block
                      +:+ ": " +:+ title block +:+ " (" +:+ details block
                      +:+ ")") <$> blocks)
    end in
  Ok (commitments ++ planned).

(** [TaskManagerApp._display_schedule]: the text put into the widget *)
Definition _display_schedule (app : App) (blocks : list TimeBlock)
  : result string :=
  grouped ← for_each blocks
              (λ grouped block,
                 l ← odict.getitem (day block) grouped;
                 Ok (odict.set (day block) (l ++ [block]) grouped))
              empty_week;
  lines ← for_each WEEKDAYS
            (λ lines day,
               of_day ← odict.getitem day grouped;
               context_lines ← _day_context app day of_day;
               Ok (lines ++ [day; repeat_string "-" (String.length day)]
                         ++ context_lines ++ [""]))
            [];
  Ok (join_lines lines).

(** ** Generating a schedule *)

Inductive Dialog : Type :=
| showwarning (title message : string)
| showerror (title message : string)
| showerror_exc (title : string) (exc : exn)
| showinfo (title message : string).

(** What a callback leaves behind: the state, the dialogs it opened and
    the exception that escaped it, if any. *)
Record Outcome : Type := mkOutcome
  { out_app : App;
    out_dialogs : list Dialog;
    out_raised : option exn }.

(** [GPTScheduler.is_available] *)
Definition is_available (g : GPTScheduler) : bool :=
  match client g with Some _ => true | None => false end.

(** [GPTScheduler.generate_schedule] *)
Definition gpt_generate_schedule (g : GPTScheduler) (context : Context)
  : result Schedule :=
  match client g with
  | None => Raise RuntimeError
  | Some call => call context
  end.

Definition with_generated (app : App) (blocks : list TimeBlock) : App :=
  {| gpt := gpt app; tasks := tasks app; goals := goals app;
     busy_slots := busy_slots app; generated_blocks := blocks;
     reminder_thread := reminder_thread app; stop_event := stop_event app;
     start_reminders_button := start_reminders_button app;
     schedule_text := schedule_text app |}.

Definition with_display (app : App) (text : string) (b : ButtonState) : App :=
  {| gpt := gpt app; tasks := tasks app; goals := goals app;
     busy_slots := busy_slots app; generated_blocks := generated_blocks app;
     reminder_thread := reminder_thread app; stop_event := stop_event app;
     start_reminders_button := b;
     schedule_text := text |}.

(** [TaskManagerApp.generate_schedule] *)
Definition generate_schedule (app : App) : Outcome :=
  match tasks app with
  | [] =>
      mkOutcome app
        [showwarning "No tasks"
           "Add at least one task before generating a schedule."] None
  | _ =>
      if negb (is_available (gpt app)) then
        mkOutcome app
          [showerror "OpenAI unavailable"
             "An OpenAI API key is required. Set OPENAI_API_KEY in your environment to enable scheduling."]
          None
      else
        match _build_schedule_context app with
        | Raise e => mkOutcome app [] (Some e)
        | Ok context =>
            match gpt_generate_schedule (gpt app) context with
            | Raise exc =>
                mkOutcome app [showerror_exc "Scheduling failed" exc] None
            | Ok schedule =>
                match _parse_schedule schedule with
                | Raise e => mkOutcome app [] (Some e)
                | Ok blocks =>
                    match _find_conflicts app blocks with
                    | Raise e => mkOutcome app [] (Some e)
                    | Ok conflicts =>
                        let dialogs :=
                          match conflicts with
                          | [] => []
                          | _ => [showwarning "Conflicts detected"
                                    (join_lines conflicts)]
                          end in
                        let app1 := with_generated app blocks in
                        match _display_schedule app1 blocks with
                        | Raise e => mkOutcome app1 dialogs (Some e)
                        | Ok text =>
                            mkOutcome (with_display app1 text normal)
                              dialogs None
                        end
                    end
                end
            end
        end
  end.

(** ** Reminders *)

(** [int(s)] on text: white space around, an optional sign, then decimal
    digits with single underscores between them.  Conversions of more
    than 4300 digits are refused (the interpreter's default limit). *)
Definition is_space (c : ascii) : bool :=
  let n := N_of_ascii c in
  ((9 <=? n)%N && (n <=? 13)%N) || (n =? 32)%N.

Fixpoint lstrip (s : string) : string :=
  match s with
  | String c r => if is_space c then lstrip r else s
  | EmptyString => EmptyString
  end.

Definition strip (s : string) : string :=
  String.rev (lstrip (String.rev (lstrip s))).

Fixpoint int_digits (s : string) (acc : Z) (count : nat) (after_digit : bool)
  : result Z :=
  match s with
  | EmptyString =>
      if after_digit && (Nat.leb count 4300) then Ok acc else Raise ValueError
  | String c r =>
      if datetime.is_digit c
      then int_digits r (10 * acc + datetime.digit c) (S count) true
      else if Ascii.eqb c "_" && after_digit then int_digits r acc count false
      else Raise ValueError
  end.

Definition py_int (s : string) : result Z :=
  match strip s with
  | String c r =>
      if Ascii.eqb c "-" then n ← int_digits r 0 0%nat false; Ok (- n)
      else if Ascii.eqb c "+" then int_digits r 0 0%nat false
      else int_digits (String c r) 0 0%nat false
  | EmptyString => Raise ValueError
  end.

(** [s.split(sep)] for a one-character separator *)
Fixpoint split_on (sep : ascii) (s : string) : list string :=
  match s with
  | EmptyString => [EmptyString]
  | String c r =>
      if Ascii.eqb c sep then EmptyString :: split_on sep r
      else match split_on sep r with
           | p :: ps => String c p :: ps
           | [] => [String c EmptyString]
           end
  end.

(** [start_hour, start_minute = map(int, block.start_time.split(":"))] *)
Definition parse_start (s : string) : result (Z * Z) :=
  match split_on ":" s with
  | [a; b] => h ← py_int a; m ← py_int b; Ok (h, m)
  | _ => Raise ValueError
  end.

(** [now - timedelta(days=now.weekday())] *)
Definition monday_of (now : datetime.t) : result datetime.t :=
  datetime.minus now (datetime.timedelta 0 (datetime.weekday now) 0).

(** the timestamp before the test against [now]; [monday] is the value
    computed before the loop *)
Definition candidate_time (monday : datetime.t) (block : TimeBlock)
  : result datetime.t :=
  day_index ← list_index (day block) WEEKDAYS;
  block_date ← datetime.plus monday (datetime.timedelta 0 day_index 0);
  '(start_hour, start_minute) ← parse_start (start_time block);
  datetime.replace_hm block_date start_hour start_minute.

(** one round of the first loop of [_reminder_loop] *)
Definition fire_time (monday now : datetime.t) (block : TimeBlock)
  : result datetime.t :=
  block_dt ← candidate_time monday block;
  if datetime.ltb block_dt now
  then datetime.plus block_dt (datetime.timedelta 1 0 0)
  else Ok block_dt.

(** the first loop of [_reminder_loop], with the two assignments before
    it *)
Definition blocks_by_datetime (now : datetime.t) (blocks : list TimeBlock)
  : result (list (datetime.t * TimeBlock)) :=
  monday ← monday_of now;
  for_each blocks
    (λ acc block,
       block_dt ← fire_time monday now block; Ok (acc ++ [(block_dt, block)]))
    [].

Definition Identifier : Type := string * string * string.

Definition identifier (block : TimeBlock) : Identifier :=
  (day block, start_time block, title block).

(** The state of the polling loop: the set [shown] and, as a log, each
    [self.after(0, self._show_reminder, block)] with the clock reading of
    its round. *)
Record Poll : Type := mkPoll
  { shown : gset Identifier;
    delivered : list (datetime.t * TimeBlock) }.

(** [block_dt <= current < block_dt + timedelta(minutes=1)] *)
Definition due (block_dt current : datetime.t) : bool :=
  datetime.leb block_dt current
  && datetime.ltb current (datetime.add block_dt (datetime.timedelta 0 0 1)).

(** the body of the [for] of one round *)
Definition visit (current : datetime.t) (st : Poll)
    (entry : datetime.t * TimeBlock) : Poll :=
  let '(block_dt, block) := entry in
  if due block_dt current then
    if decide (identifier block ∈ shown st) then st
    else {| shown := {[ identifier block ]} ∪ shown st;
            delivered := delivered st ++ [(current, block)] |}
  else st.

(** one round of the [while]: [current] is that round's clock reading *)
Definition tick (entries : list (datetime.t * TimeBlock))
    (st : Poll) (current : datetime.t) : Poll :=
  foldl (visit current) st entries.

(** the [while] for the clock readings seen until [stop_event] is set *)
Definition poll (entries : list (datetime.t * TimeBlock))
    (clock : list datetime.t) (st : Poll) : Poll :=
  foldl (tick entries) st clock.

(** [TaskManagerApp._reminder_loop]: [now] is the first clock reading,
    [clock] the later ones *)
Definition _reminder_loop (app : App) (now : datetime.t)
    (clock : list datetime.t) : result Poll :=
  entries ← blocks_by_datetime now (generated_blocks app);
  Ok (poll entries clock {| shown := ∅; delivered := [] |}).


(** ** The cells of the grid *)

(** a click on a cell of the availability grid: the callback
    [lambda d=day, h=row: self.toggle_busy(d, h)]; an exception leaves the
    callback and the state stays as it was *)
Definition click (app : App) (cell : string * Z) : App :=
  match toggle_busy app (fst cell) (snd cell) with
  | Ok app' => app'
  | Raise _ => app
  end.

(** ** The forms

    The variables of the entry fields and the contents of the list boxes
    and of the goal selector.  [float(s)] and the text an f-string writes
    for a [float] are taken as given. *)

Record Form : Type := mkForm
  { task_name_var : string;
    task_duration_var : string;
    task_difficulty_var : string;
    task_goal_var : string;
    task_notes_var : string;
    task_goal_combo : list string;
    task_listbox : list string;
    goal_name_var : string;
    goal_difficulty_var : string;
    goal_notes_var : string;
    goal_listbox : list string }.


(** What a callback of the forms leaves behind. *)
Record FormOutcome : Type := mkFormOutcome
  { fo_app : App;
    fo_form : Form;
    fo_dialogs : list Dialog;
    fo_raised : option exn }.

(** [s.strip()]: the white space of [str.isspace] *)
Definition is_whitespace (c : ascii) : bool :=
  let n := N_of_ascii c in
  ((9 <=? n)%N && (n <=? 13)%N) || ((28 <=? n)%N && (n <=? 32)%N).

Fixpoint str_lstrip (s : string) : string :=
  match s with
  | String c r => if is_whitespace c then str_lstrip r else s
  | EmptyString => EmptyString
  end.

Definition str_strip (s : string) : string :=
  String.rev (str_lstrip (String.rev (str_lstrip s))).

Definition with_tasks (app : App) (ts : list Task) : App :=
  {| gpt := gpt app; tasks := ts; goals := goals app;
     busy_slots := busy_slots app; generated_blocks := generated_blocks app;
     reminder_thread := reminder_thread app; stop_event := stop_event app;
     start_reminders_button := start_reminders_button app;
     schedule_text := schedule_text app |}.





Section forms.

(** [float(s)] on text *)
Variable py_float : string → result float.

(** the text of a [float] in an f-string *)
Variable float_str : float → string.

(** [f"{name} ({duration}h, {difficulty})"] *)
Definition task_line (t : Task) : string :=
  name t +:+ " (" +:+ float_str (duration_hours t) +:+ "h, "
  +:+ difficulty t +:+ ")".

(** [TaskManagerApp.add_task] *)
Definition add_task (app : App) (form : Form) : FormOutcome :=
  let name := str_strip (task_name_var form) in
  let duration_str := str_strip (task_duration_var form) in
  let difficulty := task_difficulty_var form in
  let goal_name := str_strip (task_goal_var form) in
  let notes := str_strip (task_notes_var form) in
  if String.eqb name "" || String.eqb duration_str "" then
    mkFormOutcome app form
      [showwarning "Missing information"
         "Task name and duration are required."] None
  else
    match py_float duration_str with
    | Raise ValueError =>
        mkFormOutcome app form
          [showerror "Invalid duration" "Duration must be a number."] None
    | Raise e => mkFormOutcome app form [] (Some e)
    | Ok duration =>
        let goal :=
          if negb (String.eqb goal_name "")
             && negb (String.eqb goal_name "None")
          then Some goal_name else None in
        let task :=
          {| name := name; duration_hours := duration;
             difficulty := difficulty; notes := notes; goal := goal |} in
        mkFormOutcome (with_tasks app (tasks app ++ [task]))
          {| task_name_var := "";
             task_duration_var := "";
             task_difficulty_var := task_difficulty_var form;
             task_goal_var := task_goal_var form;
             task_notes_var := "";
             task_goal_combo := task_goal_combo form;
             task_listbox := task_listbox form ++ [task_line task];
             goal_name_var := goal_name_var form;
             goal_difficulty_var := goal_difficulty_var form;
             goal_notes_var := goal_notes_var form;
             goal_listbox := goal_listbox form |}
          [] None
    end.

(** ** The session

    What the user can do with the window, one event at a time: edit the
    entry fields, press a cell of the grid or one of the buttons.
    [press_start_reminders] carries the clock reading the started thread
    begins with.  A thread that got to its rounds can end later, when a
    window test raises; [thread_ends] is that event. *)






End forms.

(** * Vocabulary of the properties *)

(** the lists the editor can build: one-hour intervals, one per hour *)
Definition grid_made (l : list (Z * Z)) : Prop :=
  NoDup (fst <$> l) ∧ Forall (λ p, snd p = 1) l.

(** the busy-time models the editor can reach: the seven weekdays in
    order, each with a list built by toggles *)
Definition week_model (busy : list (string * list (Z * Z))) : Prop :=
  odict.keys busy = WEEKDAYS ∧ Forall (λ item, grid_made (snd item)) busy.

(** the tasks whose key is [k], in the order of the task list *)
Definition bucket (k : string) (ts : list Task) : list TaskSummary :=
  task_summary <$> filter (λ t, goal_key t = k) ts.

(** the focus entry of a goal *)
Definition goal_entry (ts : list Task) (item : string * Goal) : GoalFocus :=
  {| gf_goal := fst item;
     gf_difficulty := goal_difficulty (snd item);
     gf_notes := goal_notes (snd item);
     gf_tasks := bucket (fst item) ts |}.

(** a bucket added to what a key holds already *)
Definition merge_bucket (o : option (list TaskSummary))
    (b : list TaskSummary) : option (list TaskSummary) :=
  match o, b with
  | None, [] => None
  | _, _ => Some (default [] o ++ b)
  end.

Definition unaligned_entry (ts : list Task) : GoalFocus :=
  {| gf_goal := "Unaligned"; gf_difficulty := ""; gf_notes := "";
     gf_tasks := bucket "Unaligned" ts |}.

(** the order of the sort keys: weekday index first, then the start-time
    text in dictionary order *)
Definition key_le (a b : Z * string) : Prop :=
  fst a < fst b ∨ (fst a = fst b ∧ String.le (snd a) (snd b)).

(** position in the week, 0 for Monday *)
Definition day_index (d : string) : Z :=
  match list_index d WEEKDAYS with Ok i => i | Raise _ => 0 end.

Definition key_of (b : TimeBlock) : Z * string := (day_index (day b), start_time b).

(** what the parser makes of one entry, in the words of the specification:
    [title], [start] and [end] are required, [details] defaults to the
    empty text *)
Definition accepted (day : string) (entry : Entry) : option TimeBlock :=
  match odict.get "title" entry, odict.get "start" entry,
        odict.get "end" entry with
  | Some t, Some s, Some e =>
      Some {| title := t; day := day; start_time := s; end_time := e;
              details := default "" (odict.get "details" entry) |}
  | _, _, _ => None
  end.

(** the blocks of a response before sorting: the entries of the canonical
    weekdays that are accepted, in the order of the response *)
Definition accepted_blocks (days : Days) : list TimeBlock :=
  '(day, entries) ← days;
  if str_in day WEEKDAYS then omap (accepted day) entries else [].

(** a zero-padded HH:MM time and its minute of the day *)
Definition hhmm (s : string) : option Z :=
  match s with
  | String a (String b (String ":" (String c (String d EmptyString)))) =>
      if datetime.is_digit a && datetime.is_digit b && datetime.is_digit c
         && datetime.is_digit d
         && (10 * datetime.digit a + datetime.digit b <? 24)
         && (datetime.digit c <? 6)
      then Some (60 * (10 * datetime.digit a + datetime.digit b)
                 + 10 * datetime.digit c + datetime.digit d)
      else None
  | _ => None
  end.

(** order in time within the week, for blocks with zero-padded starts *)
Definition chrono_le (a b : TimeBlock) : Prop :=
  day_index (day a) < day_index (day b)
  ∨ (day_index (day a) = day_index (day b)
     ∧ default 0 (hhmm (start_time a)) ≤ default 0 (hhmm (start_time b))).

(** the reading [strptime] gives of a block's start, as a minute of the
    day *)
Definition starts_at (b : TimeBlock) (n : Z) : Prop :=
  ∃ d, datetime.strptime_HM (start_time b) = Ok d
       ∧ datetime.minute_of_day d = n.

(** [snapshot()]: the busy intervals of every weekday, in stored order *)
Definition busy_snapshot (busy : list (string * list (Z * Z)))
  : list (string * list BusyEntry) :=
  (λ item : string * list (Z * Z), (fst item, busy_entry <$> snd item))
  <$> busy.

(** [new] is what the loop sent between the states [st] and [st'], over
    the clock readings [clock]: the log grew by [new], whose identifiers
    are distinct, were not marked in [st], and are marked in [st']; each
    was sent in a round whose reading lies in the window of an entry of
    that block. *)
Definition sent_between (entries : list (datetime.t * TimeBlock))
    (clock : list datetime.t) (st st' : Poll)
    (new : list (datetime.t * TimeBlock)) : Prop :=
  delivered st' = delivered st ++ new
  ∧ shown st' = shown st ∪ list_to_set ((λ x, identifier (snd x)) <$> new)
  ∧ NoDup ((λ x, identifier (snd x)) <$> new)
  ∧ ∀ current block,
      (current, block) ∈ new →
      (identifier block ∉ shown st)
      ∧ current ∈ clock
      ∧ ∃ block_dt, (block_dt, block) ∈ entries ∧ due block_dt current = true.

(** the report the specification asks of the conflict detector: one message
    for each pair of a generated block and a busy block that overlap *)
Definition hits (block busy : TimeBlock) : bool :=
  match overlaps block busy with Ok true => true | _ => false end.

Definition conflict_report (busy_blocks blocks : list TimeBlock)
  : list string :=
  block ← blocks;
  busy ← busy_blocks;
  if hits block busy then [conflict_message block] else [].

(** the hour [hour] of [day] is marked busy *)
Definition busy_at (app : App) (day : string) (hour : Z) : Prop :=
  ∃ l, odict.get day (busy_slots app) = Some l ∧ hour ∈ fst <$> l.

(** the names of a list, each at the place of its first appearance *)
Fixpoint first_occurrences (l : list string) : list string :=
  match l with
  | [] => []
  | x :: l' => x :: filter (λ y, y ≠ x) (first_occurrences l')
  end.

(** the minute of the day [strptime] reads in a text, 0 when it reads
    none *)
Definition minutes_of (s : string) : Z :=
  match datetime.strptime_HM s with
  | Ok d => datetime.minute_of_day d
  | Raise _ => 0
  end.

(** the hours of the slots are hours of the grid *)
Definition on_grid (busy : list (string * list (Z * Z))) : Prop :=
  Forall (λ item, Forall (λ slot, 0 ≤ fst slot < 24) (snd item)) busy.





(** * Sample states *)

(** a scheduler without a key *)
Definition no_gpt : GPTScheduler := {| client := None; model := "gpt-5" |}.

Definition entry_of (t s e : string) : Entry :=
  [("title", t); ("start", s); ("end", e)].

(** Wednesday 09:00, Monday 14:00, Monday 08:00 *)
Definition week_sample : Schedule :=
  [("days",
    [("Wednesday", [entry_of "Deep work" "09:00" "10:00"]);
     ("Monday", [entry_of "Review" "14:00" "15:00";
                 entry_of "Plan" "08:00" "09:00"])])].

(** two Monday blocks whose hours are not zero-padded alike *)
Definition unpadded_sample : Schedule :=
  [("days",
    [("Monday", [entry_of "Early" "9:00" "10:00";
                 entry_of "Late" "10:00" "11:00"])])].

(** the grid after a click on Monday 23:00 *)
Definition late_slot_app : App :=
  with_busy_slots (new_app no_gpt)
    (odict.set "Monday" [(23, 1)] empty_week).

(** the grid after a click on Monday 09:00 *)
Definition morning_slot_app : App :=
  with_busy_slots (new_app no_gpt)
    (odict.set "Monday" [(9, 1)] empty_week).

Definition monday_evening : TimeBlock :=
  {| title := "Wrap-up"; day := "Monday"; start_time := "22:00";
     end_time := "23:00"; details := "" |}.

Definition tuesday_morning : TimeBlock :=
  {| title := "Stand-up"; day := "Tuesday"; start_time := "09:00";
     end_time := "10:00"; details := "" |}.

(** a client whose request fails *)
Definition failing_gpt : GPTScheduler :=
  {| client := Some (λ _, Raise RuntimeError); model := "gpt-5" |}.

Definition sample_task : Task :=
  {| name := "Write report"; duration_hours := 2%float;
     difficulty := "Medium"; notes := ""; goal := None |}.

(** a session with a schedule and running reminders, whose next request
    will fail *)
Definition planned_app (g : GPTScheduler) : App :=
  {| gpt := g; tasks := [sample_task]; goals := [];
     busy_slots := empty_week;
     generated_blocks := [monday_evening];
     reminder_thread :=
       Some {| thread_alive := true; thread_blocks := [monday_evening] |};
     stop_event := false;
     start_reminders_button := disabled;
     schedule_text := "Monday" |}.

(** Monday 2026-11-02 09:00:00, to the microsecond *)
Definition monday_nine : datetime.t := datetime.mk 739922 9 0 0 0.

(** Monday 9999-12-27 10:00:00, in the last week [datetime] has *)
Definition last_monday : datetime.t := datetime.mk 3652055 10 0 0 0.

(** Tuesday 2026-11-03 10:30:15.25 *)
Definition tuesday_later : datetime.t := datetime.mk 739923 10 30 15 250000.

Definition monday_standup : TimeBlock :=
  {| title := "Stand-up"; day := "Monday"; start_time := "09:00";
     end_time := "09:15"; details := "" |}.

Definition monday_nine_ten : TimeBlock :=
  {| title := "Busy"; day := "Monday"; start_time := "09:00";
     end_time := "10:00"; details := "" |}.

Definition monday_ten_eleven : TimeBlock :=
  {| title := "Study"; day := "Monday"; start_time := "10:00";
     end_time := "11:00"; details := "" |}.

(** the grid after clicks on Monday 09:00 and Monday 10:00 *)
Definition two_slots_app : App :=
  with_busy_slots (new_app no_gpt)
    (odict.set "Monday" [(9, 1); (10, 1)] empty_week).

(** a task whose goal field names a goal that was never created *)
Definition ghost_task : Task :=
  {| name := "Draft slides"; duration_hours := 1.5%float;
     difficulty := "High"; notes := ""; goal := Some "Launch" |}.

Definition fitness_goal : Goal :=
  {| goal_name := "Fitness"; goal_difficulty := "Low"; goal_notes := "" |}.

(** a goal that carries the name of the fallback bucket *)
Definition unaligned_goal : Goal :=
  {| goal_name := "Unaligned"; goal_difficulty := "Low"; goal_notes := "" |}.

(** a client that answers with the sample week *)
Definition replying_gpt : GPTScheduler :=
  {| client := Some (λ _, Ok week_sample); model := "gpt-5" |}.

(** the planned session with Monday 23:00 marked busy *)
Definition late_planned_app : App :=
  with_busy_slots (planned_app replying_gpt) (busy_slots late_slot_app).

Definition monday_plan : TimeBlock :=
  {| title := "Plan"; day := "Monday"; start_time := "08:00";
     end_time := "09:00"; details := "" |}.

Definition monday_study : TimeBlock :=
  {| title := "Study"; day := "Monday"; start_time := "09:30";
     end_time := "10:30"; details := "" |}.

(** a start time with seconds, which the parser lets through *)
Definition monday_seconds : TimeBlock :=
  {| title := "Stand-up"; day := "Monday"; start_time := "09:00:00";
     end_time := "09:15"; details := "" |}.

(** a session with a schedule and no reminder thread *)
Definition scheduled_app (blocks : list TimeBlock) : App :=
  with_generated (new_app no_gpt) blocks.

(** a [float] that reads the text ["2"] only, and its text *)
Definition sample_float (s : string) : result float :=
  if String.eqb s "2" then Ok 2%float else Raise ValueError.

Definition sample_float_str (x : float) : string := "2.0".

(** the task form filled in, with spaces around the name *)
Definition report_form : Form :=
  {| task_name_var := " Write report "; task_duration_var := "2";
     task_difficulty_var := "Medium"; task_goal_var := "None";
     task_notes_var := ""; task_goal_combo := []; task_listbox := [];
     goal_name_var := ""; goal_difficulty_var := "Medium";
     goal_notes_var := ""; goal_listbox := [] |}.

(** * Properties *)

(** ** Times of day *)

Module datetime_facts.
Import datetime.

Lemma digit_range c : is_digit c = true → 0 ≤ digit c ≤ 9.
Proof.
  unfold is_digit, digit. intros [H1 H2]%andb_true_iff.
  apply N.leb_le in H1, H2. lia.
Qed.

Lemma in_range_spec lo hi c :
  in_range lo hi c = true → is_digit c = true ∧ lo ≤ digit c ≤ hi.
Proof.
  unfold in_range. intros [[H1 H2]%andb_true_iff H3]%andb_true_iff.
  apply Z.leb_le in H2, H3. done.
Qed.

Lemma re_two_range lo hi s h r :
  0 ≤ lo → (h, r) ∈ re_two lo hi s → 0 ≤ h ≤ 10 * hi + 9.
Proof.
  intros Hlo. unfold re_two. destruct s as [|a [|b s]]; try by intros ?%elem_of_nil.
  destruct (in_range lo hi a && is_digit b) eqn:E;
    [|by intros ?%elem_of_nil].
  apply andb_true_iff in E as [[_ Ha]%in_range_spec Hb%digit_range].
  intros [= -> ->]%list_elem_of_singleton. lia.
Qed.

Lemma re_one_range s h r : (h, r) ∈ re_one s → 0 ≤ h ≤ 9.
Proof.
  unfold re_one. destruct s as [|a s]; [by intros ?%elem_of_nil|].
  destruct (is_digit a) eqn:E; [|by intros ?%elem_of_nil].
  apply digit_range in E.
  intros [= -> ->]%list_elem_of_singleton. lia.
Qed.

Lemma re_H_range s h r : (h, r) ∈ re_H s → 0 ≤ h < 24.
Proof.
  unfold re_H. rewrite !elem_of_app. intros [H|[H|H]].
  - destruct s as [|a [|b s]]; try by apply elem_of_nil in H.
    destruct (in_range 2 2 a && in_range 0 3 b) eqn:E;
      [|by apply elem_of_nil in H].
    apply andb_true_iff in E as [[_ Ha]%in_range_spec [_ Hb]%in_range_spec].
    apply list_elem_of_singleton in H as [= -> ->]. lia.
  - apply re_two_range in H; lia.
  - apply re_one_range in H; lia.
Qed.

Lemma re_M_range s m r : (m, r) ∈ re_M s → 0 ≤ m < 60.
Proof.
  unfold re_M. rewrite elem_of_app. intros [H|H].
  - apply re_two_range in H; lia.
  - apply re_one_range in H; lia.
Qed.

Lemma re_HM_range s h m r :
  (h, m, r) ∈ re_HM s → 0 ≤ h < 24 ∧ 0 ≤ m < 60.
Proof.
  unfold re_HM. intros ([h' r1] & H & Hh)%list_elem_of_bind.
  apply list_elem_of_bind in H as (r2 & H & _).
  apply list_elem_of_bind in H as ([m' r3] & H & Hm).
  apply list_elem_of_singleton in H as [= -> -> ->].
  split; [by eapply re_H_range | by eapply re_M_range].
Qed.

(** What [strptime] returns is a time of day on 1900-01-01. *)
Lemma strptime_HM_inv s d :
  strptime_HM s = Ok d →
  ordinal d = ordinal_1900 ∧ 0 ≤ hour d < 24 ∧ 0 ≤ minute d < 60
  ∧ second d = 0 ∧ microsecond d = 0.
Proof.
  unfold strptime_HM. destruct (re_HM s) as [|[[h m] r] l] eqn:E; [done|].
  destruct (String.eqb r ""); [|done]. intros [= <-]. simpl.
  assert ((h, m, r) ∈ re_HM s) as Hin by (rewrite E; left).
  apply re_HM_range in Hin. repeat split; lia.
Qed.

Lemma compare_spec (a b : t) :
  wf a → wf b → compare a b = (to_us a ?= to_us b).
Proof.
  unfold wf, compare, to_us. intros Ha Hb.
  destruct (Z.compare_spec (ordinal a) (ordinal b));
    [|symmetry; (apply Z.compare_lt_iff || apply Z.compare_gt_iff); lia..].
  destruct (Z.compare_spec (hour a) (hour b));
    [|symmetry; (apply Z.compare_lt_iff || apply Z.compare_gt_iff); lia..].
  destruct (Z.compare_spec (minute a) (minute b));
    [|symmetry; (apply Z.compare_lt_iff || apply Z.compare_gt_iff); lia..].
  destruct (Z.compare_spec (second a) (second b));
    [|symmetry; (apply Z.compare_lt_iff || apply Z.compare_gt_iff); lia..].
  destruct (Z.compare_spec (microsecond a) (microsecond b)); symmetry;
    [apply Z.compare_eq_iff|apply Z.compare_lt_iff|apply Z.compare_gt_iff];
    lia.
Qed.

Lemma ltb_lt (a b : t) : wf a → wf b → ltb a b = true ↔ to_us a < to_us b.
Proof.
  intros Ha Hb. unfold ltb. rewrite compare_spec by done.
  destruct (Z.compare_spec (to_us a) (to_us b)); split; (done || lia).
Qed.

Lemma leb_le (a b : t) : wf a → wf b → leb a b = true ↔ to_us a ≤ to_us b.
Proof.
  intros Ha Hb. unfold leb. rewrite compare_spec by done.
  destruct (Z.compare_spec (to_us a) (to_us b)); split; (done || lia).
Qed.

Lemma strptime_HM_wf s d : strptime_HM s = Ok d → wf d.
Proof. intros H%strptime_HM_inv. unfold wf. lia. Qed.

(** On results of [strptime] the order is that of the minute of day. *)
Lemma strptime_ltb s1 s2 d1 d2 :
  strptime_HM s1 = Ok d1 → strptime_HM s2 = Ok d2 →
  ltb d1 d2 = (minute_of_day d1 <? minute_of_day d2).
Proof.
  intros H1 H2. pose proof (strptime_HM_wf _ _ H1).
  pose proof (strptime_HM_wf _ _ H2).
  apply strptime_HM_inv in H1, H2.
  apply eq_true_iff_eq. rewrite ltb_lt by done. rewrite Z.ltb_lt.
  unfold to_us, minute_of_day. lia.
Qed.

End datetime_facts.

Import datetime_facts.

(** ** TimeBlock.overlaps *)

Lemma overlaps_other_day a b : day a ≠ day b → overlaps a b = Ok false.
Proof.
  intros Hd. unfold overlaps.
  by apply String.eqb_neq in Hd as ->.
Qed.

Lemma overlaps_same_day a b sa ea sb eb :
  day a = day b →
  datetime.strptime_HM (start_time a) = Ok sa →
  datetime.strptime_HM (end_time a) = Ok ea →
  datetime.strptime_HM (start_time b) = Ok sb →
  datetime.strptime_HM (end_time b) = Ok eb →
  overlaps a b
  = Ok ((datetime.minute_of_day sa <? datetime.minute_of_day eb)
        && (datetime.minute_of_day sb <? datetime.minute_of_day ea)).
Proof.
  intros Hd Hsa Hea Hsb Heb. unfold overlaps.
  apply String.eqb_eq in Hd as ->. simpl.
  rewrite Hsa, Hea, Hsb, Heb. simpl.
  by rewrite (strptime_ltb _ _ _ _ Hsa Heb), (strptime_ltb _ _ _ _ Hsb Hea).
Qed.

(** C2. For blocks [a] and [b] whose start and end fields parse as HH:MM
    times of day, [overlaps a b] returns false when the weekdays differ;
    for equal weekdays it returns true exactly when [start_a < end_b] and
    [start_b < end_a] as times of day; two blocks that touch at a boundary
    (end of [a] equal to start of [b]) do not overlap. *)
Theorem overlaps_spec (a b : TimeBlock) (sa ea sb eb : datetime.t) :
  datetime.strptime_HM (start_time a) = Ok sa →
  datetime.strptime_HM (end_time a) = Ok ea →
  datetime.strptime_HM (start_time b) = Ok sb →
  datetime.strptime_HM (end_time b) = Ok eb →
  (day a ≠ day b → overlaps a b = Ok false)
  ∧ (day a = day b →
     ∃ r, overlaps a b = Ok r
          ∧ (r = true ↔ datetime.minute_of_day sa < datetime.minute_of_day eb
                        ∧ datetime.minute_of_day sb < datetime.minute_of_day ea))
  ∧ (datetime.minute_of_day ea = datetime.minute_of_day sb → overlaps a b = Ok false).
Proof.
  intros Hsa Hea Hsb Heb. split; [apply overlaps_other_day|].
  split.
  - intros Hd. eexists. split; [by eapply overlaps_same_day|].
    rewrite andb_true_iff, !Z.ltb_lt. done.
  - intros Htouch. destruct (decide (day a = day b)) as [Hd|Hd];
      [|by apply overlaps_other_day].
    rewrite (overlaps_same_day _ _ _ _ _ _ Hd Hsa Hea Hsb Heb).
    f_equal. apply andb_false_iff. right. apply Z.ltb_ge. lia.
Qed.

(** ** Dictionaries *)

Module odict_facts.
Section Facts.
Context {V : Type}.
Implicit Types (d : list (string * V)) (k : string) (v : V).

Lemma get_set_eq k v d : odict.get k (odict.set k v d) = Some v.
Proof.
  induction d as [|[k' v'] d IH]; simpl.
  - by rewrite String.eqb_refl.
  - destruct (String.eqb k k') eqn:E; simpl; rewrite E; [done|apply IH].
Qed.

Lemma get_set_ne k k' v d :
  k ≠ k' → odict.get k (odict.set k' v d) = odict.get k d.
Proof.
  intros Hne. induction d as [|[k1 v1] d IH]; simpl.
  - by apply String.eqb_neq in Hne as ->.
  - destruct (String.eqb k' k1) eqn:E; simpl.
    + apply String.eqb_eq in E as <-. by apply String.eqb_neq in Hne as ->.
    + by rewrite IH.
Qed.

Lemma set_get_id k v d : odict.get k d = Some v → odict.set k v d = d.
Proof.
  induction d as [|[k' v'] d IH]; simpl; [done|].
  destruct (String.eqb k k') eqn:E.
  - by intros [= ->].
  - intros H. by rewrite IH.
Qed.

Lemma set_set k v1 v2 d :
  odict.set k v2 (odict.set k v1 d) = odict.set k v2 d.
Proof.
  induction d as [|[k' v'] d IH]; simpl.
  - by rewrite String.eqb_refl.
  - destruct (String.eqb k k') eqn:E; simpl; rewrite E; [done|].
    by rewrite IH.
Qed.

Lemma get_app_None k d d' :
  odict.get k d = None → odict.get k (d ++ d') = odict.get k d'.
Proof.
  induction d as [|[k' v'] d IH]; simpl; [done|].
  by destruct (String.eqb k k').
Qed.

Lemma get_app_Some k v d d' :
  odict.get k d = Some v → odict.get k (d ++ d') = Some v.
Proof.
  induction d as [|[k' v'] d IH]; simpl; [done|].
  by destruct (String.eqb k k').
Qed.

Lemma keys_set_present k v d :
  is_Some (odict.get k d) → odict.keys (odict.set k v d) = odict.keys d.
Proof.
  unfold odict.keys.
  induction d as [|[k' v'] d IH]; csimpl; [by intros [? [=]]|].
  destruct (String.eqb k k') eqn:E; csimpl; [done|].
  intros H. by rewrite IH.
Qed.

End Facts.
End odict_facts.

Import odict_facts.

(** ** Availability editing *)

Lemma with_busy_slots_id app : with_busy_slots app (busy_slots app) = app.
Proof. by destruct app. Qed.

Lemma existsb_hour hour (l : list (Z * Z)) :
  existsb (Z.eqb hour) (fst <$> l) = true ↔ hour ∈ fst <$> l.
Proof.
  rewrite existsb_exists. split.
  - intros (h & Hin & ->%Z.eqb_eq). by apply list_elem_of_In.
  - intros Hin. exists hour. split; [by apply list_elem_of_In | apply Z.eqb_refl].
Qed.

Lemma toggle_list_absent hour l :
  hour ∉ fst <$> l → toggle_list hour l = l ++ [(hour, 1)].
Proof.
  intros Hno. unfold toggle_list.
  destruct (existsb _ _) eqn:E; [|done].
  by apply existsb_hour in E.
Qed.

Lemma toggle_list_present hour l :
  hour ∈ fst <$> l → toggle_list hour l = filter (λ p, fst p ≠ hour) l.
Proof.
  intros Hin. unfold toggle_list.
  by apply existsb_hour in Hin as ->.
Qed.

Lemma filter_hour_gone hour (l : list (Z * Z)) :
  hour ∉ fst <$> filter (λ p, fst p ≠ hour) l.
Proof.
  intros ([h d] & Hh & [Hne _]%list_elem_of_filter)%(list_elem_of_fmap_1 fst).
  csimpl in *. congruence.
Qed.

Lemma filter_hour_absent hour (l : list (Z * Z)) :
  hour ∉ fst <$> l → filter (λ p, fst p ≠ hour) l = l.
Proof.
  induction l as [|[h d] l IH]; csimpl; [done|].
  rewrite not_elem_of_cons. intros [Hne Hno].
  rewrite filter_cons_True by (simpl; done). by rewrite IH.
Qed.

Lemma grid_made_nil : grid_made [].
Proof. split; constructor. Qed.

Lemma grid_made_toggle hour l : grid_made l → grid_made (toggle_list hour l).
Proof.
  intros [Hnd Hone]. destruct (decide (hour ∈ fst <$> l)) as [Hin|Hno].
  - rewrite toggle_list_present by done. split.
    + eapply sublist_NoDup; [exact Hnd|].
      apply fmap_sublist, sublist_filter.
    + rewrite Forall_forall in Hone |- *.
      intros p [_ Hp]%list_elem_of_filter. by apply Hone.
  - rewrite toggle_list_absent by done. split.
    + rewrite fmap_app. csimpl. apply NoDup_app. split; [done|].
      split; [|apply NoDup_singleton].
      intros h Hh ->%list_elem_of_singleton. done.
    + apply Forall_app. split; [done|]. by constructor.
Qed.

(** On such a list, taking the interval at [hour] out and adding it back at
    the end rearranges the list. *)
Lemma grid_made_readd hour l :
  grid_made l → hour ∈ fst <$> l →
  filter (λ p, fst p ≠ hour) l ++ [(hour, 1)] ≡ₚ l.
Proof.
  intros [Hnd Hone] Hin. induction l as [|[h d] l IH]; csimpl in *.
  - by apply elem_of_nil in Hin.
  - apply NoDup_cons in Hnd as [Hh Hnd].
    apply Forall_cons in Hone as [Hd Hone]. csimpl in Hd. subst d.
    destruct (decide (h = hour)) as [->|Hne].
    + rewrite filter_cons_False by (simpl; tauto).
      rewrite filter_hour_absent by done.
      symmetry. apply Permutation_cons_append.
    + rewrite filter_cons_True by done. csimpl. f_equiv.
      apply IH; try done.
      apply elem_of_cons in Hin as [?|?]; [congruence|done].
Qed.

Lemma Forall_set {V} (P : string * V → Prop) k v (d : list (string * V)) :
  (∀ k', P (k', v)) → Forall P d → Forall P (odict.set k v d).
Proof.
  intros Hv. induction 1 as [|[k' v'] d Hd Hrest IH]; simpl.
  - by repeat constructor.
  - destruct (String.eqb k k'); constructor; done.
Qed.

Lemma week_model_new g : week_model (busy_slots (new_app g)).
Proof.
  split; [done|]. simpl. unfold empty_week.
  apply Forall_fmap, Forall_true. intros d. apply grid_made_nil.
Qed.

(** Toggling keeps the model one the editor can reach. *)
Lemma week_model_toggle app day hour app' :
  week_model (busy_slots app) →
  toggle_busy app day hour = Ok app' →
  week_model (busy_slots app').
Proof.
  intros [Hkeys Hgrid]. unfold toggle_busy.
  destruct (negb (has_button day hour)); [done|].
  unfold odict.getitem.
  destruct (odict.get day (busy_slots app)) as [l|] eqn:Hget; [|done].
  simpl. intros [= Happ]. subst app'. simpl. split.
  - by rewrite keys_set_present.
  - apply Forall_set; [|done]. intros k'. simpl.
    apply grid_made_toggle.
    clear Hkeys. induction Hgrid as [|[k v] d Hv _ IH]; [done|].
    simpl in Hget. destruct (String.eqb day k); [|by apply IH].
    by injection Hget as <-.
Qed.

(** C8, as the code has it.  On a cell [(day, hour)] of the grid,
    [toggle_busy] appends a one-hour interval at [hour] to the day's list
    when the list has none, and removes every interval at [hour] when it
    has one; nothing else changes.  Toggling the same cell twice gives the
    prior state back exactly when no interval at [hour] was present; when
    one was present the day's list ends up as the other intervals, in
    their order, followed by a one-hour interval at [hour] -- for a list
    built by toggles the same intervals, rearranged. *)
Theorem toggle_busy_twice (app : App) (day : string) (hour : Z)
    (l : list (Z * Z)) :
  has_button day hour = true →
  odict.get day (busy_slots app) = Some l →
  ∃ app1 app2,
    toggle_busy app day hour = Ok app1
    ∧ toggle_busy app1 day hour = Ok app2
    ∧ app1 = with_busy_slots app
               (odict.set day (toggle_list hour l) (busy_slots app))
    ∧ (hour ∉ (fst <$> l) →
       toggle_list hour l = l ++ [(hour, 1)] ∧ app2 = app)
    ∧ (hour ∈ (fst <$> l) →
       toggle_list hour l = filter (λ p, fst p ≠ hour) l
       ∧ (hour ∉ fst <$> toggle_list hour l)
       ∧ app2 = with_busy_slots app
                  (odict.set day
                     (filter (λ p, fst p ≠ hour) l ++ [(hour, 1)])
                     (busy_slots app))
       ∧ (grid_made l →
          filter (λ p, fst p ≠ hour) l ++ [(hour, 1)] ≡ₚ l)).
Proof.
  intros Hbtn Hget.
  assert (toggle_busy app day hour
          = Ok (with_busy_slots app
                  (odict.set day (toggle_list hour l) (busy_slots app))))
    as H1.
  { unfold toggle_busy, odict.getitem. by rewrite Hbtn, Hget. }
  assert (∀ app1,
      app1 = with_busy_slots app
               (odict.set day (toggle_list hour l) (busy_slots app)) →
      toggle_busy app1 day hour
      = Ok (with_busy_slots app
              (odict.set day (toggle_list hour (toggle_list hour l))
                 (busy_slots app)))) as H2.
  { intros app1 ->. unfold toggle_busy, odict.getitem. rewrite Hbtn. simpl.
    rewrite get_set_eq. simpl. by rewrite set_set. }
  eexists _, _. split; [exact H1|]. split; [by apply H2|].
  split; [done|]. split.
  - intros Hno. split; [by apply toggle_list_absent|].
    rewrite (toggle_list_absent _ _ Hno).
    rewrite toggle_list_present
      by (rewrite fmap_app, elem_of_app; right; simpl; left).
    rewrite filter_app, filter_hour_absent by done.
    rewrite filter_cons_False, filter_nil by (simpl; tauto).
    rewrite app_nil_r, set_get_id by done.
    apply with_busy_slots_id.
  - intros Hin. rewrite (toggle_list_present _ _ Hin).
    split; [done|]. split; [apply filter_hour_gone|].
    split.
    + by rewrite toggle_list_absent by apply filter_hour_gone.
    + intros Hgrid. by apply grid_made_readd.
Qed.

(** ** The request: grouping tasks by goal *)

Lemma get_setdefault_append {V} k k' (x : V) d :
  odict.get k (setdefault_append k' x d)
  = if decide (k = k') then Some (default [] (odict.get k d) ++ [x])
    else odict.get k d.
Proof.
  unfold setdefault_append. case_decide as Hk.
  - subst k'. destruct (odict.get k d) as [l|] eqn:E; simpl.
    + apply get_set_eq.
    + rewrite get_app_None by done. simpl. by rewrite String.eqb_refl.
  - destruct (odict.get k' d) as [l|] eqn:E.
    + by apply get_set_ne.
    + destruct (odict.get k d) as [l|] eqn:E'.
      * by apply get_app_Some.
      * rewrite get_app_None by done. simpl.
        by apply String.eqb_neq in Hk as ->.
Qed.

Lemma bucket_cons k t ts :
  bucket k (t :: ts)
  = if decide (goal_key t = k) then task_summary t :: bucket k ts
    else bucket k ts.
Proof.
  unfold bucket. case_decide.
  - by rewrite filter_cons_True.
  - by rewrite filter_cons_False.
Qed.

Lemma group_tasks_fold k ts d :
  odict.get k
    (foldl (λ tasks_by_goal task,
              setdefault_append (goal_key task) (task_summary task)
                tasks_by_goal) d ts)
  = merge_bucket (odict.get k d) (bucket k ts).
Proof.
  revert d. induction ts as [|t ts IH]; intros d; simpl.
  - unfold bucket. simpl. destruct (odict.get k d); simpl; [|done].
    by rewrite app_nil_r.
  - rewrite IH, get_setdefault_append, bucket_cons.
    destruct (decide (k = goal_key t)) as [->|Hne].
    + rewrite decide_True by done.
      destruct (odict.get (goal_key t) d) as [l|]; simpl.
      * destruct (bucket _ ts); simpl; by rewrite <- app_assoc.
      * by destruct (bucket _ ts).
    + by rewrite decide_False by done.
Qed.

(** The dictionary [tasks_by_goal] holds, under each key, the tasks with
    that key; keys without a task are absent. *)
Lemma group_tasks_get k ts :
  odict.get k (group_tasks ts)
  = match bucket k ts with [] => None | b => Some b end.
Proof.
  unfold group_tasks. rewrite group_tasks_fold. simpl.
  by destruct (bucket k ts).
Qed.

Lemma bucket_nonempty k ts :
  bucket k ts ≠ [] ↔ ∃ t, t ∈ ts ∧ goal_key t = k.
Proof.
  unfold bucket. split.
  - intros Hne. destruct (filter _ ts) as [|t l] eqn:E; [done|].
    exists t. assert (t ∈ filter (λ t, goal_key t = k) ts) as Hin
      by (rewrite E; left).
    apply list_elem_of_filter in Hin. tauto.
  - intros (t & Hin & Hk) Hnil.
    apply fmap_nil_inv in Hnil.
    assert (t ∈ filter (λ t, goal_key t = k) ts) as Hf
      by (by apply list_elem_of_filter).
    rewrite Hnil in Hf. by apply elem_of_nil in Hf.
Qed.

Lemma goal_key_named t g : goal t = Some g → g ≠ "" → goal_key t = g.
Proof.
  unfold goal_key. intros -> Hne. by apply String.eqb_neq in Hne as ->.
Qed.

Lemma goal_key_unaligned t :
  goal_key t = "Unaligned"
  ↔ goal t = None ∨ goal t = Some "" ∨ goal t = Some "Unaligned".
Proof.
  unfold goal_key. destruct (goal t) as [g|]; [|split; [by left | done]].
  destruct (String.eqb g "") eqn:E.
  - apply String.eqb_eq in E as ->. split; [by right; left | done].
  - apply String.eqb_neq in E. split; [intros ->; by right; right|].
    intros [?|[?|?]]; congruence.
Qed.

Lemma elem_of_set_key {V} (item : string * V) k v d :
  item ∈ odict.set k v d → fst item = k ∨ fst item ∈ odict.keys d.
Proof.
  unfold odict.keys. induction d as [|[k' v'] d IH]; csimpl.
  - intros ->%list_elem_of_singleton. by left.
  - destruct (String.eqb_spec k k') as [->|Hne].
    + intros [->|Hin]%elem_of_cons; [by left|].
      right. right. by apply list_elem_of_fmap_2.
    + intros [->|Hin]%elem_of_cons; [right; left|].
      destruct (IH Hin) as [?|?]; [by left|by right; right].
Qed.

(** the names in [goal_lookup] are names of goals *)
Lemma goal_lookup_names gs item :
  item ∈ goal_lookup gs → fst item ∈ goal_name <$> gs.
Proof.
  unfold goal_lookup.
  assert (∀ d : list (string * Goal),
            item ∈ foldl (λ d g, odict.set (goal_name g) g d) d gs →
            fst item ∈ odict.keys d ∨ fst item ∈ goal_name <$> gs) as Hfold.
  { induction gs as [|g gs IH]; intros d; simpl.
    - intros Hin. left. by apply list_elem_of_fmap_2.
    - intros [Hd|Hgs]%IH; [|by right; right].
      destruct (decide (fst item = goal_name g)) as [->|Hne];
        [right; left|].
      unfold odict.keys in Hd.
      apply list_elem_of_fmap in Hd as (item' & Heq & Hin).
      apply elem_of_set_key in Hin as [Hk|Hk]; [congruence|].
      left. by rewrite Heq. }
  intros [Hnil|Hin]%Hfold; [|done]. by apply elem_of_nil in Hnil.
Qed.

(** C1, as the code has it.  Every task is grouped under its own key: the
    name in its goal field when that is a non-empty name, whether or not a
    Goal of that name exists, and the literal ["Unaligned"] when the task
    has no goal reference.  The goal focus is one entry per Goal name
    followed by an ["Unaligned"] entry, which is there if and only if some
    task has the key ["Unaligned"]; it lists exactly those tasks.  A task
    whose goal names no existing Goal is therefore with the unaligned
    tasks only when that name is itself the text ["Unaligned"]; under any
    other name no entry of the goal focus lists its bucket. *)
Theorem goal_focus_unaligned (ts : list Task) (gs : list Goal) :
  (∀ t, t ∈ ts →
     odict.get (goal_key t) (group_tasks ts) = Some (bucket (goal_key t) ts)
     ∧ task_summary t ∈ bucket (goal_key t) ts)
  ∧ (∀ t g, goal t = Some g → g ≠ "" → goal_key t = g)
  ∧ (∀ t, goal_key t = "Unaligned"
          ↔ goal t = None ∨ goal t = Some "" ∨ goal t = Some "Unaligned")
  ∧ goal_summaries ts gs
    = (goal_entry ts <$> goal_lookup gs)
      ++ (if decide (Exists (λ t, goal_key t = "Unaligned") ts)
          then [unaligned_entry ts] else [])
  ∧ (∀ e, e ∈ goal_entry ts <$> goal_lookup gs →
       gf_goal e ∈ goal_name <$> gs
       ∧ gf_tasks e = bucket (gf_goal e) ts)
  ∧ (∀ t g, t ∈ ts → goal t = Some g → g ≠ "" →
       g ∉ goal_name <$> gs →
       (g ≠ "Unaligned" →
        ∀ e, e ∈ goal_summaries ts gs → gf_goal e ≠ g)
       ∧ (g = "Unaligned" →
          unaligned_entry ts ∈ goal_summaries ts gs
          ∧ task_summary t ∈ gf_tasks (unaligned_entry ts)))
  ∧ (∀ app ctx, _build_schedule_context app = Ok ctx →
       ctx_goal_focus ctx = goal_summaries (tasks app) (goals app)).
Proof.
  assert (goal_summaries ts gs
          = (goal_entry ts <$> goal_lookup gs)
            ++ (if decide (Exists (λ t, goal_key t = "Unaligned") ts)
                then [unaligned_entry ts] else [])) as Hshape.
  { unfold goal_summaries. rewrite group_tasks_get.
    assert ((λ '(name, g),
               {| gf_goal := name; gf_difficulty := goal_difficulty g;
                  gf_notes := goal_notes g;
                  gf_tasks := default [] (odict.get name (group_tasks ts)) |})
              <$> goal_lookup gs
            = goal_entry ts <$> goal_lookup gs) as ->.
    { apply list_fmap_ext. intros _ [name g] _. unfold goal_entry. simpl.
      f_equal. rewrite group_tasks_get. by destruct (bucket name ts). }
    pose proof (bucket_nonempty "Unaligned" ts) as Hne.
    rewrite <- Exists_exists in Hne.
    case_decide as Hex.
    + apply Hne in Hex. unfold unaligned_entry.
      by destruct (bucket "Unaligned" ts).
    + destruct (bucket "Unaligned" ts) eqn:E; [by rewrite app_nil_r|].
      exfalso. apply Hex, Hne. done. }
  assert (∀ e, e ∈ goal_entry ts <$> goal_lookup gs →
            gf_goal e ∈ goal_name <$> gs
            ∧ gf_tasks e = bucket (gf_goal e) ts) as Hnamed.
  { intros e (item & -> & Hin)%list_elem_of_fmap. split; [|done].
    by apply goal_lookup_names in Hin. }
  assert (∀ t, t ∈ ts → task_summary t ∈ bucket (goal_key t) ts) as Hin_bucket.
  { intros t Hin. unfold bucket. apply list_elem_of_fmap_2.
    by apply list_elem_of_filter. }
  split; [|split; [apply goal_key_named|split; [apply goal_key_unaligned|
    split; [done|split; [done|split]]]]].
  - intros t Hin. specialize (Hin_bucket t Hin). split; [|done].
    rewrite group_tasks_get.
    destruct (bucket _ ts); [by apply elem_of_nil in Hin_bucket | done].
  - intros t g Hin Hgoal Hne Hdangling. split.
    + intros Hg e. rewrite Hshape, elem_of_app.
      intros [He|He] Heq.
      * apply Hnamed in He as [He _]. by rewrite Heq in He.
      * case_decide; [|by apply elem_of_nil in He].
        apply list_elem_of_singleton in He as ->. simpl in Heq. congruence.
    + intros ->.
      assert (goal_key t = "Unaligned") as Hkey
        by (apply goal_key_unaligned; by right; right).
      split.
      * rewrite Hshape, elem_of_app. right.
        rewrite decide_True; [left|].
        apply Exists_exists. by exists t.
      * simpl. rewrite <- Hkey. by apply Hin_bucket.
  - intros app ctx. unfold _build_schedule_context.
    destruct (_build_busy_context app); simpl; [|done].
    by intros [= <-].
Qed.

(** ** Sorting *)

Lemma string_ltb_leb s t : String.ltb s t = negb (String.leb t s).
Proof.
  unfold String.ltb, String.leb. rewrite (String.compare_antisym t s).
  by destruct (String.compare s t).
Qed.

Lemma key_lt_false a b : key_lt b a = false ↔ key_le a b.
Proof.
  unfold key_lt, key_le, String.le. destruct a as [i s], b as [j t]; simpl.
  destruct (Z.eqb_spec j i) as [->|Hne].
  - rewrite string_ltb_leb, negb_false_iff, Is_true_true. split.
    + intros H. right. done.
    + intros [?|[_ ?]]; [lia|done].
  - rewrite Z.ltb_ge. split.
    + intros H. left. lia.
    + intros [?|[? _]]; lia.
Qed.

Lemma key_lt_true a b : key_lt a b = true → key_le a b.
Proof.
  unfold key_lt, key_le, String.le. destruct a as [i s], b as [j t]; simpl.
  destruct (Z.eqb_spec i j) as [->|Hne].
  - unfold String.ltb, String.leb. intros H. right. split; [done|].
    by destruct (String.compare s t).
  - intros ?%Z.ltb_lt. by left.
Qed.

Global Instance key_le_trans : Transitive key_le.
Proof.
  intros [i s] [j t] [k u]. unfold key_le; simpl.
  intros [?|[-> Hst]] [?|[-> Htu]]; try (left; lia).
  right. split; [done|]. by etrans.
Qed.

Section insertion.
Context {A : Type}.
Implicit Types (x : (Z * string) * A) (l : list ((Z * string) * A)).

Local Abbreviation keyed_le :=
  (λ y z : (Z * string) * A, key_le (fst y) (fst z)).

Lemma insert_keyed_perm x l : insert_keyed x l ≡ₚ x :: l.
Proof.
  induction l as [|y l IH]; simpl; [done|].
  destruct (key_lt (fst y) (fst x)); [|done].
  rewrite IH. apply Permutation_swap.
Qed.

Lemma sort_keyed_perm l : sort_keyed l ≡ₚ l.
Proof.
  induction l as [|x l IH]; simpl; [done|].
  by rewrite insert_keyed_perm, IH.
Qed.

Lemma insert_keyed_sorted x l :
  StronglySorted keyed_le l → StronglySorted keyed_le (insert_keyed x l).
Proof.
  induction 1 as [|y l Hl IH Hy]; simpl.
  - repeat constructor.
  - destruct (key_lt (fst y) (fst x)) eqn:E.
    + constructor; [done|].
      rewrite insert_keyed_perm. constructor; [|done].
      by apply key_lt_true.
    + apply key_lt_false in E.
      constructor; [by constructor|].
      constructor; [done|].
      eapply Forall_impl; [exact Hy|].
      intros z Hz. simpl in *. by etrans.
Qed.

Lemma sort_keyed_sorted l : StronglySorted keyed_le (sort_keyed l).
Proof.
  induction l as [|x l IH]; simpl; [constructor|].
  by apply insert_keyed_sorted.
Qed.
End insertion.

Lemma key_lt_irrefl a : key_lt a a = false.
Proof.
  apply key_lt_false. destruct a as [i s]. right. split; [done|].
  simpl. reflexivity.
Qed.

(** The sort is stable: blocks with the same key keep their order. *)
Lemma insert_keyed_stable {A} k (x : (Z * string) * A) l :
  filter (λ y, fst y = k) (insert_keyed x l)
  = filter (λ y, fst y = k) (x :: l).
Proof.
  induction l as [|y l IH]; simpl; [done|].
  destruct (key_lt (fst y) (fst x)) eqn:E; [|done].
  destruct (decide (fst y = k)) as [Hy|Hy].
  - assert (fst x ≠ k) as Hx.
    { intros Hx. rewrite Hx, Hy, key_lt_irrefl in E. done. }
    rewrite (filter_cons_True _ y) by done.
    rewrite IH, !(filter_cons_False _ x) by done.
    by rewrite filter_cons_True.
  - rewrite (filter_cons_False _ y) by done. rewrite IH.
    destruct (decide (fst x = k)).
    + rewrite !(filter_cons_True _ x) by done.
      by rewrite filter_cons_False.
    + rewrite !(filter_cons_False _ x) by done.
      by rewrite filter_cons_False.
Qed.

Lemma sort_keyed_stable {A} k (l : list ((Z * string) * A)) :
  filter (λ y, fst y = k) (sort_keyed l) = filter (λ y, fst y = k) l.
Proof.
  induction l as [|x l IH]; simpl; [done|].
  rewrite insert_keyed_stable.
  destruct (decide (fst x = k)).
  - rewrite !filter_cons_True by done. by rewrite IH.
  - rewrite !filter_cons_False by done. by rewrite IH.
Qed.

Lemma list_index_Ok d ds : d ∈ ds → ∃ i, list_index d ds = Ok i.
Proof.
  induction ds as [|y ds IH]; [by intros ?%elem_of_nil|].
  simpl. destruct (String.eqb d y) eqn:E; [by eexists|].
  apply String.eqb_neq in E.
  intros [?|Hin]%elem_of_cons; [done|].
  destruct (IH Hin) as [i ->]. by eexists.
Qed.

Lemma str_in_elem x xs : str_in x xs = true ↔ x ∈ xs.
Proof.
  unfold str_in. rewrite existsb_exists. split.
  - intros (y & Hin & ->%String.eqb_eq). by apply list_elem_of_In.
  - intros Hin. exists x. split; [by apply list_elem_of_In|].
    apply String.eqb_refl.
Qed.

Lemma sort_key_Ok b : day b ∈ WEEKDAYS → sort_key b = Ok (key_of b).
Proof.
  intros Hin. unfold sort_key, key_of, day_index.
  by destruct (list_index_Ok _ _ Hin) as [i ->].
Qed.

Lemma keys_loop blocks acc :
  Forall (λ b, day b ∈ WEEKDAYS) blocks →
  for_each blocks (λ acc b, k ← sort_key b; Ok (acc ++ [(k, b)])) acc
  = Ok (acc ++ ((λ b, (key_of b, b)) <$> blocks)).
Proof.
  intros Hall. revert acc.
  induction Hall as [|b blocks Hb _ IH]; intros acc; simpl.
  - by rewrite app_nil_r.
  - rewrite sort_key_Ok by done. simpl. rewrite IH.
    by rewrite <- app_assoc.
Qed.

(** [sorted] returns the blocks rearranged in the order of their keys. *)
Lemma sorted_blocks_spec blocks :
  Forall (λ b, day b ∈ WEEKDAYS) blocks →
  ∃ out, sorted_blocks blocks = Ok out
         ∧ out ≡ₚ blocks
         ∧ StronglySorted (λ a b, key_le (key_of a) (key_of b)) out.
Proof.
  intros Hall. unfold sorted_blocks. rewrite keys_loop by done. simpl.
  eexists. split; [done|]. split.
  - rewrite sort_keyed_perm, <- list_fmap_compose.
    by rewrite list_fmap_id.
  - pose proof (sort_keyed_perm ((λ b, (key_of b, b)) <$> blocks)) as Hp.
    pose proof (sort_keyed_sorted ((λ b, (key_of b, b)) <$> blocks)) as Hs.
    assert (Forall (λ x, fst x = key_of (snd x))
              (sort_keyed ((λ b, (key_of b, b)) <$> blocks))) as Hk.
    { rewrite Hp. apply Forall_fmap. by apply Forall_true. }
    revert Hs Hk. generalize (sort_keyed ((λ b, (key_of b, b)) <$> blocks)).
    induction 1 as [|[k b] l Hl IH Hb]; intros Hk; csimpl; [constructor|].
    apply Forall_cons in Hk as [Hkb Hk]. simpl in Hkb. subst k.
    constructor; [by apply IH|].
    apply Forall_fmap, Forall_forall. intros [k' b'] Hin. simpl.
    rewrite Forall_forall in Hb, Hk.
    specialize (Hb _ Hin). specialize (Hk _ Hin).
    simpl in *. by subst k'.
Qed.

(** ** The parser *)

Lemma make_block_accepted day e :
  make_block day e
  = match accepted day e with Some b => Ok b | None => Raise KeyError end.
Proof.
  unfold make_block, accepted, odict.getitem.
  destruct (odict.get "title" e); simpl; [|done].
  destruct (odict.get "start" e); simpl; [|done].
  by destruct (odict.get "end" e).
Qed.

Lemma parse_entry_accepted day blocks e :
  parse_entry day blocks e = Ok (blocks ++ option_list (accepted day e)).
Proof.
  unfold parse_entry. rewrite make_block_accepted.
  destruct (accepted day e); simpl; [done|]. by rewrite app_nil_r.
Qed.

Lemma entries_loop day entries blocks :
  for_each entries (parse_entry day) blocks
  = Ok (blocks ++ omap (accepted day) entries).
Proof.
  revert blocks. induction entries as [|e entries IH]; intros blocks; simpl.
  - by rewrite app_nil_r.
  - rewrite parse_entry_accepted. simpl. rewrite IH, <- app_assoc.
    by destruct (accepted day e).
Qed.

Lemma accepted_blocks_cons d entries days :
  accepted_blocks ((d, entries) :: days)
  = (if str_in d WEEKDAYS then omap (accepted d) entries else [])
    ++ accepted_blocks days.
Proof. done. Qed.

Lemma days_loop days blocks :
  for_each days parse_day blocks = Ok (blocks ++ accepted_blocks days).
Proof.
  revert blocks. induction days as [|[d entries] days IH]; intros blocks.
  - simpl. by rewrite app_nil_r.
  - rewrite accepted_blocks_cons. simpl.
    destruct (str_in d WEEKDAYS); simpl.
    + rewrite entries_loop. simpl. by rewrite IH, <- app_assoc.
    + apply IH.
Qed.

Lemma accepted_day d e b : accepted d e = Some b → day b = d.
Proof.
  unfold accepted.
  destruct (odict.get "title" e), (odict.get "start" e),
    (odict.get "end" e); try done.
  by intros [= <-].
Qed.

Lemma elem_of_accepted_blocks b days :
  b ∈ accepted_blocks days
  ↔ ∃ day entries e, (day, entries) ∈ days ∧ day ∈ WEEKDAYS ∧ e ∈ entries
                     ∧ accepted day e = Some b.
Proof.
  unfold accepted_blocks. rewrite list_elem_of_bind. split.
  - intros ([day entries] & Hb & Hin).
    destruct (str_in day WEEKDAYS) eqn:E; [|by apply elem_of_nil in Hb].
    apply str_in_elem in E.
    apply list_elem_of_omap in Hb as (e & He & Hacc).
    by exists day, entries, e.
  - intros (day & entries & e & Hin & Hday & He & Hacc).
    exists (day, entries). split; [|done].
    apply str_in_elem in Hday as ->.
    apply list_elem_of_omap. by exists e.
Qed.

Lemma accepted_blocks_days days :
  Forall (λ b, day b ∈ WEEKDAYS) (accepted_blocks days).
Proof.
  apply Forall_forall. intros b Hb.
  apply elem_of_accepted_blocks in Hb
    as (d & entries & e & _ & Hd & _ & Hacc).
  by rewrite (accepted_day _ _ _ Hacc).
Qed.

Lemma parse_schedule_sorted schedule :
  ∃ blocks,
    _parse_schedule schedule = Ok blocks
    ∧ blocks ≡ₚ accepted_blocks (default [] (odict.get "days" schedule))
    ∧ StronglySorted (λ a b, key_le (key_of a) (key_of b)) blocks.
Proof.
  unfold _parse_schedule. cbv zeta. rewrite days_loop. simpl.
  apply sorted_blocks_spec, accepted_blocks_days.
Qed.

(** The blocks of a parsed response are on canonical weekdays. *)
Lemma parse_schedule_days schedule blocks :
  _parse_schedule schedule = Ok blocks →
  Forall (λ b, day b ∈ WEEKDAYS) blocks.
Proof.
  destruct (parse_schedule_sorted schedule) as (blocks' & -> & Hp & _).
  intros [= <-]. rewrite Hp. apply accepted_blocks_days.
Qed.


(** ** Zero-padded times *)

Lemma ascii_compare_digit a b :
  Ascii.compare a b = (datetime.digit a ?= datetime.digit b).
Proof.
  unfold Ascii.compare, datetime.digit. rewrite <- N2Z.inj_compare.
  destruct (Z.compare_spec (Z.of_N (N_of_ascii a)) (Z.of_N (N_of_ascii b)));
    symmetry;
    [apply Z.compare_eq_iff|apply Z.compare_lt_iff|apply Z.compare_gt_iff];
    lia.
Qed.

Lemma in_range_intro lo hi c :
  datetime.is_digit c = true → lo ≤ datetime.digit c ≤ hi →
  datetime.in_range lo hi c = true.
Proof.
  intros Hd [Hlo Hhi]. unfold datetime.in_range. rewrite Hd. simpl.
  apply andb_true_iff. split; by apply Z.leb_le.
Qed.

Lemma in_range_outside lo hi c :
  datetime.digit c < lo ∨ hi < datetime.digit c →
  datetime.in_range lo hi c = false.
Proof.
  intros H. unfold datetime.in_range.
  destruct (datetime.is_digit c); simpl; [|done].
  apply andb_false_iff. rewrite Z.leb_gt, Z.leb_gt. tauto.
Qed.

Lemma re_H_two a b r :
  datetime.is_digit a = true → datetime.is_digit b = true →
  10 * datetime.digit a + datetime.digit b < 24 →
  ∃ l, datetime.re_H (String a (String b r))
       = (10 * datetime.digit a + datetime.digit b, r) :: l.
Proof.
  intros Ha Hb Hlt. pose proof (digit_range _ Ha). pose proof (digit_range _ Hb).
  unfold datetime.re_H, datetime.re_two.
  destruct (decide (datetime.digit a = 2)) as [E|E].
  - rewrite (in_range_intro 2 2 a), (in_range_intro 0 3 b) by (done || lia).
    simpl. by eexists.
  - rewrite (in_range_outside 2 2 a) by lia. simpl.
    rewrite (in_range_intro 0 1 a), Hb by (done || lia).
    simpl. by eexists.
Qed.

Lemma re_M_two c d r :
  datetime.is_digit c = true → datetime.is_digit d = true →
  datetime.digit c < 6 →
  ∃ l, datetime.re_M (String c (String d r))
       = (10 * datetime.digit c + datetime.digit d, r) :: l.
Proof.
  intros Hc Hd Hlt. pose proof (digit_range _ Hc).
  unfold datetime.re_M, datetime.re_two.
  rewrite (in_range_intro 0 5 c), Hd by (done || lia).
  simpl. by eexists.
Qed.

(** the shape behind [hhmm s = Some n] *)
Lemma hhmm_inv s n :
  hhmm s = Some n →
  ∃ a b c d,
    s = String a (String b (String ":" (String c (String d EmptyString))))
    ∧ datetime.is_digit a = true ∧ datetime.is_digit b = true
    ∧ datetime.is_digit c = true ∧ datetime.is_digit d = true
    ∧ 10 * datetime.digit a + datetime.digit b < 24
    ∧ datetime.digit c < 6
    ∧ n = 60 * (10 * datetime.digit a + datetime.digit b)
          + 10 * datetime.digit c + datetime.digit d.
Proof.
  destruct s as [|a [|b [|c0 [|c [|d [|]]]]]]; try done;
    try (by destruct c0 as [[] [] [] [] [] [] [] []]).
  destruct c0 as [[] [] [] [] [] [] [] []]; try done.
  unfold hhmm.
  destruct (datetime.is_digit a) eqn:Ha; [|done].
  destruct (datetime.is_digit b) eqn:Hb; [|done].
  destruct (datetime.is_digit c) eqn:Hc; [|done].
  destruct (datetime.is_digit d) eqn:Hd; [|done].
  simpl.
  destruct (Z.ltb_spec (10 * datetime.digit a + datetime.digit b) 24);
    [|done].
  destruct (Z.ltb_spec (datetime.digit c) 6); [|done].
  simpl. intros [= <-]. by exists a, b, c, d.
Qed.

(** A zero-padded time is read by [strptime] as that time. *)
Lemma hhmm_strptime s n :
  hhmm s = Some n →
  ∃ d, datetime.strptime_HM s = Ok d ∧ datetime.minute_of_day d = n.
Proof.
  intros (a & b & c & d & -> & Ha & Hb & Hc & Hd & Hh & Hm & ->)%hhmm_inv.
  unfold datetime.strptime_HM, datetime.re_HM.
  destruct (re_H_two a b (String ":" (String c (String d EmptyString)))
              Ha Hb Hh) as [l1 ->].
  csimpl.
  destruct (re_M_two c d EmptyString Hc Hd Hm) as [l2 ->].
  csimpl. eexists. split; [done|].
  unfold datetime.minute_of_day. simpl. lia.
Qed.

(** On zero-padded times the dictionary order is the order in time. *)
Lemma hhmm_le s t n m :
  hhmm s = Some n → hhmm t = Some m → String.le s t ↔ n ≤ m.
Proof.
  intros (a & b & c & d & -> & Ha & Hb & Hc & Hd & Hh & Hm & ->)%hhmm_inv.
  intros (a' & b' & c' & d' & -> & Ha' & Hb' & Hc' & Hd' & Hh' & Hm' & ->)%hhmm_inv.
  apply digit_range in Ha, Hb, Hc, Hd, Ha', Hb', Hc', Hd'.
  unfold String.le, String.leb. simpl String.compare.
  rewrite !ascii_compare_digit.
  change (datetime.digit ":" ?= datetime.digit ":") with Eq.
  destruct (Z.compare_spec (datetime.digit a) (datetime.digit a'));
    [|split; [lia | done]|split; [done | lia]].
  destruct (Z.compare_spec (datetime.digit b) (datetime.digit b'));
    [|split; [lia | done]|split; [done | lia]].
  destruct (Z.compare_spec (datetime.digit c) (datetime.digit c'));
    [|split; [lia | done]|split; [done | lia]].
  destruct (Z.compare_spec (datetime.digit d) (datetime.digit d'));
    split; (done || lia).
Qed.

Lemma StronglySorted_weaken {A} (R R' : A → A → Prop) l :
  (∀ x y, x ∈ l → y ∈ l → R x y → R' x y) →
  StronglySorted R l → StronglySorted R' l.
Proof.
  intros Himp. induction 1 as [|x l Hl IH Hx]; [constructor|].
  constructor.
  - apply IH. intros y z Hy Hz. apply Himp; by right.
  - apply Forall_forall. intros y Hy.
    rewrite Forall_forall in Hx. apply Himp; [left|by right|by apply Hx].
Qed.

Lemma key_le_chrono a b :
  is_Some (hhmm (start_time a)) → is_Some (hhmm (start_time b)) →
  key_le (key_of a) (key_of b) → chrono_le a b.
Proof.
  intros [n Hn] [m Hm]. unfold key_le, key_of, chrono_le. simpl.
  rewrite Hn, Hm. simpl. rewrite (hhmm_le _ _ _ _ Hn Hm). done.
Qed.

(** C4, as the code has it.  The parser's output is ordered by the pair of
    the weekday's index in the canonical week and the start-time text in
    dictionary order.  When every start time is a zero-padded HH:MM text
    this is the order in time across the week; blocks entered as Wednesday
    09:00, Monday 14:00, Monday 08:00 come out as Monday 08:00, Monday
    14:00, Wednesday 09:00. *)
Theorem parse_schedule_order (schedule : Schedule) :
  ∃ blocks,
    _parse_schedule schedule = Ok blocks
    ∧ StronglySorted (λ a b, key_le (key_of a) (key_of b)) blocks
    ∧ (Forall (λ b, is_Some (hhmm (start_time b))) blocks →
       StronglySorted chrono_le blocks
       ∧ Forall (λ b, ∃ n, hhmm (start_time b) = Some n ∧ starts_at b n)
           blocks)
    ∧ _parse_schedule week_sample
      = Ok [ mkTimeBlock "Plan" "Monday" "08:00" "09:00" "";
             mkTimeBlock "Review" "Monday" "14:00" "15:00" "";
             mkTimeBlock "Deep work" "Wednesday" "09:00" "10:00" "" ].
Proof.
  destruct (parse_schedule_sorted schedule) as (blocks & H & _ & Hs).
  exists blocks. split; [done|]. split; [done|]. split; [|done].
  intros Hpad. split.
  - eapply StronglySorted_weaken; [|exact Hs].
    rewrite Forall_forall in Hpad.
    intros a b Ha Hb. apply key_le_chrono; by apply Hpad.
  - eapply Forall_impl; [exact Hpad|].
    intros b [n Hn]. exists n. split; [done|]. by apply hhmm_strptime.
Qed.

(** ** Conflicts *)

Lemma strptime_raises s e : datetime.strptime_HM s = Raise e → e = ValueError.
Proof.
  unfold datetime.strptime_HM.
  destruct (datetime.re_HM s) as [|[[h m] r] l]; [by intros [= <-]|].
  destruct (String.eqb r ""); [done|by intros [= <-]].
Qed.

Lemma overlaps_raises a b e : overlaps a b = Raise e → e = ValueError.
Proof.
  unfold overlaps. destruct (negb _); [done|].
  destruct (datetime.strptime_HM (start_time a)) eqn:E1; simpl;
    [|intros [= <-]; by eapply strptime_raises].
  destruct (datetime.strptime_HM (end_time a)) eqn:E2; simpl;
    [|intros [= <-]; by eapply strptime_raises].
  destruct (datetime.strptime_HM (start_time b)) eqn:E3; simpl;
    [|intros [= <-]; by eapply strptime_raises].
  destruct (datetime.strptime_HM (end_time b)) eqn:E4; simpl;
    [done|intros [= <-]; by eapply strptime_raises].
Qed.

(** A block meets a busy block of its day whose end does not parse. *)
Lemma overlaps_bad_end a b :
  day a = day b → datetime.strptime_HM (end_time b) = Raise ValueError →
  overlaps a b = Raise ValueError.
Proof.
  intros Hd Hend. destruct (overlaps a b) as [r|e] eqn:E.
  - exfalso. revert E. unfold overlaps.
    apply String.eqb_eq in Hd as ->. simpl.
    destruct (datetime.strptime_HM (start_time a)); simpl; [|done].
    destruct (datetime.strptime_HM (end_time a)); simpl; [|done].
    destruct (datetime.strptime_HM (start_time b)); simpl; [|done].
    by rewrite Hend.
  - by apply overlaps_raises in E as ->.
Qed.

(** A loop that meets an item on which its body raises [ValueError], and
    whose body raises nothing else, raises [ValueError]. *)
Lemma for_each_raises {A S} (xs : list A) (body : S → A → result S) x s :
  (∀ s y e, body s y = Raise e → e = ValueError) →
  x ∈ xs → (∀ s, body s x = Raise ValueError) →
  for_each xs body s = Raise ValueError.
Proof.
  intros Hval Hin Hx. revert s.
  induction xs as [|y xs IH]; intros s; [by apply elem_of_nil in Hin|].
  simpl. apply elem_of_cons in Hin as [<-|Hin].
  - by rewrite Hx.
  - destruct (body s y) as [s'|e] eqn:E; simpl; [by apply IH|].
    by apply Hval in E as ->.
Qed.

Lemma busy_loop day slots ctx l0 :
  odict.get day ctx = Some l0 →
  for_each slots
    (λ busy_context slot,
       l ← odict.getitem day busy_context;
       Ok (odict.set day (l ++ [busy_entry slot]) busy_context))
    ctx
  = Ok (odict.set day (l0 ++ (busy_entry <$> slots)) ctx).
Proof.
  revert ctx l0. induction slots as [|slot slots IH]; intros ctx l0 Hget.
  - simpl. by rewrite app_nil_r, set_get_id.
  - simpl. unfold odict.getitem. rewrite Hget. simpl.
    rewrite (IH _ (l0 ++ [busy_entry slot])) by apply get_set_eq.
    by rewrite set_set, <- app_assoc.
Qed.

(** On the dictionary that [__init__] creates and [toggle_busy] updates,
    the busy context is the snapshot. *)
Lemma build_busy_context_snapshot app :
  odict.keys (busy_slots app) = WEEKDAYS →
  _build_busy_context app = Ok (busy_snapshot (busy_slots app)).
Proof.
  unfold _build_busy_context, busy_snapshot, odict.keys.
  destruct (busy_slots app)
    as [|[d1 l1] [|[d2 l2] [|[d3 l3] [|[d4 l4] [|[d5 l5] [|[d6 l6]
        [|[d7 l7] [|]]]]]]]]; try done.
  intros [= -> -> -> -> -> -> ->].
  cbn [for_each mbind result_bind].
  repeat (erewrite busy_loop by reflexivity; cbn [mbind result_bind]).
  done.
Qed.

Lemma elem_of_busy_blocks day slots slot busy :
  odict.get day busy = Some slots → slot ∈ slots →
  {| title := "Busy"; day := day; start_time := be_start slot;
     end_time := be_end slot; details := "" |} ∈ busy_blocks_of busy.
Proof.
  intros Hget Hin. unfold busy_blocks_of.
  induction busy as [|[d l] busy IH]; [done|].
  simpl in Hget. rewrite bind_cons, elem_of_app.
  destruct (String.eqb day d) eqn:E.
  - apply String.eqb_eq in E as <-. injection Hget as ->. left.
    apply list_elem_of_bind. exists slot. split; [left|done].
  - right. by apply IH.
Qed.

Lemma get_busy_snapshot day busy slots :
  odict.get day busy = Some slots →
  odict.get day (busy_snapshot busy) = Some (busy_entry <$> slots).
Proof.
  unfold busy_snapshot. induction busy as [|[d l] busy IH]; [done|].
  csimpl. destruct (String.eqb day d); [by intros [= ->]|done].
Qed.

Lemma for_each_only {A S} (xs : list A) (body : S → A → result S) s e :
  (∀ s y e, body s y = Raise e → e = ValueError) →
  for_each xs body s = Raise e → e = ValueError.
Proof.
  intros Hval. revert s. induction xs as [|y xs IH]; intros s; [done|].
  simpl. destruct (body s y) as [s'|e'] eqn:E; simpl; [apply IH|].
  intros [= <-]. by eapply Hval.
Qed.

Lemma conflict_step_raises block messages busy e :
  (hit ← overlaps block busy;
   Ok (if hit : bool then messages ++ [conflict_message block]
       else messages)) = Raise e →
  e = ValueError.
Proof.
  destruct (overlaps block busy) eqn:E; simpl; [done|].
  intros [= <-]. by eapply overlaps_raises.
Qed.

(** C10, as the code has it.  A slot at hour 23 of duration 1 becomes a
    busy interval ending at ["24:00"], which [strptime] refuses.  With
    such a slot in the busy-time model, conflict detection raises
    [ValueError] on every list that has a block on the weekday of that
    slot. *)
Theorem find_conflicts_midnight (app : App) (blocks : list TimeBlock)
    (slots : list (Z * Z)) (b : TimeBlock) :
  odict.keys (busy_slots app) = WEEKDAYS →
  odict.get (day b) (busy_slots app) = Some slots →
  (23, 1) ∈ slots →
  b ∈ blocks →
  busy_entry (23, 1) = mkBusyEntry "23:00" "24:00" "Busy"
  ∧ datetime.strptime_HM "24:00" = Raise ValueError
  ∧ _find_conflicts app blocks = Raise ValueError.
Proof.
  intros Hkeys Hget Hslot Hb. split; [done|]. split; [done|].
  unfold _find_conflicts. rewrite build_busy_context_snapshot by done.
  cbn [mbind result_bind].
  apply for_each_raises with (x := b); [|done|].
  - intros messages block e. apply for_each_only.
    intros ???. apply conflict_step_raises.
  - intros messages.
    apply for_each_raises
      with (x := mkTimeBlock "Busy" (day b) "23:00" "24:00" "").
    + intros ???. apply conflict_step_raises.
    + apply (elem_of_busy_blocks (day b) (busy_entry <$> slots)
               (busy_entry (23, 1))).
      * by apply get_busy_snapshot.
      * by apply list_elem_of_fmap_2.
    + intros messages'. by rewrite overlaps_bad_end.
Qed.

Lemma conflict_report_cons busy_blocks block blocks :
  conflict_report busy_blocks (block :: blocks)
  = (busy_blocks ≫= λ busy,
       if hits block busy then [conflict_message block] else [])
    ++ conflict_report busy_blocks blocks.
Proof. done. Qed.

Lemma conflict_loops busy_blocks blocks messages :
  (∀ block busy, block ∈ blocks → busy ∈ busy_blocks →
     is_ok (overlaps block busy) = true) →
  for_each blocks
    (λ messages block,
       for_each busy_blocks
         (λ messages busy,
            hit ← overlaps block busy;
            Ok (if hit : bool then messages ++ [conflict_message block]
                else messages))
         messages)
    messages
  = Ok (messages ++ conflict_report busy_blocks blocks).
Proof.
  revert messages. induction blocks as [|block blocks IH];
    intros messages Hok.
  - simpl. by rewrite app_nil_r.
  - rewrite conflict_report_cons. simpl.
    assert (∀ bs messages,
      (∀ busy, busy ∈ bs → is_ok (overlaps block busy) = true) →
      for_each bs
        (λ messages busy,
           hit ← overlaps block busy;
           Ok (if hit : bool then messages ++ [conflict_message block]
               else messages))
        messages
      = Ok (messages
            ++ (bs ≫= λ busy,
                  if hits block busy then [conflict_message block] else [])))
      as Hinner.
    { induction bs as [|busy bs IHb]; intros msgs Hbs.
      - simpl. by rewrite app_nil_r.
      - simpl. unfold hits at 1.
        assert (is_ok (overlaps block busy) = true) as Hone
          by (apply Hbs; left).
        destruct (overlaps block busy) as [[]|]; [| |done]; simpl.
        + rewrite IHb by (intros; apply Hbs; by right).
          by rewrite <- app_assoc.
        + apply IHb. intros; apply Hbs; by right. }
    rewrite Hinner by (intros; apply Hok; [left|done]).
    simpl. rewrite IH by (intros; apply Hok; [by right|done]).
    by rewrite <- app_assoc.
Qed.

(** When every time of a block on a busy day parses, the detector returns
    the report: one message per pair that overlaps, in the order of the
    blocks. *)
Lemma find_conflicts_report app blocks :
  odict.keys (busy_slots app) = WEEKDAYS →
  (∀ block busy, block ∈ blocks →
     busy ∈ busy_blocks_of (busy_snapshot (busy_slots app)) →
     is_ok (overlaps block busy) = true) →
  _find_conflicts app blocks
  = Ok (conflict_report (busy_blocks_of (busy_snapshot (busy_slots app)))
          blocks).
Proof.
  intros Hkeys Hok. unfold _find_conflicts.
  rewrite build_busy_context_snapshot by done. cbn [mbind result_bind].
  by rewrite conflict_loops.
Qed.

(** C5, a state in which the detector fails.  With the cell Monday 23:00
    marked busy, a block on Monday from 22:00 to 23:00, which only touches
    the busy hour, makes [_find_conflicts] raise instead of returning the
    empty list. *)
Theorem find_conflicts_late_slot :
  toggle_busy (new_app no_gpt) "Monday" 23 = Ok late_slot_app
  ∧ _build_busy_context late_slot_app
    = Ok (odict.set "Monday" [mkBusyEntry "23:00" "24:00" "Busy"] empty_week)
  ∧ _find_conflicts late_slot_app [monday_evening] = Raise ValueError.
Proof. by vm_compute. Qed.

(** the examples of the specification *)
Example conflict_half_hour :
  toggle_busy (new_app no_gpt) "Monday" 9 = Ok morning_slot_app
  ∧ _find_conflicts morning_slot_app
      [mkTimeBlock "Study" "Monday" "09:30" "10:30" ""]
    = Ok ["Study on Monday 09:30-10:30 overlaps busy time."]
  ∧ _find_conflicts morning_slot_app
      [mkTimeBlock "Study" "Monday" "10:00" "11:00" ""]
    = Ok [].
Proof. repeat split; by vm_compute. Qed.

(** ** Generating a schedule *)

(** C9. When the scheduler client is unavailable, or the request
    raises, [generate_schedule] returns with the application state as it
    was: the generated blocks, the reminder thread and its stop flag, and
    everything else.  No exception leaves the callback.  Called while
    unavailable, the client itself raises. *)
Theorem generate_schedule_failure (app : App) :
  is_available (gpt app) = false
  ∨ (∃ context exc,
       _build_schedule_context app = Ok context
       ∧ gpt_generate_schedule (gpt app) context = Raise exc) →
  out_app (generate_schedule app) = app
  ∧ out_raised (generate_schedule app) = None
  ∧ generated_blocks (out_app (generate_schedule app)) = generated_blocks app
  ∧ reminder_thread (out_app (generate_schedule app)) = reminder_thread app
  ∧ stop_event (out_app (generate_schedule app)) = stop_event app
  ∧ (is_available (gpt app) = false →
     ∀ context, gpt_generate_schedule (gpt app) context = Raise RuntimeError).
Proof.
  intros Hfail.
  assert (out_app (generate_schedule app) = app
          ∧ out_raised (generate_schedule app) = None) as [Happ Hraised].
  { unfold generate_schedule. destruct (tasks app); [done|].
    destruct Hfail as [->|(context & exc & -> & ->)]; [done|].
    by destruct (is_available (gpt app)). }
  rewrite Happ. repeat split; try done.
  unfold is_available, gpt_generate_schedule.
  by destruct (client (gpt app)).
Qed.

(** ** Dates *)

Module datetime_arith.
Import datetime.

Lemma div_mod_pos a b q r :
  0 ≤ r < b → a = b * q + r → a `div` b = q ∧ a `mod` b = r.
Proof.
  intros Hr ->. split.
  - symmetry. apply (Z.div_unique_pos _ _ q r); [lia|done].
  - symmetry. apply (Z.mod_unique_pos _ _ q r); [lia|done].
Qed.

(** Shifting by whole days moves the date and keeps the time of day. *)
Lemma of_us_shift d k :
  wf d →
  of_us (to_us d + k * us_per_day)
  = {| ordinal := ordinal d + k; hour := hour d; minute := minute d;
       second := second d; microsecond := microsecond d |}.
Proof.
  intros (Hh & Hm & Hs & Hu). unfold of_us, to_us, us_per_day.
  destruct (div_mod_pos
              ((((ordinal d * 24 + hour d) * 60 + minute d) * 60
                + second d) * 1000000 + microsecond d + k * 86400000000)
              86400000000 (ordinal d + k)
              (((hour d * 60 + minute d) * 60 + second d) * 1000000
               + microsecond d)) as [-> ->]; [lia..|].
  destruct (div_mod_pos
              (((hour d * 60 + minute d) * 60 + second d) * 1000000
               + microsecond d)
              1000000 ((hour d * 60 + minute d) * 60 + second d)
              (microsecond d)) as [-> ->]; [lia..|].
  destruct (div_mod_pos ((hour d * 60 + minute d) * 60 + second d)
              3600 (hour d) (minute d * 60 + second d)) as [-> ->];
    [lia..|].
  destruct (div_mod_pos (minute d * 60 + second d) 60 (minute d)
              (second d)) as [-> _]; [lia..|].
  destruct (div_mod_pos ((hour d * 60 + minute d) * 60 + second d)
              60 (hour d * 60 + minute d) (second d)) as [_ ->];
    [lia..|].
  done.
Qed.

Lemma add_days d k :
  wf d →
  add d (timedelta 0 k 0)
  = {| ordinal := ordinal d + k; hour := hour d; minute := minute d;
       second := second d; microsecond := microsecond d |}.
Proof.
  intros Hwf. unfold add, timedelta.
  replace (to_us d + ((0 * 7 + k) * us_per_day + 0 * 60000000))
    with (to_us d + k * us_per_day) by lia.
  by apply of_us_shift.
Qed.

Lemma add_week d :
  wf d →
  add d (timedelta 1 0 0)
  = {| ordinal := ordinal d + 7; hour := hour d; minute := minute d;
       second := second d; microsecond := microsecond d |}.
Proof.
  intros Hwf. unfold add, timedelta.
  replace (to_us d + ((1 * 7 + 0) * us_per_day + 0 * 60000000))
    with (to_us d + 7 * us_per_day) by lia.
  by apply of_us_shift.
Qed.

Lemma sub_days d k :
  wf d →
  sub d (timedelta 0 k 0)
  = {| ordinal := ordinal d - k; hour := hour d; minute := minute d;
       second := second d; microsecond := microsecond d |}.
Proof.
  intros Hwf. unfold sub, timedelta.
  replace (to_us d - ((0 * 7 + k) * us_per_day + 0 * 60000000))
    with (to_us d + (- k) * us_per_day) by lia.
  by rewrite of_us_shift.
Qed.

Lemma to_us_of_us n : to_us (of_us n) = n.
Proof.
  unfold to_us, of_us, us_per_day. simpl.
  set (r := n `mod` 86400000000).
  set (secs := r `div` 1000000).
  pose proof (Z.div_mod n 86400000000 ltac:(lia)) as H1. fold r in H1.
  pose proof (Z.div_mod r 1000000 ltac:(lia)) as H2. fold secs in H2.
  pose proof (Z.div_mod secs 3600 ltac:(lia)) as H3.
  pose proof (Z.div_mod (secs `mod` 3600) 60 ltac:(lia)) as H4.
  assert ((secs `mod` 3600) `mod` 60 = secs `mod` 60) as H5.
  { apply Z.mod_mod_divide. by exists 60. }
  lia.
Qed.

Lemma of_us_wf n : wf (of_us n).
Proof.
  unfold wf, of_us, us_per_day. simpl.
  set (r := n `mod` 86400000000).
  set (secs := r `div` 1000000).
  assert (0 ≤ r < 86400000000) as Hr by (apply Z.mod_pos_bound; lia).
  assert (0 ≤ secs < 86400) as Hsecs.
  { split; [apply Z.div_pos; lia|]. apply Z.div_lt_upper_bound; lia. }
  pose proof (Z.mod_pos_bound r 1000000 ltac:(lia)).
  pose proof (Z.mod_pos_bound secs 60 ltac:(lia)).
  pose proof (Z.mod_pos_bound secs 3600 ltac:(lia)).
  repeat split; try lia.
  - apply Z.div_pos; lia.
  - apply Z.div_lt_upper_bound; lia.
  - apply Z.div_pos; lia.
  - apply Z.div_lt_upper_bound; lia.
Qed.

Lemma weekday_range d : 0 ≤ weekday d < 7.
Proof. unfold weekday. apply Z.mod_pos_bound. lia. Qed.

(** The day [weekday] days back is a Monday. *)
Lemma weekday_monday d :
  (ordinal d - weekday d + 6) `mod` 7 = 0.
Proof.
  unfold weekday.
  pose proof (Z.div_mod (ordinal d + 6) 7).
  replace (ordinal d - (ordinal d + 6) `mod` 7 + 6)
    with (((ordinal d + 6) `div` 7) * 7) by lia.
  apply Z.mod_mul. lia.
Qed.

(** the window of a reminder, in microseconds *)
Lemma due_window block_dt current :
  wf block_dt → wf current →
  due block_dt current = true
  ↔ to_us block_dt ≤ to_us current < to_us block_dt + 60000000.
Proof.
  intros Hb Hc. unfold due.
  rewrite andb_true_iff, leb_le, ltb_lt by (done || apply of_us_wf).
  unfold add. rewrite to_us_of_us. unfold timedelta. lia.
Qed.
End datetime_arith.

Import datetime_arith.

(** ** The first fire time *)

Lemma is_digit_not_space c : datetime.is_digit c = true → is_space c = false.
Proof.
  unfold datetime.is_digit, is_space. cbv zeta.
  intros [H1 H2]%andb_true_iff. apply N.leb_le in H1, H2.
  apply orb_false_iff. split.
  - apply andb_false_iff. right. apply N.leb_gt. lia.
  - apply N.eqb_neq. lia.
Qed.

Lemma is_digit_not c x :
  datetime.is_digit c = true → datetime.is_digit x = false →
  Ascii.eqb c x = false.
Proof.
  intros Hc Hx. destruct (Ascii.eqb_spec c x) as [->|]; [congruence|done].
Qed.

Lemma py_int_two a b :
  datetime.is_digit a = true → datetime.is_digit b = true →
  py_int (String a (String b EmptyString))
  = Ok (10 * datetime.digit a + datetime.digit b).
Proof.
  intros Ha Hb. unfold py_int, strip. simpl.
  rewrite (is_digit_not_space _ Ha). simpl.
  rewrite (is_digit_not_space _ Hb). simpl.
  rewrite (is_digit_not a "-"), (is_digit_not a "+") by done.
  simpl. rewrite Ha, Hb. simpl. f_equal; lia.
Qed.

(** A zero-padded time is split by the reminder loop into its hour and
    minute. *)
Lemma hhmm_parse_start s n :
  hhmm s = Some n →
  ∃ h m, parse_start s = Ok (h, m) ∧ 0 ≤ h < 24 ∧ 0 ≤ m < 60
         ∧ n = 60 * h + m.
Proof.
  intros (a & b & c & d & -> & Ha & Hb & Hc & Hd & Hh & Hm & ->)%hhmm_inv.
  exists (10 * datetime.digit a + datetime.digit b),
    (10 * datetime.digit c + datetime.digit d).
  pose proof (digit_range _ Ha). pose proof (digit_range _ Hb).
  pose proof (digit_range _ Hc). pose proof (digit_range _ Hd).
  split; [|lia].
  unfold parse_start. simpl split_on.
  rewrite (is_digit_not a ":"), (is_digit_not b ":"),
    (is_digit_not c ":"), (is_digit_not d ":") by done.
  by rewrite !py_int_two.
Qed.

Lemma list_index_range d ds i :
  list_index d ds = Ok i → 0 ≤ i < Z.of_nat (length ds).
Proof.
  revert i. induction ds as [|y ds IH]; intros i; [done|].
  simpl list_index. destruct (String.eqb d y).
  - intros [= <-]. simpl length. lia.
  - destruct (list_index d ds) as [j|]; [|done]. simpl.
    intros [= <-]. specialize (IH j eq_refl). simpl length. lia.
Qed.

Lemma day_index_range d : d ∈ WEEKDAYS → 0 ≤ day_index d < 7.
Proof.
  intros Hin. unfold day_index.
  destruct (list_index_Ok _ _ Hin) as [i Hi]. rewrite Hi.
  by apply list_index_range in Hi.
Qed.

Lemma in_years_Ok d :
  datetime.min_ordinal ≤ datetime.ordinal d ≤ datetime.max_ordinal →
  datetime.in_years d = Ok d.
Proof.
  intros [Hlo Hhi]. unfold datetime.in_years.
  apply Z.leb_le in Hlo, Hhi. by rewrite Hlo, Hhi.
Qed.

Lemma in_years_late d :
  datetime.max_ordinal < datetime.ordinal d →
  datetime.in_years d = Raise OverflowError.
Proof.
  intros Hhi. unfold datetime.in_years.
  apply Z.leb_gt in Hhi. rewrite Hhi. by rewrite andb_false_r.
Qed.

(** The Monday of a date in range is in range: day 1 is a Monday. *)
Lemma monday_of_eq now :
  datetime.wf now →
  datetime.min_ordinal ≤ datetime.ordinal now ≤ datetime.max_ordinal →
  monday_of now
  = Ok {| datetime.ordinal := datetime.ordinal now - datetime.weekday now;
          datetime.hour := datetime.hour now;
          datetime.minute := datetime.minute now;
          datetime.second := datetime.second now;
          datetime.microsecond := datetime.microsecond now |}.
Proof.
  intros Hwf Hrange. unfold monday_of, datetime.minus.
  rewrite sub_days by done. apply in_years_Ok. simpl.
  pose proof (weekday_range now) as Hwd.
  pose proof (weekday_monday now) as Hmon.
  apply Z.mod_divide in Hmon as [q Hq]; [|lia].
  unfold datetime.min_ordinal, datetime.max_ordinal in *. lia.
Qed.

Lemma replace_hm_Ok d h m :
  0 ≤ h < 24 → 0 ≤ m < 60 →
  datetime.replace_hm d h m
  = Ok (datetime.mk (datetime.ordinal d) h m 0 0).
Proof.
  intros Hh Hm. unfold datetime.replace_hm, datetime.c_int.
  destruct (Z.leb_spec (-2147483648) h), (Z.leb_spec h 2147483647); try lia.
  destruct (Z.leb_spec (-2147483648) m), (Z.leb_spec m 2147483647); try lia.
  destruct (Z.leb_spec 0 h), (Z.ltb_spec h 24); try lia.
  destruct (Z.leb_spec 0 m), (Z.ltb_spec m 60); try lia.
  done.
Qed.

(** the candidate of a block, when its date is in range *)
Lemma candidate_time_eq monday block h m :
  datetime.wf monday →
  day block ∈ WEEKDAYS →
  parse_start (start_time block) = Ok (h, m) →
  0 ≤ h < 24 → 0 ≤ m < 60 →
  datetime.min_ordinal ≤ datetime.ordinal monday + day_index (day block)
    ≤ datetime.max_ordinal →
  candidate_time monday block
  = Ok (datetime.mk (datetime.ordinal monday + day_index (day block))
          h m 0 0).
Proof.
  intros Hwf Hday Hparse Hh Hm Hrange. unfold candidate_time.
  unfold day_index in *. destruct (list_index_Ok _ _ Hday) as [i Hi].
  rewrite Hi in *. cbn [mbind result_bind].
  unfold datetime.plus. rewrite add_days by done.
  rewrite in_years_Ok by done. cbn [mbind result_bind].
  rewrite Hparse. cbn [mbind result_bind].
  by rewrite replace_hm_Ok.
Qed.

(** ... and when it is beyond the last day *)
Lemma candidate_time_late monday block :
  datetime.wf monday →
  day block ∈ WEEKDAYS →
  datetime.max_ordinal < datetime.ordinal monday + day_index (day block) →
  candidate_time monday block = Raise OverflowError.
Proof.
  intros Hwf Hday Hlate. unfold candidate_time.
  unfold day_index in *. destruct (list_index_Ok _ _ Hday) as [i Hi].
  rewrite Hi in *. cbn [mbind result_bind].
  unfold datetime.plus. rewrite add_days by done.
  by rewrite in_years_late.
Qed.

(** the fire time of a block, from the candidate *)
Lemma fire_time_eq monday now block h m :
  datetime.wf monday →
  day block ∈ WEEKDAYS →
  parse_start (start_time block) = Ok (h, m) →
  0 ≤ h < 24 → 0 ≤ m < 60 →
  datetime.min_ordinal ≤ datetime.ordinal monday + day_index (day block) →
  let candidate :=
    datetime.mk (datetime.ordinal monday + day_index (day block)) h m 0 0 in
  let shift := if datetime.ltb candidate now then 7 else 0 in
  (datetime.ordinal candidate + shift ≤ datetime.max_ordinal →
   fire_time monday now block
   = Ok (datetime.mk (datetime.ordinal candidate + shift) h m 0 0))
  ∧ (datetime.max_ordinal < datetime.ordinal candidate + shift →
     fire_time monday now block = Raise OverflowError).
Proof.
  intros Hwf Hday Hparse Hh Hm Hlo candidate shift.
  assert (datetime.wf candidate) as Hcw
    by (unfold datetime.wf, candidate; simpl; lia).
  unfold fire_time. subst shift.
  destruct (Z.le_gt_cases (datetime.ordinal candidate) datetime.max_ordinal)
    as [Hin|Hout].
  - rewrite (candidate_time_eq monday block h m) by done.
    cbn [mbind result_bind]. fold candidate.
    destruct (datetime.ltb candidate now).
    + unfold datetime.plus. rewrite add_week by done. split.
      * intros Hhi. rewrite in_years_Ok; [done|]. simpl in *. lia.
      * intros Hhi. by rewrite in_years_late.
    + split; [intros _; f_equal; unfold candidate; simpl; f_equal; lia|].
      simpl in *. lia.
  - rewrite candidate_time_late by done. split; [|done].
    destruct (datetime.ltb candidate now); simpl in *; lia.
Qed.

(** On blocks of canonical weekdays with zero-padded start times, and a
    clock reading at least 13 days before the last day of the year 9999,
    the first loop of [_reminder_loop] raises nothing: every block gets
    an entry. *)
Lemma blocks_by_datetime_total now blocks :
  datetime.wf now →
  datetime.min_ordinal ≤ datetime.ordinal now →
  datetime.ordinal now + 13 ≤ datetime.max_ordinal →
  Forall (λ b, day b ∈ WEEKDAYS ∧ is_Some (hhmm (start_time b))) blocks →
  ∃ entries,
    blocks_by_datetime now blocks = Ok entries ∧ snd <$> entries = blocks.
Proof.
  intros Hwf Hlo Hhi Hall. unfold blocks_by_datetime.
  pose proof (weekday_range now) as Hwd.
  rewrite monday_of_eq by (done || lia). cbn [mbind result_bind].
  set (monday := datetime.mk _ _ _ _ _).
  assert (datetime.wf monday) as Hmw by done.
  assert (datetime.min_ordinal ≤ datetime.ordinal monday) as Hmlo.
  { pose proof (monday_of_eq now Hwf ltac:(lia)) as Hm.
    unfold monday_of, datetime.minus in Hm. rewrite sub_days in Hm by done.
    unfold datetime.in_years in Hm. fold monday in Hm.
    destruct (Z.leb_spec datetime.min_ordinal (datetime.ordinal monday));
      [done|done]. }
  assert (∀ acc,
    ∃ es, for_each blocks
            (λ acc block,
               block_dt ← fire_time monday now block;
               Ok (acc ++ [(block_dt, block)]))
            acc = Ok (acc ++ es) ∧ snd <$> es = blocks) as Hloop.
  { induction Hall as [|b blocks [Hday [n Hn]] _ IH]; intros acc.
    - exists []. by rewrite app_nil_r.
    - destruct (hhmm_parse_start _ _ Hn) as (h & m & Hparse & Hh & Hm & _).
      pose proof (day_index_range _ Hday) as Hidx.
      assert (∃ dt, fire_time monday now b = Ok dt) as [dt Hdt].
      { destruct (fire_time_eq monday now b h m Hmw Hday Hparse Hh Hm
                    ltac:(lia)) as [Hfire _].
        eexists. apply Hfire.
        destruct (datetime.ltb _ now); unfold monday; simpl; lia. }
      simpl. rewrite Hdt. cbn [mbind result_bind].
      destruct (IH (acc ++ [(dt, b)])) as (es & -> & Hes).
      exists ((dt, b) :: es). rewrite <- app_assoc. split; [done|].
      csimpl. by rewrite Hes. }
  destruct (Hloop []) as (es & H & Hes). by exists es.
Qed.

(** C6, as the code has it.  For a clock reading [now] and a block of a
    canonical weekday whose start splits into an hour and a minute of the
    day, the candidate is: the date of the most recent Monday at or before
    [now], plus the block's weekday index, at the block's start time with
    zero seconds; one week is added if and only if the candidate is before
    [now].  While the date so reached is no later than the last day
    [datetime] has, 9999-12-31, the fire time is that timestamp: it is
    never before [now], and it is [now] itself when the candidate and [now]
    coincide.  Beyond that day the sum raises [OverflowError].  A clock
    reading at least 13 days before the last day never gets there. *)
Theorem fire_time_spec (now : datetime.t) (block : TimeBlock) (h m : Z) :
  datetime.wf now →
  datetime.min_ordinal ≤ datetime.ordinal now ≤ datetime.max_ordinal →
  day block ∈ WEEKDAYS →
  parse_start (start_time block) = Ok (h, m) →
  0 ≤ h < 24 → 0 ≤ m < 60 →
  ∃ monday,
    monday_of now = Ok monday
    ∧ datetime.weekday monday = 0
    ∧ datetime.ordinal monday ≤ datetime.ordinal now
      < datetime.ordinal monday + 7
    ∧ 0 ≤ day_index (day block) < 7
    ∧ let candidate :=
        datetime.mk (datetime.ordinal monday + day_index (day block))
          h m 0 0 in
      let shift := if datetime.ltb candidate now then 7 else 0 in
      (datetime.ltb candidate now = true
       ↔ datetime.to_us candidate < datetime.to_us now)
      ∧ (datetime.ordinal candidate ≤ datetime.max_ordinal →
         candidate_time monday block = Ok candidate)
      ∧ (datetime.ordinal candidate + shift ≤ datetime.max_ordinal →
         ∃ fire,
           fire_time monday now block = Ok fire
           ∧ datetime.wf fire
           ∧ datetime.to_us fire
             = datetime.to_us candidate
               + (if datetime.ltb candidate now
                  then datetime.timedelta 1 0 0 else 0)
           ∧ datetime.leb now fire = true
           ∧ datetime.to_us now ≤ datetime.to_us fire)
      ∧ (datetime.max_ordinal < datetime.ordinal candidate + shift →
         fire_time monday now block = Raise OverflowError)
      ∧ (datetime.ordinal now + 13 ≤ datetime.max_ordinal →
         datetime.ordinal candidate + shift ≤ datetime.max_ordinal).
Proof.
  intros Hwf Hrange Hday Hparse Hh Hm.
  pose proof (weekday_range now) as Hwd.
  pose proof (day_index_range _ Hday) as Hidx.
  pose proof (monday_of_eq now Hwf Hrange) as Hmonday.
  set (monday := datetime.mk _ _ _ _ _) in Hmonday.
  assert (datetime.wf monday) as Hmw by done.
  assert (datetime.ordinal monday
          = datetime.ordinal now - datetime.weekday now) as Hmon by done.
  assert (datetime.min_ordinal ≤ datetime.ordinal monday) as Hmlo.
  { unfold monday_of, datetime.minus in Hmonday.
    rewrite sub_days in Hmonday by done.
    unfold datetime.in_years in Hmonday. fold monday in Hmonday.
    destruct (Z.leb_spec datetime.min_ordinal (datetime.ordinal monday));
      [done|done]. }
  exists monday. clearbody monday.
  split; [done|]. split.
  { unfold datetime.weekday at 1. rewrite Hmon. apply weekday_monday. }
  split; [lia|]. split; [done|].
  intros candidate shift.
  assert (datetime.wf candidate) as Hcw
    by (unfold datetime.wf, candidate; simpl; lia).
  pose proof (ltb_lt candidate now Hcw Hwf) as Hlt.
  destruct (fire_time_eq monday now block h m Hmw Hday Hparse Hh Hm
              ltac:(lia)) as [Hfire Hover].
  fold candidate in Hfire, Hover. fold shift in Hfire, Hover.
  split; [done|]. split.
  { intros Hin. apply candidate_time_eq; try done.
    unfold candidate in Hin. simpl in Hin. lia. }
  split; [|split; [done|]].
  - intros Hin. eexists. split; [by apply Hfire|].
    assert (datetime.to_us
              (datetime.mk (datetime.ordinal candidate + shift) h m 0 0)
            = datetime.to_us candidate
              + (if datetime.ltb candidate now
                 then datetime.timedelta 1 0 0 else 0)) as Hus.
    { unfold shift, datetime.to_us, datetime.timedelta, datetime.us_per_day,
        candidate.
      destruct (datetime.ltb _ now); simpl; lia. }
    assert (datetime.to_us now
            ≤ datetime.to_us
                (datetime.mk (datetime.ordinal candidate + shift) h m 0 0))
      as Hle.
    { rewrite Hus. destruct (datetime.ltb candidate now) eqn:E.
      - unfold datetime.timedelta, datetime.us_per_day, datetime.to_us,
          candidate. simpl.
        unfold datetime.wf in Hwf. lia.
      - assert (¬ datetime.to_us candidate < datetime.to_us now)
          by (rewrite <- Hlt; congruence).
        lia. }
    assert (datetime.wf
              (datetime.mk (datetime.ordinal candidate + shift) h m 0 0))
      as Hfw by (unfold datetime.wf; simpl; lia).
    split; [done|]. split; [done|]. split; [|done].
    by apply leb_le.
  - intros Hbound. unfold shift, candidate. simpl.
    destruct (datetime.ltb _ now); lia.
Qed.

(** ** The polling loop *)

Section polling.
Variable entries : list (datetime.t * TimeBlock).

Lemma sent_nothing clock st : sent_between entries clock st st [].
Proof.
  split; [by rewrite app_nil_r|]. split; [|split].
  - rewrite fmap_nil, list_to_set_nil. by rewrite (right_id_L ∅ (∪)).
  - constructor.
  - by intros current block ?%elem_of_nil.
Qed.

Lemma sent_then c1 c2 st st1 st2 n1 n2 :
  sent_between entries c1 st st1 n1 →
  sent_between entries c2 st1 st2 n2 →
  sent_between entries (c1 ++ c2) st st2 (n1 ++ n2).
Proof.
  intros (Hd1 & Hs1 & Hn1 & Hw1) (Hd2 & Hs2 & Hn2 & Hw2).
  split; [by rewrite Hd2, Hd1, app_assoc|].
  split; [by rewrite Hs2, Hs1, fmap_app, list_to_set_app_L, (assoc_L (∪))|].
  split.
  - rewrite fmap_app. apply NoDup_app. split; [done|]. split; [|done].
    intros i Hi1 Hi2.
    apply list_elem_of_fmap in Hi2 as ([cur b] & -> & Hin).
    destruct (Hw2 _ _ Hin) as (Hfresh & _). apply Hfresh.
    rewrite Hs1. apply elem_of_union_r. by apply elem_of_list_to_set.
  - intros cur b [Hin|Hin]%elem_of_app.
    + destruct (Hw1 _ _ Hin) as (? & ? & ?).
      split; [done|]. split; [|done]. apply elem_of_app. by left.
    + destruct (Hw2 _ _ Hin) as (Hfresh & ? & ?).
      split; [intros Hs; apply Hfresh; rewrite Hs1; by apply elem_of_union_l|].
      split; [|done]. apply elem_of_app. by right.
Qed.

Lemma visit_sent current st entry :
  entry ∈ entries →
  ∃ new, sent_between entries [current] st (visit current st entry) new.
Proof.
  intros Hin. destruct entry as [block_dt block]. unfold visit.
  destruct (due block_dt current) eqn:Hdue;
    [|exists []; apply sent_nothing].
  case_decide as Hshown; [exists []; apply sent_nothing|].
  exists [(current, block)]. split; [done|]. split; [|split].
  - simpl. by rewrite (right_id_L ∅ (∪)), (comm_L (∪)).
  - apply NoDup_singleton.
  - intros cur b [= -> ->]%list_elem_of_singleton.
    split; [done|]. split; [left|]. by exists block_dt.
Qed.

Lemma visits_sent current es st :
  es ⊆ entries →
  ∃ new, sent_between entries [current] st (foldl (visit current) st es) new.
Proof.
  revert st. induction es as [|e es IH]; intros st Hsub.
  - exists []. apply sent_nothing.
  - simpl.
    destruct (visit_sent current st e) as [n1 H1]; [apply Hsub; left|].
    destruct (IH (visit current st e)) as [n2 H2];
      [intros x Hx; apply Hsub; by right|].
    exists (n1 ++ n2).
    pose proof (sent_then _ _ _ _ _ _ _ H1 H2) as (Hd & Hs & Hn & Hw).
    split; [done|]. split; [done|]. split; [done|].
    intros cur b Hin. destruct (Hw _ _ Hin) as (Hfresh & Hc & Hdue).
    split; [done|]. split; [|done].
    apply elem_of_app in Hc. tauto.
Qed.

Lemma tick_sent current st :
  ∃ new, sent_between entries [current] st (tick entries st current) new.
Proof. by apply visits_sent. Qed.

Lemma poll_sent clock st :
  ∃ new, sent_between entries clock st (poll entries clock st) new.
Proof.
  revert st. induction clock as [|current clock IH]; intros st.
  - exists []. apply sent_nothing.
  - destruct (tick_sent current st) as [n1 H1].
    destruct (IH (tick entries st current)) as [n2 H2].
    exists (n1 ++ n2). by apply (sent_then [current] clock _ _ _ _ _ H1).
Qed.
End polling.

(** C7. Within one run of the loop every identifier is sent at most once:
    over any clock readings and from any state of the loop, what is sent
    has distinct identifiers, none of which was marked before, and each is
    sent in a round whose reading lies in [[fire_time, fire_time + 1
    minute)] of an entry of that block; all of them are marked afterwards.
    A run starts with nothing marked, so its whole log has distinct
    identifiers. *)
Theorem reminder_at_most_once (entries : list (datetime.t * TimeBlock))
    (clock : list datetime.t) (st : Poll) :
  (∃ new,
     delivered (poll entries clock st) = delivered st ++ new
     ∧ shown (poll entries clock st)
       = shown st ∪ list_to_set ((λ x, identifier (snd x)) <$> new)
     ∧ NoDup ((λ x, identifier (snd x)) <$> new)
     ∧ ∀ current block,
         (current, block) ∈ new →
         (identifier block ∉ shown st)
         ∧ current ∈ clock
         ∧ ∃ block_dt,
             (block_dt, block) ∈ entries ∧ due block_dt current = true)
  ∧ (∀ block_dt current,
       datetime.wf block_dt → datetime.wf current →
       due block_dt current = true
       ↔ datetime.to_us block_dt ≤ datetime.to_us current
         < datetime.to_us block_dt + 60000000)
  ∧ (∀ app now run,
       _reminder_loop app now clock = Ok run →
       NoDup ((λ x, identifier (snd x)) <$> delivered run)).
Proof.
  split; [apply poll_sent|]. split; [apply due_window|].
  intros app now run. unfold _reminder_loop.
  destruct (blocks_by_datetime now (generated_blocks app)) as [es|];
    [|done].
  cbn [mbind result_bind]. intros [= <-].
  destruct (poll_sent es clock {| shown := ∅; delivered := [] |})
    as (new & Hd & _ & Hn & _).
  by rewrite Hd.
Qed.

(** * The properties on sample states *)

Example strptime_0930 :
  datetime.strptime_HM "09:30"
  = Ok (datetime.mk datetime.ordinal_1900 9 30 0 0).
Proof. done. Qed.

Example strptime_unpadded :
  datetime.strptime_HM "9:5" = Ok (datetime.mk datetime.ordinal_1900 9 5 0 0).
Proof. done. Qed.

Example strptime_0960 : datetime.strptime_HM "09:60" = Raise ValueError.
Proof. done. Qed.

(** in the last week of the year 9999 a block already past has no fire
    time: the week that is added does not exist *)
Example fire_time_last_week :
  monday_of last_monday = Ok last_monday
  ∧ candidate_time last_monday monday_standup
    = Ok (datetime.mk 3652055 9 0 0 0)
  ∧ fire_time last_monday last_monday monday_standup = Raise OverflowError
  ∧ blocks_by_datetime last_monday [monday_standup] = Raise OverflowError.
Proof. done. Qed.

Example parse_start_0900 : parse_start "09:00" = Ok (9, 0).
Proof. done. Qed.

(** an entry without [start] and a misspelled weekday are dropped, the
    entries after them are kept *)
Example parse_schedule_drops :
  _parse_schedule
    [("days",
      [("Monday", [ [("title", "No start"); ("end", "10:00")];
                    [("title", "Plan"); ("start", "08:00"); ("end", "09:00");
                     ("details", "weekly plan")] ]);
       ("Funday", [entry_of "Party" "20:00" "23:00"]);
       ("Tuesday", [entry_of "Review" "14:00" "15:00"])])]
  = Ok [ mkTimeBlock "Plan" "Monday" "08:00" "09:00" "weekly plan";
         mkTimeBlock "Review" "Tuesday" "14:00" "15:00" "" ].
Proof. done. Qed.

(** two tasks for the goal "Launch" and one without a goal *)
Example goal_focus_launch :
  let launch := mkGoal "Launch" "High" "" in
  let t1 := mkTask "Slides" 1%float "Low" "" (Some "Launch") in
  let t2 := mkTask "Demo" 2%float "High" "" (Some "Launch") in
  let t3 := mkTask "Laundry" 1%float "Low" "" None in
  goal_summaries [t1; t2; t3] [launch]
  = [ mkGoalFocus "Launch" "High" "" [task_summary t1; task_summary t2];
      mkGoalFocus "Unaligned" "" "" [task_summary t3] ].
Proof. done. Qed.

(** C1 fails as stated: a task whose goal names no Goal is grouped under
    that name, not under ["Unaligned"], and no ["Unaligned"] entry is made
    for it. *)
Lemma dangling_goal_not_unaligned :
  goal ghost_task = Some "Launch"
  ∧ goal_name <$> [fitness_goal] = ["Fitness"]
  ∧ group_tasks [ghost_task] = [("Launch", [task_summary ghost_task])]
  ∧ odict.get "Unaligned" (group_tasks [ghost_task]) = None
  ∧ goal_summaries [ghost_task] [fitness_goal]
    = [mkGoalFocus "Fitness" "Low" "" []].
Proof. done. Qed.

Lemma overlaps_spec_witness :
  (day monday_nine_ten ≠ day monday_ten_eleven →
   overlaps monday_nine_ten monday_ten_eleven = Ok false)
  ∧ (day monday_nine_ten = day monday_ten_eleven →
     ∃ r, overlaps monday_nine_ten monday_ten_eleven = Ok r
          ∧ (r = true ↔ 540 < 660 ∧ 600 < 600))
  ∧ (600 = 600 → overlaps monday_nine_ten monday_ten_eleven = Ok false).
Proof.
  exact (overlaps_spec monday_nine_ten monday_ten_eleven
           (datetime.mk datetime.ordinal_1900 9 0 0 0)
           (datetime.mk datetime.ordinal_1900 10 0 0 0)
           (datetime.mk datetime.ordinal_1900 10 0 0 0)
           (datetime.mk datetime.ordinal_1900 11 0 0 0)
           eq_refl eq_refl eq_refl eq_refl).
Defined.

(** C4 fails as stated: of two Monday blocks starting at 9:00 and 10:00,
    written without a leading zero, the later one comes out first. *)
Lemma parse_schedule_unpadded :
  _parse_schedule unpadded_sample
  = Ok [ mkTimeBlock "Late" "Monday" "10:00" "11:00" "";
         mkTimeBlock "Early" "Monday" "9:00" "10:00" "" ]
  ∧ starts_at (mkTimeBlock "Late" "Monday" "10:00" "11:00" "") 600
  ∧ starts_at (mkTimeBlock "Early" "Monday" "9:00" "10:00" "") 540.
Proof.
  split; [done|]. split; eexists; by vm_compute.
Qed.

(** C6 fails as stated: when the clock reads exactly the block's start on
    its weekday, the fire time is that reading, not a later one. *)
Lemma fire_time_at_now :
  datetime.weekday monday_nine = 0
  ∧ monday_of monday_nine = Ok monday_nine
  ∧ fire_time monday_nine monday_nine monday_standup = Ok monday_nine
  ∧ datetime.ltb monday_nine monday_nine = false.
Proof. done. Qed.

Lemma fire_time_spec_witness :
  ∃ monday fire,
    monday_of tuesday_later = Ok monday
    ∧ fire_time monday tuesday_later monday_standup = Ok fire
    ∧ datetime.to_us fire
      = datetime.to_us (datetime.mk 739922 9 0 0 0)
        + datetime.timedelta 1 0 0
    ∧ datetime.to_us tuesday_later ≤ datetime.to_us fire.
Proof.
  assert (datetime.wf tuesday_later) as Hwf
    by (unfold datetime.wf; simpl; lia).
  assert (datetime.min_ordinal ≤ datetime.ordinal tuesday_later
          ≤ datetime.max_ordinal) as Hrange by (by vm_compute).
  assert (day monday_standup ∈ WEEKDAYS) as Hday by left.
  destruct (fire_time_spec tuesday_later monday_standup 9 0 Hwf Hrange Hday
              eq_refl ltac:(lia) ltac:(lia))
    as (monday & Hmon & _ & _ & _ & H).
  cbv zeta in H. destruct H as (_ & _ & Hfire & _ & Hbound).
  destruct (Hfire (Hbound ltac:(by vm_compute)))
    as (fire & Hf & _ & Hus & _ & Hle).
  exists monday, fire. split; [exact Hmon|]. split; [exact Hf|].
  split; [|exact Hle].
  rewrite Hus. vm_compute in Hmon. injection Hmon as <-. reflexivity.
Defined.

(** C8 fails as stated: with busy hours 9 and 10 entered in that order,
    toggling hour 9 twice leaves them in the order 10, 9. *)
Lemma toggle_twice_reorders :
  (toggle_busy (new_app no_gpt) "Monday" 9
   ≫= λ app, toggle_busy app "Monday" 10) = Ok two_slots_app
  ∧ odict.get "Monday" (busy_slots two_slots_app) = Some [(9, 1); (10, 1)]
  ∧ (toggle_busy two_slots_app "Monday" 9
     ≫= λ app, toggle_busy app "Monday" 9)
    = Ok (with_busy_slots (new_app no_gpt)
            (odict.set "Monday" [(10, 1); (9, 1)] empty_week))
  ∧ odict.set "Monday" [(10, 1); (9, 1)] empty_week
    ≠ busy_slots two_slots_app.
Proof. done. Qed.

Lemma toggle_busy_twice_witness :
  ∃ app1 app2,
    toggle_busy two_slots_app "Monday" 9 = Ok app1
    ∧ toggle_busy app1 "Monday" 9 = Ok app2
    ∧ busy_slots app2 = odict.set "Monday" [(10, 1); (9, 1)] empty_week
    ∧ [(10, 1); (9, 1)] ≡ₚ [(9, 1); (10, 1)].
Proof.
  destruct (toggle_busy_twice two_slots_app "Monday" 9 [(9, 1); (10, 1)]
              eq_refl eq_refl)
    as (app1 & app2 & H1 & H2 & _ & _ & Hpresent).
  destruct Hpresent as (_ & _ & Happ2 & Hperm); [left|].
  exists app1, app2. split; [exact H1|]. split; [exact H2|].
  split; [by rewrite Happ2|].
  apply Hperm. split; [|by repeat constructor].
  apply NoDup_cons. split; [|apply NoDup_singleton].
  by intros [=]%list_elem_of_singleton.
Defined.

Lemma generate_schedule_failure_witness :
  out_app (generate_schedule (planned_app failing_gpt))
  = planned_app failing_gpt
  ∧ generated_blocks (out_app (generate_schedule (planned_app failing_gpt)))
    = [monday_evening]
  ∧ out_app (generate_schedule (planned_app no_gpt)) = planned_app no_gpt.
Proof.
  destruct (generate_schedule_failure (planned_app failing_gpt))
    as (H1 & _ & H2 & _).
  { right. eexists _, _. split; reflexivity. }
  destruct (generate_schedule_failure (planned_app no_gpt)) as (H3 & _).
  { left. reflexivity. }
  split; [exact H1|]. split; [exact H2|exact H3].
Defined.

(** C10 fails as stated: with Monday 23:00 busy, a list whose only block
    is on Tuesday is checked without an error. *)
Lemma find_conflicts_other_day :
  odict.get "Monday" (busy_slots late_slot_app) = Some [(23, 1)]
  ∧ _find_conflicts late_slot_app [tuesday_morning] = Ok [].
Proof. done. Qed.

Lemma find_conflicts_midnight_witness :
  _find_conflicts late_slot_app [tuesday_morning; monday_evening]
  = Raise ValueError.
Proof.
  apply (find_conflicts_midnight late_slot_app
           [tuesday_morning; monday_evening] [(23, 1)] monday_evening
           eq_refl eq_refl).
  - left.
  - right. left.
Defined.

(** * Further properties *)

(** ** Overlap *)

(** X1. [overlaps] is symmetric on all blocks: with the arguments swapped
    it returns the same answer, and raises [ValueError] in the same
    cases. *)
Theorem overlaps_sym (a b : TimeBlock) : overlaps a b = overlaps b a.
Proof.
  unfold overlaps. rewrite (String.eqb_sym (day b) (day a)).
  destruct (String.eqb (day a) (day b)); simpl; [|done].
  destruct (datetime.strptime_HM (start_time a)) as [sa|e1] eqn:E1;
    [|apply strptime_raises in E1 as ->];
  destruct (datetime.strptime_HM (end_time a)) as [ea|e2] eqn:E2;
    [|apply strptime_raises in E2 as ->| |apply strptime_raises in E2 as ->];
  destruct (datetime.strptime_HM (start_time b)) as [sb|e3] eqn:E3;
    try (apply strptime_raises in E3 as ->);
  destruct (datetime.strptime_HM (end_time b)) as [eb|e4] eqn:E4;
    try (apply strptime_raises in E4 as ->);
  simpl; try done.
  by rewrite andb_comm.
Qed.

(** ** Hours of the grid *)

Lemma grid_hour_cases h :
  0 ≤ h < 24 →
  h ∈ [0; 1; 2; 3; 4; 5; 6; 7; 8; 9; 10; 11; 12; 13; 14; 15; 16; 17; 18; 19;
       20; 21; 22; 23].
Proof.
  intros Hh. rewrite !elem_of_cons. lia.
Qed.

(** X2. The hour of a cell of the grid, written with [{hour:02d}:00], is
    read back by [strptime] and by the reminder loop as that hour.  The
    busy interval of a one-hour slot therefore has a readable start for
    every hour of the grid and a readable end for every hour but 23,
    whose end ["24:00"] raises [ValueError]. *)
Theorem grid_hour_round_trip (h : Z) :
  0 ≤ h < 24 →
  datetime.strptime_HM (be_start (busy_entry (h, 1)))
  = Ok (datetime.mk datetime.ordinal_1900 h 0 0 0)
  ∧ parse_start (be_start (busy_entry (h, 1))) = Ok (h, 0)
  ∧ (h < 23 →
     datetime.strptime_HM (be_end (busy_entry (h, 1)))
     = Ok (datetime.mk datetime.ordinal_1900 (h + 1) 0 0 0))
  ∧ (h = 23 →
     datetime.strptime_HM (be_end (busy_entry (h, 1))) = Raise ValueError).
Proof.
  intros Hh%grid_hour_cases.
  repeat (apply elem_of_cons in Hh as [->|Hh];
          [split; [done|]; split; [done|]; split; [by intros; vm_compute|];
           by intros; vm_compute|]).
  by apply elem_of_nil in Hh.
Qed.

(** ** The two readers of a start time *)

Lemma py_int_one a :
  datetime.is_digit a = true →
  py_int (String a EmptyString) = Ok (datetime.digit a).
Proof.
  intros Ha. unfold py_int, strip. simpl.
  rewrite (is_digit_not_space _ Ha). simpl.
  rewrite (is_digit_not_space _ Ha). simpl.
  rewrite (is_digit_not a "-"), (is_digit_not a "+") by done.
  simpl. rewrite Ha. simpl. f_equal; lia.
Qed.

(** what the groups [H] and [M] can match: one digit or two *)
Lemma re_two_shape lo hi s v r :
  (v, r) ∈ datetime.re_two lo hi s →
  ∃ a b, s = String a (String b r) ∧ datetime.is_digit a = true
         ∧ datetime.is_digit b = true
         ∧ v = 10 * datetime.digit a + datetime.digit b.
Proof.
  unfold datetime.re_two.
  destruct s as [|a [|b s]]; try by intros ?%elem_of_nil.
  destruct (datetime.in_range lo hi a && datetime.is_digit b) eqn:E;
    [|by intros ?%elem_of_nil].
  apply andb_true_iff in E as [[Ha _]%in_range_spec Hb].
  intros [= -> ->]%list_elem_of_singleton. by exists a, b.
Qed.

Lemma re_one_shape s v r :
  (v, r) ∈ datetime.re_one s →
  ∃ a, s = String a r ∧ datetime.is_digit a = true ∧ v = datetime.digit a.
Proof.
  unfold datetime.re_one. destruct s as [|a s]; [by intros ?%elem_of_nil|].
  destruct (datetime.is_digit a) eqn:E; [|by intros ?%elem_of_nil].
  intros [= -> ->]%list_elem_of_singleton. by exists a.
Qed.

Lemma re_H_shape s v r :
  (v, r) ∈ datetime.re_H s →
  (∃ a b, s = String a (String b r) ∧ datetime.is_digit a = true
          ∧ datetime.is_digit b = true
          ∧ v = 10 * datetime.digit a + datetime.digit b)
  ∨ (∃ a, s = String a r ∧ datetime.is_digit a = true
          ∧ v = datetime.digit a).
Proof.
  unfold datetime.re_H. rewrite !elem_of_app. intros [H|[H|H]].
  - left. destruct s as [|a [|b s]]; try by apply elem_of_nil in H.
    destruct (datetime.in_range 2 2 a && datetime.in_range 0 3 b) eqn:E;
      [|by apply elem_of_nil in H].
    apply andb_true_iff in E as [[Ha _]%in_range_spec [Hb _]%in_range_spec].
    apply list_elem_of_singleton in H as [= -> ->]. by exists a, b.
  - left. by eapply re_two_shape.
  - right. by apply re_one_shape.
Qed.

Lemma re_M_shape s v r :
  (v, r) ∈ datetime.re_M s →
  (∃ a b, s = String a (String b r) ∧ datetime.is_digit a = true
          ∧ datetime.is_digit b = true
          ∧ v = 10 * datetime.digit a + datetime.digit b)
  ∨ (∃ a, s = String a r ∧ datetime.is_digit a = true
          ∧ v = datetime.digit a).
Proof.
  unfold datetime.re_M. rewrite elem_of_app. intros [H|H].
  - left. by eapply re_two_shape.
  - right. by apply re_one_shape.
Qed.

Lemma re_colon_shape s r : r ∈ datetime.re_colon s → s = String ":" r.
Proof.
  unfold datetime.re_colon. destruct s as [|c s]; [by intros ?%elem_of_nil|].
  destruct c as [[] [] [] [] [] [] [] []];
    try (by intros ?%elem_of_nil).
  by intros ->%list_elem_of_singleton.
Qed.

(** X3. Every text [strptime] reads as a time is read by the reminder
    loop, through [split] and [int], as the same hour and minute: a start
    time the conflict detector accepts never stops the reminder loop. *)
Theorem strptime_parse_start_agree (s : string) (d : datetime.t) :
  datetime.strptime_HM s = Ok d →
  parse_start s = Ok (datetime.hour d, datetime.minute d).
Proof.
  unfold datetime.strptime_HM.
  destruct (datetime.re_HM s) as [|[[h m] r] l] eqn:E; [done|].
  destruct (String.eqb_spec r "") as [->|]; [|done].
  intros [= <-]. simpl.
  assert ((h, m, "") ∈ datetime.re_HM s) as Hin by (rewrite E; left).
  clear E. unfold datetime.re_HM in Hin.
  apply list_elem_of_bind in Hin as ([h' r1] & Hin & Hh).
  apply list_elem_of_bind in Hin as (r2 & Hin & ->%re_colon_shape).
  apply list_elem_of_bind in Hin as ([m' r3] & Hin & Hm).
  apply list_elem_of_singleton in Hin as [= <- <- <-].
  apply re_H_shape in Hh
    as [(a & b & -> & Ha & Hb & ->)|(a & -> & Ha & ->)];
    apply re_M_shape in Hm
      as [(c & e & -> & Hc & He & ->)|(c & -> & Hc & ->)];
    unfold parse_start; simpl split_on;
    rewrite ?(is_digit_not a ":"), ?(is_digit_not b ":"),
      ?(is_digit_not c ":"), ?(is_digit_not e ":") by done;
    simpl;
    rewrite ?py_int_two, ?py_int_one by done; done.
Qed.

(** ** Order of blocks with equal keys *)

Lemma filter_keyed {A} (key : A → Z * string) k (l : list ((Z * string) * A)) :
  Forall (λ x, fst x = key (snd x)) l →
  filter (λ b, key b = k) (snd <$> l) = snd <$> filter (λ x, fst x = k) l.
Proof.
  induction 1 as [|[k' b] l Hx _ IH]; [done|].
  simpl in Hx. subst k'. csimpl.
  destruct (decide (key b = k)) as [Hk|Hk].
  - rewrite !filter_cons_True by done. csimpl. by rewrite IH.
  - rewrite !filter_cons_False by done. done.
Qed.

Lemma sorted_blocks_stable blocks k :
  Forall (λ b, day b ∈ WEEKDAYS) blocks →
  ∃ out, sorted_blocks blocks = Ok out
         ∧ filter (λ b, key_of b = k) out = filter (λ b, key_of b = k) blocks.
Proof.
  intros Hall. unfold sorted_blocks. rewrite keys_loop by done. simpl.
  eexists. split; [done|].
  assert (Forall (λ x : (Z * string) * TimeBlock, fst x = key_of (snd x))
            ((λ b, (key_of b, b)) <$> blocks)) as Hk
    by (apply Forall_fmap; by apply Forall_true).
  rewrite (filter_keyed key_of) by (by rewrite sort_keyed_perm).
  rewrite sort_keyed_stable, <- (filter_keyed key_of) by done.
  by rewrite <- list_fmap_compose, list_fmap_id.
Qed.

(** X4. The parser's sort is stable.  On a response of the documented
    shape, a [Schedule], whose entries hold text, the blocks of one
    weekday with the same start text come out in the order in which the
    response lists them. *)
Theorem parse_schedule_stable (schedule : Schedule) (k : Z * string) :
  ∃ blocks,
    _parse_schedule schedule = Ok blocks
    ∧ filter (λ b, key_of b = k) blocks
      = filter (λ b, key_of b = k)
          (accepted_blocks (default [] (odict.get "days" schedule))).
Proof.
  unfold _parse_schedule. cbv zeta. rewrite days_loop. simpl.
  apply sorted_blocks_stable, accepted_blocks_days.
Qed.

(** ** The first fire time, continued *)

Lemma weekday_shift ord i :
  0 ≤ i < 7 → (ord - (ord + 6) `mod` 7 + i + 6) `mod` 7 = i.
Proof.
  intros Hi. pose proof (Z.div_mod (ord + 6) 7 ltac:(lia)) as Hdm.
  replace (ord - (ord + 6) `mod` 7 + i + 6)
    with (i + ((ord + 6) `div` 7) * 7) by lia.
  rewrite Z.mod_add by lia. by apply Z.mod_small.
Qed.

(** X5. For a clock reading [now] in the range of [datetime], the first
    loop either raises [OverflowError] on a block, which it can only do
    when [now] is within the last 13 days of the year 9999, or gives the
    block a fire time that falls on the block's weekday, at its start hour
    and minute with zero seconds, not before [now] and less than seven
    days after it. *)
Theorem fire_time_within_week (now : datetime.t) (block : TimeBlock)
    (h m : Z) :
  datetime.wf now →
  datetime.min_ordinal ≤ datetime.ordinal now ≤ datetime.max_ordinal →
  day block ∈ WEEKDAYS →
  parse_start (start_time block) = Ok (h, m) →
  0 ≤ h < 24 → 0 ≤ m < 60 →
  ∃ monday,
    monday_of now = Ok monday
    ∧ ((fire_time monday now block = Raise OverflowError
        ∧ datetime.max_ordinal < datetime.ordinal now + 13)
       ∨ ∃ fire,
           fire_time monday now block = Ok fire
           ∧ datetime.weekday fire = day_index (day block)
           ∧ datetime.hour fire = h ∧ datetime.minute fire = m
           ∧ datetime.second fire = 0 ∧ datetime.microsecond fire = 0
           ∧ datetime.ordinal fire ≤ datetime.max_ordinal
           ∧ datetime.to_us now ≤ datetime.to_us fire
             < datetime.to_us now + 7 * datetime.us_per_day).
Proof.
  intros Hwf Hrange Hday Hparse Hh Hm.
  pose proof (weekday_range now) as Hwd.
  pose proof (day_index_range _ Hday) as Hidx.
  pose proof (monday_of_eq now Hwf Hrange) as Hmonday.
  set (monday := datetime.mk _ _ _ _ _) in Hmonday.
  assert (datetime.wf monday) as Hmw by done.
  assert (datetime.min_ordinal ≤ datetime.ordinal monday) as Hmlo.
  { unfold monday_of, datetime.minus in Hmonday.
    rewrite sub_days in Hmonday by done.
    unfold datetime.in_years in Hmonday. fold monday in Hmonday.
    destruct (Z.leb_spec datetime.min_ordinal (datetime.ordinal monday));
      [done|done]. }
  exists monday. split; [done|].
  destruct (fire_time_eq monday now block h m Hmw Hday Hparse Hh Hm
              ltac:(lia)) as [Hfire Hover].
  cbv zeta in Hfire, Hover.
  set (candidate := datetime.mk _ h m 0 0) in Hfire, Hover.
  assert (datetime.wf candidate) as Hcw
    by (unfold datetime.wf, candidate; simpl; lia).
  pose proof (ltb_lt candidate now Hcw Hwf) as Hlt.
  destruct (Z.le_gt_cases
              (datetime.ordinal candidate
               + (if datetime.ltb candidate now then 7 else 0))
              datetime.max_ordinal) as [Hin|Hout].
  - right. eexists. split; [by apply Hfire|].
    destruct (datetime.ltb candidate now) eqn:E.
    + split.
      { unfold datetime.weekday at 1. simpl.
        unfold datetime.weekday.
        replace (datetime.ordinal now - (datetime.ordinal now + 6) `mod` 7
                 + day_index (day block) + 7 + 6)
          with (datetime.ordinal now - (datetime.ordinal now + 6) `mod` 7
                + day_index (day block) + 6 + 1 * 7) by lia.
        rewrite Z.mod_add by lia. by apply weekday_shift. }
      do 5 (split; [done|]).
      assert (datetime.to_us candidate < datetime.to_us now) by by apply Hlt.
      unfold datetime.to_us, datetime.us_per_day, datetime.wf, candidate,
        monday in *.
      simpl in *. lia.
    + split.
      { unfold datetime.weekday at 1, candidate. simpl.
        replace (datetime.ordinal now - datetime.weekday now
                 + day_index (day block) + 0)
          with (datetime.ordinal now - datetime.weekday now
                + day_index (day block)) by lia.
        unfold datetime.weekday. by apply weekday_shift. }
      do 5 (split; [done|]).
      assert (¬ datetime.to_us candidate < datetime.to_us now)
        by (rewrite <- Hlt; congruence).
      unfold datetime.to_us, datetime.us_per_day, datetime.wf, candidate,
        monday in *.
      simpl in *. lia.
  - left. split; [by apply Hover|].
    unfold candidate, monday in Hout. simpl in Hout.
    destruct (datetime.ltb _ now); lia.
Qed.

(** ** The polling loop, continued *)









Lemma list_index_elem d ds i : list_index d ds = Ok i → d ∈ ds.
Proof.
  revert i. induction ds as [|y ds IH]; intros i; [done|].
  simpl. destruct (String.eqb_spec d y) as [->|Hne]; [by left|].
  destruct (list_index d ds) as [j|] eqn:E; [|done].
  intros _. right. by eapply IH.
Qed.

Lemma replace_hm_ok_iff d h m :
  is_ok (datetime.replace_hm d h m) = true ↔ 0 ≤ h < 24 ∧ 0 ≤ m < 60.
Proof.
  split; [|intros [Hh Hm]; by rewrite replace_hm_Ok].
  unfold datetime.replace_hm.
  destruct (negb _); [done|].
  destruct (Z.leb_spec 0 h), (Z.ltb_spec h 24); simpl; try done;
    destruct (Z.leb_spec 0 m), (Z.ltb_spec m 60); simpl; try done;
    intros _; lia.
Qed.

(** what a block must be for its fire time to be computed *)
Lemma fire_time_ok_only monday now b :
  is_ok (fire_time monday now b) = true →
  day b ∈ WEEKDAYS
  ∧ ∃ h m, parse_start (start_time b) = Ok (h, m)
           ∧ 0 ≤ h < 24 ∧ 0 ≤ m < 60.
Proof.
  unfold fire_time, candidate_time.
  destruct (list_index (day b) WEEKDAYS) as [i|] eqn:Ei; [|done].
  apply list_index_elem in Ei. cbn [mbind result_bind].
  destruct (datetime.plus monday _) as [block_date|]; [|done].
  cbn [mbind result_bind].
  destruct (parse_start (start_time b)) as [[h m]|]; [|done].
  cbn [mbind result_bind]. intros Hok. split; [done|]. exists h, m.
  split; [done|]. apply (replace_hm_ok_iff block_date).
  by destruct (datetime.replace_hm _ h m).
Qed.

(** ... and that this is enough two weeks before the last day *)
Lemma fire_time_ok_early monday now b :
  datetime.wf monday →
  datetime.min_ordinal ≤ datetime.ordinal monday →
  datetime.ordinal monday + 13 ≤ datetime.max_ordinal →
  day b ∈ WEEKDAYS →
  (∃ h m, parse_start (start_time b) = Ok (h, m)
          ∧ 0 ≤ h < 24 ∧ 0 ≤ m < 60) →
  is_ok (fire_time monday now b) = true.
Proof.
  intros Hwf Hlo Hhi Hday (h & m & Hp & Hh & Hm).
  pose proof (day_index_range _ Hday) as Hidx.
  destruct (fire_time_eq monday now b h m Hwf Hday Hp Hh Hm ltac:(lia))
    as [Hfire _].
  rewrite Hfire; [done|]. simpl. destruct (datetime.ltb _ now); lia.
Qed.

Lemma for_each_collect_ok {A B} (f : A → result B) (xs : list A) acc :
  is_ok (for_each xs (λ acc x, v ← f x; Ok (acc ++ [(v, x)])) acc) = true
  ↔ Forall (λ x, is_ok (f x) = true) xs.
Proof.
  revert acc. induction xs as [|x xs IH]; intros acc; simpl.
  - split; [by constructor|done].
  - rewrite Forall_cons. destruct (f x) as [v|]; simpl.
    + rewrite IH. tauto.
    + split; [done|]. by intros [? _].
Qed.

(** the first loop on a clock reading in range *)
Lemma blocks_by_datetime_ok now blocks :
  datetime.wf now →
  datetime.min_ordinal ≤ datetime.ordinal now ≤ datetime.max_ordinal →
  (is_ok (blocks_by_datetime now blocks) = true →
   Forall (λ b, day b ∈ WEEKDAYS
                ∧ ∃ h m, parse_start (start_time b) = Ok (h, m)
                         ∧ 0 ≤ h < 24 ∧ 0 ≤ m < 60) blocks)
  ∧ (datetime.ordinal now + 13 ≤ datetime.max_ordinal →
     Forall (λ b, day b ∈ WEEKDAYS
                  ∧ ∃ h m, parse_start (start_time b) = Ok (h, m)
                           ∧ 0 ≤ h < 24 ∧ 0 ≤ m < 60) blocks →
     is_ok (blocks_by_datetime now blocks) = true).
Proof.
  intros Hwf Hrange. unfold blocks_by_datetime.
  pose proof (weekday_range now) as Hwd.
  pose proof (monday_of_eq now Hwf Hrange) as Hmonday.
  set (monday := datetime.mk _ _ _ _ _) in Hmonday.
  assert (datetime.wf monday) as Hmw by done.
  assert (datetime.min_ordinal ≤ datetime.ordinal monday) as Hmlo.
  { unfold monday_of, datetime.minus in Hmonday.
    rewrite sub_days in Hmonday by done.
    unfold datetime.in_years in Hmonday. fold monday in Hmonday.
    destruct (Z.leb_spec datetime.min_ordinal (datetime.ordinal monday));
      [done|done]. }
  rewrite Hmonday. cbn [mbind result_bind].
  rewrite (for_each_collect_ok (fire_time monday now) blocks []).
  split.
  - intros Hall. eapply Forall_impl; [exact Hall|].
    intros b. apply fire_time_ok_only.
  - intros Hbound Hall. eapply Forall_impl; [exact Hall|].
    intros b [Hday Hstart].
    apply fire_time_ok_early; try done. unfold monday. simpl. lia.
Qed.

(** X7. For a clock reading in the range of [datetime], the reminder loop
    gets to its rounds only if every generated block is on a canonical
    weekday and has a start of the form [hour:minute], two integers that
    are an hour and a minute of the day: one block that is not so makes
    the loop raise before its first round, and no reminder is sent for any
    block.  When the clock reading is at least 13 days before the last
    day of the year 9999, such blocks are all it takes. *)
Theorem reminder_loop_returns_iff (app : App) (now : datetime.t)
    (clock : list datetime.t) :
  datetime.wf now →
  datetime.min_ordinal ≤ datetime.ordinal now ≤ datetime.max_ordinal →
  (is_ok (_reminder_loop app now clock) = true →
   Forall (λ b, day b ∈ WEEKDAYS
                ∧ ∃ h m, parse_start (start_time b) = Ok (h, m)
                         ∧ 0 ≤ h < 24 ∧ 0 ≤ m < 60)
     (generated_blocks app))
  ∧ (datetime.ordinal now + 13 ≤ datetime.max_ordinal →
     (is_ok (_reminder_loop app now clock) = true
      ↔ Forall (λ b, day b ∈ WEEKDAYS
                     ∧ ∃ h m, parse_start (start_time b) = Ok (h, m)
                              ∧ 0 ≤ h < 24 ∧ 0 ≤ m < 60)
          (generated_blocks app))).
Proof.
  intros Hwf Hrange.
  destruct (blocks_by_datetime_ok now (generated_blocks app) Hwf Hrange)
    as [Honly Hearly].
  assert (is_ok (_reminder_loop app now clock)
          = is_ok (blocks_by_datetime now (generated_blocks app))) as ->.
  { unfold _reminder_loop. by destruct (blocks_by_datetime _ _). }
  split; [done|]. intros Hbound. split; [done|by apply Hearly].
Qed.

(** ** The grid, continued *)

Lemma toggle_list_other hour l p :
  fst p ≠ hour → p ∈ toggle_list hour l ↔ p ∈ l.
Proof.
  intros Hp. unfold toggle_list. destruct (existsb _ _).
  - rewrite list_elem_of_filter. tauto.
  - rewrite elem_of_app, list_elem_of_singleton. split; [|tauto].
    intros [?| ->]; [done|]. by simpl in Hp.
Qed.

Lemma toggle_list_hours_other hour l h :
  h ≠ hour → h ∈ fst <$> toggle_list hour l ↔ h ∈ fst <$> l.
Proof.
  intros Hh. rewrite !list_elem_of_fmap. split.
  - intros (p & -> & Hp). exists p. split; [done|].
    by apply toggle_list_other in Hp.
  - intros (p & -> & Hp). exists p. split; [done|].
    by apply toggle_list_other.
Qed.

Lemma toggle_list_hours_flip hour l :
  hour ∈ fst <$> toggle_list hour l ↔ hour ∉ fst <$> l.
Proof.
  destruct (decide (hour ∈ fst <$> l)) as [Hin|Hno].
  - rewrite toggle_list_present by done.
    pose proof (filter_hour_gone hour l). tauto.
  - rewrite toggle_list_absent by done. split; [done|]. intros _.
    rewrite fmap_app, elem_of_app. right. simpl. left.
Qed.

Lemma toggle_busy_Ok app day hour app' :
  toggle_busy app day hour = Ok app' →
  has_button day hour = true
  ∧ ∃ l, odict.get day (busy_slots app) = Some l
         ∧ app' = with_busy_slots app
                    (odict.set day (toggle_list hour l) (busy_slots app)).
Proof.
  unfold toggle_busy. destruct (has_button day hour); [|done]. simpl.
  unfold odict.getitem.
  destruct (odict.get day (busy_slots app)) as [l|]; [|done]. simpl.
  intros [= <-]. split; [done|]. by exists l.
Qed.

(** X8. A successful toggle changes one thing: the membership of the
    clicked hour in the clicked day's list is flipped.  Every other
    interval of that day stays, the other weekdays keep their lists, the
    order of the weekdays is kept, and nothing else of the application
    state is touched. *)
Theorem toggle_busy_flips (app app' : App) (day : string) (hour : Z) :
  toggle_busy app day hour = Ok app' →
  app' = with_busy_slots app (busy_slots app')
  ∧ odict.keys (busy_slots app') = odict.keys (busy_slots app)
  ∧ (∀ d, d ≠ day →
       odict.get d (busy_slots app') = odict.get d (busy_slots app))
  ∧ ∃ l l',
      odict.get day (busy_slots app) = Some l
      ∧ odict.get day (busy_slots app') = Some l'
      ∧ (hour ∈ fst <$> l' ↔ hour ∉ fst <$> l)
      ∧ (∀ p, fst p ≠ hour → p ∈ l' ↔ p ∈ l).
Proof.
  intros (Hbtn & l & Hget & ->)%toggle_busy_Ok. simpl.
  split; [done|]. split; [by rewrite keys_set_present|].
  split; [intros d Hd; by apply get_set_ne|].
  exists l, (toggle_list hour l). split; [done|].
  split; [apply get_set_eq|]. split; [apply toggle_list_hours_flip|].
  intros p Hp. by apply toggle_list_other.
Qed.

Lemma click_week_model app cell :
  week_model (busy_slots app) → week_model (busy_slots (click app cell)).
Proof.
  intros Hw. unfold click.
  destruct (toggle_busy app (fst cell) (snd cell)) eqn:E; [|done].
  by eapply week_model_toggle.
Qed.

Lemma click_other_fields app cell :
  click app cell = with_busy_slots app (busy_slots (click app cell)).
Proof.
  unfold click.
  destruct (toggle_busy app (fst cell) (snd cell)) as [app'|] eqn:E.
  - by apply toggle_busy_Ok in E as (_ & l & _ & ->).
  - by destruct app.
Qed.

Lemma click_off_grid app cell :
  has_button (fst cell) (snd cell) = false → click app cell = app.
Proof. intros H. unfold click, toggle_busy. by rewrite H. Qed.

Lemma get_week day (busy : list (string * list (Z * Z))) :
  odict.keys busy = WEEKDAYS → day ∈ WEEKDAYS →
  is_Some (odict.get day busy).
Proof.
  intros Hkeys Hday.
  destruct (odict.get day busy) as [l|] eqn:E; [by eexists|].
  exfalso. rewrite <- Hkeys in Hday. clear Hkeys.
  unfold odict.keys in Hday.
  induction busy as [|[k v] busy IH]; [by apply elem_of_nil in Hday|].
  simpl in E. csimpl in Hday.
  destruct (String.eqb_spec day k) as [->|Hne]; [done|].
  apply elem_of_cons in Hday as [?|Hin]; [done|]. by apply IH.
Qed.

Lemma click_busy_at app cell day hour :
  odict.keys (busy_slots app) = WEEKDAYS →
  has_button (fst cell) (snd cell) = true →
  busy_at (click app cell) day hour
  ↔ (if decide (cell = (day, hour)) then ¬ busy_at app day hour
     else busy_at app day hour).
Proof.
  intros Hkeys Hbtn. destruct cell as [d h]. simpl in Hbtn.
  assert (d ∈ WEEKDAYS) as Hd.
  { apply str_in_elem. unfold has_button in Hbtn.
    by apply andb_true_iff in Hbtn as [[? _]%andb_true_iff _]. }
  destruct (get_week d _ Hkeys Hd) as [l Hget].
  unfold click, toggle_busy, odict.getitem. simpl. rewrite Hbtn, Hget.
  simpl. unfold busy_at. simpl.
  destruct (decide (d = day)) as [->|Hday].
  - rewrite get_set_eq, Hget. case_decide as Hcell.
    + injection Hcell as ->. split.
      * intros (l' & [= <-] & Hin) (l'' & [= <-] & Hin').
        by apply toggle_list_hours_flip in Hin.
      * intros Hno. eexists. split; [done|].
        apply toggle_list_hours_flip. intros Hin. apply Hno. by exists l.
    + assert (hour ≠ h) as Hh by congruence. split.
      * intros (l' & [= <-] & Hin). exists l. split; [done|].
        by apply toggle_list_hours_other in Hin.
      * intros (l' & [= <-] & Hin). eexists. split; [done|].
        by apply toggle_list_hours_other.
  - rewrite get_set_ne by done.
    rewrite decide_False by congruence. done.
Qed.

(** X9. Starting from the empty grid, after any sequence of clicks a cell
    is busy exactly when it has been clicked an odd number of times; the
    model still has the seven weekdays in order, and on each of them
    one-hour intervals at distinct hours.  Clicks outside the grid change
    nothing. *)
Theorem clicks_parity (g : GPTScheduler) (cells : list (string * Z))
    (day : string) (hour : Z) :
  let app := foldl click (new_app g) cells in
  week_model (busy_slots app)
  ∧ app = with_busy_slots (new_app g) (busy_slots app)
  ∧ (busy_at app day hour
     ↔ has_button day hour = true
       ∧ Nat.odd (length (filter (λ c, c = (day, hour)) cells)) = true).
Proof.
  induction cells as [|cell cells IH] using rev_ind.
  - split; [exact (week_model_new g)|]. split; [done|]. simpl. split.
    + intros (l & Hget & Hin). exfalso. revert Hget Hin.
      unfold new_app, empty_week. simpl.
      repeat (destruct (String.eqb day _);
              [intros [= <-] ?%elem_of_nil; done|]).
      done.
    + by intros [_ ?].
  - cbv zeta in *. rewrite foldl_snoc.
    destruct IH as (Hweek & Happ & IH).
    set (app := foldl click (new_app g) cells) in *.
    split; [by apply click_week_model|]. split.
    { rewrite click_other_fields, Happ at 1. done. }
    rewrite filter_app, length_app.
    destruct (has_button (fst cell) (snd cell)) eqn:Hbtn.
    + rewrite click_busy_at by (done || apply Hweek).
      case_decide as Hcell.
      * rewrite filter_cons_True, filter_nil by done. simpl.
        rewrite Nat.add_1_r, Nat.odd_succ, <- Nat.negb_odd.
        subst cell. simpl in Hbtn. rewrite IH, Hbtn.
        destruct (Nat.odd _); simpl.
        -- split; [intros H; exfalso; by apply H | by intros [_ ?]].
        -- split; [done | by intros _ [_ ?]].
      * rewrite filter_cons_False, filter_nil by done. simpl.
        by rewrite Nat.add_0_r.
    + rewrite click_off_grid by done.
      assert (cell ≠ (day, hour) ∨ has_button day hour = false)
        as [Hcell|Hoff].
      { destruct (decide (cell = (day, hour))) as [->|]; [|by left].
        right. done. }
      * rewrite filter_cons_False, filter_nil by done. simpl.
        by rewrite Nat.add_0_r.
      * rewrite IH, Hoff. split; by intros [? _].
Qed.

(** ** The request: one focus entry per goal name *)

Lemma elem_of_keys_get {V} k (d : list (string * V)) :
  k ∈ odict.keys d ↔ is_Some (odict.get k d).
Proof.
  unfold odict.keys. induction d as [|[k' v] d IH]; csimpl.
  - split; [intros H; by apply elem_of_nil in H | by intros [? [=]]].
  - rewrite elem_of_cons, IH. destruct (String.eqb k k') eqn:E.
    + apply String.eqb_eq in E. split; [by eexists | by left].
    + apply String.eqb_neq in E. split; [by intros [?|?] | by right].
Qed.

Lemma keys_set {V} k (v : V) d :
  odict.keys (odict.set k v d)
  = if decide (k ∈ odict.keys d) then odict.keys d else odict.keys d ++ [k].
Proof.
  case_decide as Hk.
  - apply keys_set_present. by apply elem_of_keys_get.
  - unfold odict.keys in *. induction d as [|[k' v'] d IH]; csimpl; [done|].
    csimpl in Hk. apply not_elem_of_cons in Hk as [Hne Hk].
    apply String.eqb_neq in Hne as ->. csimpl. by rewrite IH.
Qed.

Lemma keys_setdefault_append {V} k (x : V) d :
  odict.keys (setdefault_append k x d)
  = if decide (k ∈ odict.keys d) then odict.keys d else odict.keys d ++ [k].
Proof.
  unfold setdefault_append.
  destruct (odict.get k d) as [l|] eqn:E.
  - rewrite keys_set.
    assert (k ∈ odict.keys d) by (apply elem_of_keys_get; by rewrite E).
    by rewrite !decide_True.
  - rewrite decide_False.
    + unfold odict.keys. by rewrite fmap_app.
    + rewrite elem_of_keys_get, E. by intros [? [=]].
Qed.

Lemma filter_all {A} (P : A → Prop) `{!∀ x, Decision (P x)} (l : list A) :
  (∀ x, x ∈ l → P x) → filter P l = l.
Proof.
  induction l as [|x l IH]; intros Hall; [done|].
  rewrite filter_cons_True by (apply Hall; left).
  f_equal. apply IH. intros y Hy. apply Hall. by right.
Qed.

Lemma filter_none {A} (P : A → Prop) `{!∀ x, Decision (P x)} (l : list A) :
  (∀ x, x ∈ l → ¬ P x) → filter P l = [].
Proof.
  induction l as [|x l IH]; intros Hall; [done|].
  rewrite filter_cons_False by (apply Hall; left).
  apply IH. intros y Hy. apply Hall. by right.
Qed.

Lemma filter_filter_absent (P : string → Prop) `{!∀ x, Decision (P x)} x
    (l : list string) :
  ¬ P x → filter P (filter (λ y, y ≠ x) l) = filter P l.
Proof.
  intros Hx. rewrite list_filter_filter. apply list_filter_iff.
  intros y. split; [tauto|]. intros Hy. split; [done|]. by intros ->.
Qed.

Lemma first_occurrences_filter (P : string → Prop) `{!∀ x, Decision (P x)}
    (l : list string) :
  first_occurrences (filter P l) = filter P (first_occurrences l).
Proof.
  induction l as [|x l IH]; [done|]. simpl.
  destruct (decide (P x)) as [Hx|Hx].
  - rewrite !filter_cons_True by done. simpl. rewrite IH. f_equal.
    rewrite !list_filter_filter. apply list_filter_iff. tauto.
  - rewrite !filter_cons_False by done. rewrite IH.
    by rewrite filter_filter_absent.
Qed.

Lemma elem_of_first_occurrences x l : x ∈ first_occurrences l ↔ x ∈ l.
Proof.
  induction l as [|y l IH]; [done|]. simpl.
  rewrite !elem_of_cons, list_elem_of_filter, IH.
  destruct (decide (x = y)); tauto.
Qed.

Lemma NoDup_first_occurrences l : NoDup (first_occurrences l).
Proof.
  induction l as [|x l IH]; simpl; [constructor|].
  constructor.
  - rewrite list_elem_of_filter. tauto.
  - by apply NoDup_filter.
Qed.

(** A loop that adds the key of each item when it is absent leaves the keys
    in the order of their first appearance. *)
Lemma keys_foldl {A V} (key : A → string)
    (step : list (string * V) → A → list (string * V)) xs d :
  (∀ d x, odict.keys (step d x)
          = if decide (key x ∈ odict.keys d) then odict.keys d
            else odict.keys d ++ [key x]) →
  odict.keys (foldl step d xs)
  = odict.keys d
    ++ filter (λ k, k ∉ odict.keys d) (first_occurrences (key <$> xs)).
Proof.
  intros Hstep. revert d. induction xs as [|x xs IH]; intros d.
  - simpl. by rewrite app_nil_r.
  - simpl foldl. rewrite IH, Hstep. csimpl. case_decide as Hk.
    + rewrite filter_cons_False by tauto.
      by rewrite filter_filter_absent by tauto.
    + rewrite filter_cons_True by done.
      rewrite <- app_assoc. simpl. do 2 f_equal.
      rewrite !list_filter_filter. apply list_filter_iff.
      intros k. rewrite elem_of_app, list_elem_of_singleton. tauto.
Qed.

Lemma keys_goal_lookup gs :
  odict.keys (goal_lookup gs) = first_occurrences (goal_name <$> gs).
Proof.
  unfold goal_lookup.
  rewrite (keys_foldl goal_name) by (intros; apply keys_set).
  simpl. apply filter_all. intros k _ Hk. by apply elem_of_nil in Hk.
Qed.

Lemma keys_group_tasks ts :
  odict.keys (group_tasks ts) = first_occurrences (goal_key <$> ts).
Proof.
  unfold group_tasks.
  rewrite (keys_foldl goal_key) by (intros; apply keys_setdefault_append).
  simpl. apply filter_all. intros k _ Hk. by apply elem_of_nil in Hk.
Qed.

(** [{goal.name: goal ...}] keeps, under a name, the last goal of that
    name. *)
Lemma get_goal_lookup_fold n gs d :
  odict.get n (foldl (λ d g, odict.set (goal_name g) g d) d gs)
  = match last (filter (λ g, goal_name g = n) gs) with
    | Some g => Some g
    | None => odict.get n d
    end.
Proof.
  revert d. induction gs as [|g gs IH]; intros d; [done|].
  simpl foldl. rewrite IH. destruct (decide (goal_name g = n)) as [Hn|Hn].
  - rewrite filter_cons_True by done. rewrite last_cons.
    destruct (last _); [done|]. subst n. apply get_set_eq.
  - rewrite filter_cons_False by done.
    destruct (last _); [done|]. by apply get_set_ne.
Qed.

Lemma get_goal_lookup n gs :
  odict.get n (goal_lookup gs) = last (filter (λ g, goal_name g = n) gs).
Proof.
  unfold goal_lookup. rewrite get_goal_lookup_fold. by destruct (last _).
Qed.

Lemma elem_of_get {V} k (v : V) d :
  NoDup (odict.keys d) → (k, v) ∈ d → odict.get k d = Some v.
Proof.
  unfold odict.keys. induction d as [|[k' v'] d IH]; csimpl; intros Hnd Hin.
  - by apply elem_of_nil in Hin.
  - apply NoDup_cons in Hnd as [Hk' Hnd].
    apply elem_of_cons in Hin as [[= <- <-]|Hin].
    + by rewrite String.eqb_refl.
    + destruct (String.eqb k k') eqn:E; [|by apply IH].
      apply String.eqb_eq in E as <-. exfalso. apply Hk'.
      apply list_elem_of_fmap. by exists (k, v).
Qed.

Lemma get_elem_of {V} k (v : V) d : odict.get k d = Some v → (k, v) ∈ d.
Proof.
  induction d as [|[k' v'] d IH]; simpl; [done|].
  destruct (String.eqb k k') eqn:E.
  - apply String.eqb_eq in E as ->. intros [= ->]. left.
  - intros. right. auto.
Qed.

Lemma filter_key {V} k (v : V) d :
  NoDup (odict.keys d) → odict.get k d = Some v →
  filter (λ item, fst item = k) d = [(k, v)].
Proof.
  unfold odict.keys. induction d as [|[k' v'] d IH]; csimpl; [done|].
  intros Hnd. apply NoDup_cons in Hnd as [Hk' Hnd].
  destruct (String.eqb k k') eqn:E.
  - apply String.eqb_eq in E as <-. intros [= ->].
    rewrite filter_cons_True by done. f_equal.
    apply filter_none. intros item Hin Hitem. apply Hk'.
    rewrite <- Hitem. by apply list_elem_of_fmap_2.
  - apply String.eqb_neq in E. intros Hget.
    rewrite filter_cons_False by (simpl; congruence). by apply IH.
Qed.

(** the focus entries, goal by goal, then the unaligned tasks *)
Lemma goal_summaries_entries ts gs :
  goal_summaries ts gs
  = (goal_entry ts <$> goal_lookup gs)
    ++ (if decide (Exists (λ t, goal_key t = "Unaligned") ts)
        then [unaligned_entry ts] else []).
Proof.
  unfold goal_summaries. rewrite group_tasks_get.
  assert ((λ '(name, g),
             {| gf_goal := name; gf_difficulty := goal_difficulty g;
                gf_notes := goal_notes g;
                gf_tasks := default [] (odict.get name (group_tasks ts)) |})
            <$> goal_lookup gs
          = goal_entry ts <$> goal_lookup gs) as ->.
  { apply list_fmap_ext. intros _ [name g] _. unfold goal_entry. simpl.
    f_equal. rewrite group_tasks_get. by destruct (bucket name ts). }
  pose proof (bucket_nonempty "Unaligned" ts) as Hne.
  rewrite <- Exists_exists in Hne.
  case_decide as Hex.
  - apply Hne in Hex. unfold unaligned_entry.
    by destruct (bucket "Unaligned" ts).
  - destruct (bucket "Unaligned" ts) eqn:E; [by rewrite app_nil_r|].
    exfalso. apply Hex, Hne. done.
Qed.

(** X10. The goal focus of the request has one entry for each distinct
    goal name, at the place where the name first appears in the goal list
    and with the difficulty and notes of the last goal of that name; the
    entry for the unaligned tasks, when there is one, comes last. *)
Theorem goal_focus_one_per_name (ts : list Task) (gs : list Goal) :
  ∃ named,
    goal_summaries ts gs
    = named ++ (if decide (Exists (λ t, goal_key t = "Unaligned") ts)
                then [unaligned_entry ts] else [])
    ∧ gf_goal <$> named = first_occurrences (goal_name <$> gs)
    ∧ ∀ e, e ∈ named →
        ∃ g, last (filter (λ g, goal_name g = gf_goal e) gs) = Some g
             ∧ gf_difficulty e = goal_difficulty g
             ∧ gf_notes e = goal_notes g
             ∧ gf_tasks e = bucket (gf_goal e) ts.
Proof.
  exists (goal_entry ts <$> goal_lookup gs).
  split; [apply goal_summaries_entries|]. split.
  - rewrite <- keys_goal_lookup. unfold odict.keys.
    rewrite <- list_fmap_compose. by apply list_fmap_ext.
  - intros e He. apply list_elem_of_fmap in He as ([n g] & -> & Hin).
    exists g. simpl. split; [|done].
    rewrite <- get_goal_lookup. apply elem_of_get; [|done].
    rewrite keys_goal_lookup. apply NoDup_first_occurrences.
Qed.

Lemma values_set {V} k (l l' : list V) d :
  odict.get k d = Some l →
  mjoin (snd <$> odict.set k (l ++ l') d) ≡ₚ mjoin (snd <$> d) ++ l'.
Proof.
  induction d as [|[k' v] d IH]; csimpl; [done|].
  destruct (String.eqb k k'); csimpl.
  - intros [= ->]. rewrite <- !app_assoc. apply Permutation_app_head.
    apply Permutation_app_comm.
  - intros Hget. rewrite IH by done. by rewrite app_assoc.
Qed.

Lemma values_setdefault_append {V} k (x : V) d :
  mjoin (snd <$> setdefault_append k x d) ≡ₚ mjoin (snd <$> d) ++ [x].
Proof.
  unfold setdefault_append. destruct (odict.get k d) as [l|] eqn:E.
  - by apply values_set.
  - rewrite fmap_app, join_app. csimpl. done.
Qed.

(** X11. Grouping the tasks by goal loses and repeats nothing: the keys
    of [tasks_by_goal] are the distinct keys of the tasks in the order of
    their first appearance, each key holds the tasks of that key in the
    order of the task list, never an empty list, and the lists together are
    a rearrangement of the task list. *)
Theorem group_tasks_partition (ts : list Task) :
  odict.keys (group_tasks ts) = first_occurrences (goal_key <$> ts)
  ∧ NoDup (odict.keys (group_tasks ts))
  ∧ (∀ k l, (k, l) ∈ group_tasks ts → l = bucket k ts ∧ l ≠ [])
  ∧ mjoin (snd <$> group_tasks ts) ≡ₚ task_summary <$> ts.
Proof.
  split; [apply keys_group_tasks|]. split;
    [rewrite keys_group_tasks; apply NoDup_first_occurrences|]. split.
  - intros k l Hin. apply elem_of_get in Hin;
      [|rewrite keys_group_tasks; apply NoDup_first_occurrences].
    rewrite group_tasks_get in Hin.
    destruct (bucket k ts) eqn:E; [done|]. by injection Hin as <-.
  - unfold group_tasks.
    assert (∀ d,
      mjoin (snd <$> foldl (λ tasks_by_goal task,
                              setdefault_append (goal_key task)
                                (task_summary task) tasks_by_goal) d ts)
      ≡ₚ mjoin (snd <$> d) ++ (task_summary <$> ts)) as Hfold.
    { induction ts as [|t ts IH]; intros d; simpl.
      - by rewrite app_nil_r.
      - rewrite IH, values_setdefault_append. csimpl.
        by rewrite <- app_assoc. }
    apply (Hfold []).
Qed.

(** X12. When a goal is called ["Unaligned"] and some task has no goal,
    the goal focus has two entries of that name, the goal's entry and the
    one appended for the unaligned tasks, and both list all the tasks
    without a goal. *)
Theorem goal_named_unaligned_twice (ts : list Task) (gs : list Goal) :
  "Unaligned" ∈ goal_name <$> gs →
  Exists (λ t, goal_key t = "Unaligned") ts →
  ∃ g, last (filter (λ g, goal_name g = "Unaligned") gs) = Some g
       ∧ filter (λ e, gf_goal e = "Unaligned") (goal_summaries ts gs)
         = [goal_entry ts ("Unaligned", g); unaligned_entry ts]
       ∧ gf_tasks (goal_entry ts ("Unaligned", g)) = bucket "Unaligned" ts
       ∧ gf_tasks (unaligned_entry ts) = bucket "Unaligned" ts
       ∧ bucket "Unaligned" ts ≠ [].
Proof.
  intros Hname Hex.
  assert (NoDup (odict.keys (goal_lookup gs))) as Hnd
    by (rewrite keys_goal_lookup; apply NoDup_first_occurrences).
  assert (is_Some (odict.get "Unaligned" (goal_lookup gs))) as [g Hg].
  { apply elem_of_keys_get. rewrite keys_goal_lookup.
    by apply elem_of_first_occurrences. }
  exists g. split; [by rewrite <- get_goal_lookup|].
  split; [|split; [done|split; [done|]]].
  - rewrite goal_summaries_entries, decide_True by done.
    rewrite filter_app, filter_cons_True, filter_nil by done.
    f_equal.
    assert (∀ d : list (string * Goal),
      filter (λ e, gf_goal e = "Unaligned") (goal_entry ts <$> d)
      = goal_entry ts <$> filter (λ item, fst item = "Unaligned") d) as ->.
    { induction d as [|item d IH]; [done|]. csimpl.
      destruct (decide (fst item = "Unaligned")).
      - rewrite !filter_cons_True by done. csimpl. by rewrite IH.
      - by rewrite !filter_cons_False by done. }
    by rewrite (filter_key _ g).
  - apply bucket_nonempty. by apply Exists_exists in Hex.
Qed.

(** ** Display *)

Lemma get_Some_keys {V} k (d : list (string * V)) :
  k ∈ odict.keys d → ∃ v, odict.get k d = Some v.
Proof. intros [v Hv]%elem_of_keys_get. by exists v. Qed.

(** Appending to the list of a key, as a map over the items. *)
Lemma set_append {V} k (l l' : list V) d :
  NoDup (odict.keys d) → odict.get k d = Some l →
  odict.set k (l ++ l') d
  = (λ item, (fst item, snd item ++ if decide (fst item = k) then l' else []))
    <$> d.
Proof.
  unfold odict.keys. induction d as [|[k' v] d IH]; csimpl; [done|].
  intros Hnd. apply NoDup_cons in Hnd as [Hk' Hnd].
  destruct (String.eqb k k') eqn:E.
  - apply String.eqb_eq in E as <-. intros [= ->].
    rewrite decide_True by done. f_equal.
    transitivity (id <$> d); [by rewrite list_fmap_id|].
    apply list_fmap_ext. intros _ [k2 v2] Hin%list_elem_of_lookup_2. simpl.
    rewrite decide_False, app_nil_r; [done|].
    intros ->. apply Hk'. by apply (list_elem_of_fmap_2 fst) in Hin.
  - apply String.eqb_neq in E. intros Hget.
    rewrite decide_False, app_nil_r by congruence.
    f_equal. by apply IH.
Qed.

(** the first loop of [_display_schedule] *)
Lemma group_loop (blocks : list TimeBlock) ctx :
  NoDup (odict.keys ctx) →
  Forall (λ b, day b ∈ odict.keys ctx) blocks →
  for_each blocks
    (λ grouped block,
       l ← odict.getitem (day block) grouped;
       Ok (odict.set (day block) (l ++ [block]) grouped))
    ctx
  = Ok ((λ item, (fst item,
                  snd item ++ filter (λ b, day b = fst item) blocks))
        <$> ctx).
Proof.
  revert ctx. induction blocks as [|b blocks IH]; intros ctx Hnd Hall.
  - simpl. f_equal. transitivity (id <$> ctx); [by rewrite list_fmap_id|].
    apply list_fmap_ext. intros _ [k v] _. simpl. by rewrite app_nil_r.
  - apply Forall_cons in Hall as [Hb Hall].
    destruct (get_Some_keys _ _ Hb) as [l Hl].
    simpl. unfold odict.getitem. rewrite Hl. simpl.
    rewrite (set_append _ _ _ _ Hnd Hl).
    assert (odict.keys
              ((λ item : string * list TimeBlock,
                  (fst item,
                   snd item ++ if decide (fst item = day b) then [b] else []))
               <$> ctx) = odict.keys ctx) as Hkeys.
    { unfold odict.keys. rewrite <- list_fmap_compose.
      by apply list_fmap_ext. }
    rewrite IH by (by rewrite Hkeys).
    f_equal. rewrite <- list_fmap_compose. apply list_fmap_ext.
    intros _ [k v] _. simpl. f_equal. rewrite <- app_assoc. f_equal.
    case_decide as Hk.
    + by rewrite filter_cons_True.
    + by rewrite filter_cons_False by congruence.
Qed.

Lemma group_loop_raises (blocks : list TimeBlock) ctx :
  NoDup (odict.keys ctx) →
  Exists (λ b, day b ∉ odict.keys ctx) blocks →
  for_each blocks
    (λ grouped block,
       l ← odict.getitem (day block) grouped;
       Ok (odict.set (day block) (l ++ [block]) grouped))
    ctx
  = Raise KeyError.
Proof.
  revert ctx. induction blocks as [|b blocks IH]; intros ctx Hnd Hex.
  - by apply Exists_nil in Hex.
  - simpl. unfold odict.getitem.
    destruct (odict.get (day b) ctx) as [l|] eqn:Hl; simpl; [|done].
    apply Exists_cons in Hex as [Hb|Hex].
    + exfalso. apply Hb, elem_of_keys_get. by rewrite Hl.
    + assert (odict.keys (odict.set (day b) (l ++ [b]) ctx) = odict.keys ctx)
        as Hkeys by (apply keys_set_present; by rewrite Hl).
      apply IH; by rewrite Hkeys.
Qed.

Lemma NoDup_WEEKDAYS : NoDup WEEKDAYS.
Proof.
  unfold WEEKDAYS. repeat (apply NoDup_cons; split;
    [rewrite ?elem_of_cons; intros H;
     repeat (destruct H as [H|H]; [done|]); by apply elem_of_nil in H|]).
  apply NoDup_nil_2.
Qed.

Lemma get_fmap_keys {V} (g : string → string * V) k ks :
  (∀ d, fst (g d) = d) → k ∈ ks →
  odict.get k (g <$> ks) = Some (snd (g k)).
Proof.
  intros Hg. induction ks as [|k' ks IH]; csimpl; [by intros ?%elem_of_nil|].
  intros Hin. specialize (Hg k') as Hk'. destruct (g k') as [k2 v] eqn:E.
  simpl in Hk'. subst k2. destruct (String.eqb k k') eqn:E'.
  - apply String.eqb_eq in E' as ->. by rewrite E.
  - apply String.eqb_neq in E'. apply elem_of_cons in Hin as [?|?]; [done|].
    by apply IH.
Qed.

(** [_day_context] returns on the weekdays of a dictionary with the seven
    keys. *)
Lemma day_context_Ok app d blocks :
  odict.keys (busy_slots app) = WEEKDAYS → d ∈ WEEKDAYS →
  is_ok (_day_context app d blocks) = true.
Proof.
  intros Hkeys Hd. unfold _day_context.
  rewrite build_busy_context_snapshot by done. cbn [mbind result_bind].
  rewrite <- Hkeys in Hd. destruct (get_Some_keys _ _ Hd) as [slots Hs].
  unfold odict.getitem. by rewrite (get_busy_snapshot _ _ _ Hs).
Qed.

Lemma for_each_extend {A B} (xs : list A) (body : list B → A → result (list B))
    (h : A → list B) acc :
  (∀ acc x, x ∈ xs → body acc x = Ok (acc ++ h x)) →
  for_each xs body acc = Ok (acc ++ (xs ≫= h)).
Proof.
  revert acc. induction xs as [|x xs IH]; intros acc Hbody.
  - simpl. by rewrite app_nil_r.
  - simpl. rewrite Hbody by left. simpl.
    rewrite IH by (intros; apply Hbody; by right).
    by rewrite <- app_assoc.
Qed.

(** X13. On a busy-time dictionary with the seven weekday keys and blocks
    on canonical weekdays, [_display_schedule] returns the text made, for
    each weekday from Monday to Sunday, of the name of the day, a rule of
    dashes of the same length, the lines [_day_context] gives for the
    blocks of that day in the order of the list, and an empty line.  A
    block on any other day makes it raise [KeyError]. *)
Theorem display_schedule_by_day (app : App) (blocks : list TimeBlock) :
  odict.keys (busy_slots app) = WEEKDAYS →
  (Forall (λ b, day b ∈ WEEKDAYS) blocks →
   ∃ lines : string → list string,
     (∀ d, d ∈ WEEKDAYS →
        _day_context app d (filter (λ b, day b = d) blocks) = Ok (lines d))
     ∧ _display_schedule app blocks
       = Ok (join_lines
               (d ← WEEKDAYS;
                [d; repeat_string "-" (String.length d)] ++ lines d ++ [""])))
  ∧ (Exists (λ b, day b ∉ WEEKDAYS) blocks →
     _display_schedule app blocks = Raise KeyError).
Proof.
  intros Hkeys. split.
  - intros Hdays.
    exists (λ d, match _day_context app d (filter (λ b, day b = d) blocks) with
                 | Ok l => l
                 | Raise _ => []
                 end).
    assert (∀ d, d ∈ WEEKDAYS →
              _day_context app d (filter (λ b, day b = d) blocks)
              = Ok match _day_context app d (filter (λ b, day b = d) blocks)
                   with Ok l => l | Raise _ => [] end) as Hlines.
    { intros d Hd.
      pose proof (day_context_Ok app d (filter (λ b, day b = d) blocks)
                    Hkeys Hd) as Hok.
      by destruct (_day_context _ _ _). }
    split; [done|].
    unfold _display_schedule.
    rewrite group_loop; [|apply NoDup_WEEKDAYS|done].
    cbn [mbind result_bind].
    erewrite for_each_extend; [done|].
    intros acc d Hd. unfold odict.getitem, empty_week.
    rewrite <- list_fmap_compose, get_fmap_keys by done.
    simpl. rewrite (Hlines d Hd). done.
  - intros Hex. unfold _display_schedule.
    rewrite group_loop_raises; [done|apply NoDup_WEEKDAYS|done].
Qed.

(** ** Generating a schedule: the other paths *)

(** A busy interval whose end [strptime] refuses makes the detector raise
    on every list with a block of that day. *)
Lemma find_conflicts_bad_end app blocks slots slot b :
  odict.keys (busy_slots app) = WEEKDAYS →
  odict.get (day b) (busy_slots app) = Some slots →
  slot ∈ slots →
  datetime.strptime_HM (be_end (busy_entry slot)) = Raise ValueError →
  b ∈ blocks →
  _find_conflicts app blocks = Raise ValueError.
Proof.
  intros Hkeys Hget Hslot Hend Hb.
  unfold _find_conflicts. rewrite build_busy_context_snapshot by done.
  cbn [mbind result_bind].
  apply for_each_raises with (x := b); [|done|].
  - intros messages block e. apply for_each_only.
    intros ???. apply conflict_step_raises.
  - intros messages.
    apply for_each_raises
      with (x := mkTimeBlock "Busy" (day b) (be_start (busy_entry slot))
                   (be_end (busy_entry slot)) "").
    + intros ???. apply conflict_step_raises.
    + apply (elem_of_busy_blocks (day b) (busy_entry <$> slots)
               (busy_entry slot)).
      * by apply get_busy_snapshot.
      * by apply list_elem_of_fmap_2.
    + intros messages'. by rewrite overlaps_bad_end.
Qed.

Lemma build_schedule_context_Ok app :
  odict.keys (busy_slots app) = WEEKDAYS →
  _build_schedule_context app
  = Ok {| ctx_goals := goals app; ctx_tasks := tasks app;
          ctx_busy := busy_snapshot (busy_slots app);
          ctx_goal_focus := goal_summaries (tasks app) (goals app);
          ctx_guidelines := guidelines |}.
Proof.
  intros Hkeys. unfold _build_schedule_context.
  by rewrite build_busy_context_snapshot.
Qed.

Lemma display_schedule_Ok app blocks :
  odict.keys (busy_slots app) = WEEKDAYS →
  Forall (λ b, day b ∈ WEEKDAYS) blocks →
  is_ok (_display_schedule app blocks) = true.
Proof.
  intros Hkeys Hdays. unfold _display_schedule.
  rewrite group_loop; [|apply NoDup_WEEKDAYS|done].
  cbn [mbind result_bind].
  erewrite (for_each_extend _ _
    (λ d, [d; repeat_string "-" (String.length d)]
          ++ match _day_context app d (filter (λ b, day b = d) blocks) with
             | Ok l => l
             | Raise _ => []
             end ++ [""])); [done|].
  intros acc d Hd. unfold odict.getitem, empty_week.
  rewrite <- list_fmap_compose, get_fmap_keys by done.
  simpl.
  pose proof (day_context_Ok app d (filter (λ b, day b = d) blocks)
                Hkeys Hd) as Hok.
  by destruct (_day_context _ _ _).
Qed.

(** X14. With a task, a client whose request returns a response of the
    documented shape, a [Schedule], whose entries hold text, and a
    busy-time dictionary on which conflict detection returns, the callback
    succeeds whichever blocks the response lists: the parser and the
    display do not raise, the blocks of the response become
    [generated_blocks], the text is shown, the reminder button is enabled,
    and the only dialog is the warning that lists the conflicts, opened
    exactly when there is one.  The request carried the tasks, the goals
    and the snapshot of the busy times. *)
Theorem generate_schedule_success (app : App)
    (call : Context → result Schedule) (schedule : Schedule) :
  tasks app ≠ [] →
  odict.keys (busy_slots app) = WEEKDAYS →
  client (gpt app) = Some call →
  (∀ context, _build_schedule_context app = Ok context →
     call context = Ok schedule) →
  (∀ blocks, _parse_schedule schedule = Ok blocks →
     is_ok (_find_conflicts app blocks) = true) →
  ∃ context blocks conflicts text,
    _build_schedule_context app = Ok context
    ∧ ctx_tasks context = tasks app ∧ ctx_goals context = goals app
    ∧ ctx_busy context = busy_snapshot (busy_slots app)
    ∧ _parse_schedule schedule = Ok blocks
    ∧ _find_conflicts app blocks = Ok conflicts
    ∧ _display_schedule app blocks = Ok text
    ∧ generate_schedule app
      = {| out_app := with_display (with_generated app blocks) text normal;
           out_dialogs :=
             match conflicts with
             | [] => []
             | _ => [showwarning "Conflicts detected" (join_lines conflicts)]
             end;
           out_raised := None |}.
Proof.
  intros Htasks Hkeys Hclient Hcall Hconf.
  destruct (parse_schedule_sorted schedule) as (blocks & Hparse & _ & _).
  pose proof (parse_schedule_days _ _ Hparse) as Hdays.
  pose proof (Hconf blocks Hparse) as Hok.
  destruct (_find_conflicts app blocks) as [conflicts|] eqn:Hc; [|done].
  pose proof (display_schedule_Ok app blocks Hkeys Hdays) as Hd.
  destruct (_display_schedule app blocks) as [text|] eqn:Ht; [|done].
  eexists _, blocks, conflicts, text.
  split; [by apply build_schedule_context_Ok|].
  do 6 (split; [done|]).
  unfold generate_schedule.
  destruct (tasks app) as [|t ts] eqn:Et; [done|].
  unfold is_available, gpt_generate_schedule. rewrite Hclient. simpl.
  rewrite build_schedule_context_Ok by done.
  rewrite (Hcall _ (build_schedule_context_Ok app Hkeys)).
  rewrite Hparse, Hc.
  assert (_display_schedule (with_generated app blocks) blocks
          = _display_schedule app blocks) as -> by done.
  by rewrite Ht.
Qed.

(** X15. With the cell of hour 23 of some day marked busy, a response
    that has an accepted block on that day is lost: conflict detection
    raises [ValueError] out of the callback, no dialog is opened, and the
    state, the generated blocks among it, stays as it was. *)
Theorem generate_schedule_midnight (app : App)
    (call : Context → result Schedule) (schedule : Schedule)
    (blocks : list TimeBlock) (b : TimeBlock) (slots : list (Z * Z)) :
  tasks app ≠ [] →
  odict.keys (busy_slots app) = WEEKDAYS →
  client (gpt app) = Some call →
  (∀ context, _build_schedule_context app = Ok context →
     call context = Ok schedule) →
  _parse_schedule schedule = Ok blocks →
  b ∈ blocks →
  odict.get (day b) (busy_slots app) = Some slots →
  (23, 1) ∈ slots →
  generate_schedule app
  = {| out_app := app; out_dialogs := []; out_raised := Some ValueError |}.
Proof.
  intros Htasks Hkeys Hclient Hcall Hparse Hb Hget Hslot.
  unfold generate_schedule.
  destruct (tasks app) as [|t ts] eqn:Et; [done|].
  unfold is_available, gpt_generate_schedule. rewrite Hclient. simpl.
  rewrite build_schedule_context_Ok by done.
  rewrite (Hcall _ (build_schedule_context_Ok app Hkeys)).
  rewrite Hparse.
  by rewrite (find_conflicts_bad_end app blocks slots (23, 1) b).
Qed.

Lemma generate_schedule_keeps app :
  let app' := out_app (generate_schedule app) in
  gpt app' = gpt app ∧ tasks app' = tasks app ∧ goals app' = goals app
  ∧ busy_slots app' = busy_slots app
  ∧ reminder_thread app' = reminder_thread app
  ∧ stop_event app' = stop_event app.
Proof.
  unfold generate_schedule.
  destruct (tasks app) as [|t ts] eqn:Et; [done|].
  destruct (negb (is_available (gpt app))); [done|].
  destruct (_build_schedule_context app) as [context|]; [|done].
  destruct (gpt_generate_schedule (gpt app) context) as [schedule|]; [|done].
  destruct (_parse_schedule schedule) as [blocks|]; [|done].
  destruct (_find_conflicts app blocks) as [conflicts|]; [|done].
  destruct (_display_schedule (with_generated app blocks) blocks);
    simpl; by rewrite ?Et.
Qed.

Lemma generate_schedule_blocks app :
  let app' := out_app (generate_schedule app) in
  (start_reminders_button app' = start_reminders_button app
   ∨ start_reminders_button app' = normal)
  ∧ (generated_blocks app' = generated_blocks app
     ∨ ∃ schedule,
         _parse_schedule schedule = Ok (generated_blocks app')
         ∧ Forall (λ b, day b ∈ WEEKDAYS) (generated_blocks app')
         ∧ StronglySorted (λ a b, key_le (key_of a) (key_of b))
             (generated_blocks app')).
Proof.
  unfold generate_schedule.
  destruct (tasks app) as [|t ts] eqn:Et; [by split; left|].
  destruct (negb (is_available (gpt app))); [by split; left|].
  destruct (_build_schedule_context app) as [context|]; [|by split; left].
  destruct (gpt_generate_schedule (gpt app) context) as [schedule|];
    [|by split; left].
  destruct (_parse_schedule schedule) as [blocks|] eqn:Hparse;
    [|by split; left].
  destruct (_find_conflicts app blocks) as [conflicts|]; [|by split; left].
  assert (∃ schedule,
            _parse_schedule schedule = Ok blocks
            ∧ Forall (λ b, day b ∈ WEEKDAYS) blocks
            ∧ StronglySorted (λ a b, key_le (key_of a) (key_of b)) blocks)
    as Hblocks.
  { exists schedule. split; [done|]. split; [by eapply parse_schedule_days|].
    destruct (parse_schedule_sorted schedule) as (blocks' & Hp & _ & Hs).
    rewrite Hparse in Hp. by injection Hp as <-. }
  destruct (_display_schedule (with_generated app blocks) blocks);
    simpl; (split; [|by right]); [by right|by left].
Qed.

(** X16. [generate_schedule] never changes the scheduler, the tasks, the
    goals, the busy times, the reminder thread or its stop flag, on any
    path; the reminder button keeps its state or becomes enabled; and
    [generated_blocks] is either left alone or replaced by what the parser
    made of a response, blocks on canonical weekdays in the order of the
    sort. *)
Theorem generate_schedule_frame (app : App) :
  let app' := out_app (generate_schedule app) in
  gpt app' = gpt app ∧ tasks app' = tasks app ∧ goals app' = goals app
  ∧ busy_slots app' = busy_slots app
  ∧ reminder_thread app' = reminder_thread app
  ∧ stop_event app' = stop_event app
  ∧ (start_reminders_button app' = start_reminders_button app
     ∨ start_reminders_button app' = normal)
  ∧ (generated_blocks app' = generated_blocks app
     ∨ ∃ schedule,
         _parse_schedule schedule = Ok (generated_blocks app')
         ∧ Forall (λ b, day b ∈ WEEKDAYS) (generated_blocks app')
         ∧ StronglySorted (λ a b, key_le (key_of a) (key_of b))
             (generated_blocks app')).
Proof.
  intros app'.
  destruct (generate_schedule_keeps app) as (Hg & Ht & Hgo & Hb & Hth & Hs).
  destruct (generate_schedule_blocks app) as [Hbutton Hblocks].
  by do 6 (split; [done|]).
Qed.

(** ** Starting the reminders *)




(** ** Conflicts, hour by hour *)

Lemma grid_start_strptime h :
  0 ≤ h < 24 →
  datetime.strptime_HM (be_start (busy_entry (h, 1)))
  = Ok (datetime.mk datetime.ordinal_1900 h 0 0 0).
Proof.
  intros Hh%grid_hour_cases.
  repeat (apply elem_of_cons in Hh as [->|Hh]; [done|]).
  by apply elem_of_nil in Hh.
Qed.

Lemma grid_end_strptime h :
  0 ≤ h < 23 →
  datetime.strptime_HM (be_end (busy_entry (h, 1)))
  = Ok (datetime.mk datetime.ordinal_1900 (h + 1) 0 0 0).
Proof.
  intros Hh. assert (0 ≤ h < 24) as Hh'%grid_hour_cases by lia.
  repeat (apply elem_of_cons in Hh' as [->|Hh'];
          [first [by vm_compute | lia]|]).
  by apply elem_of_nil in Hh'.
Qed.

Lemma bind_busy_blocks {B} (f : TimeBlock → list B) busy :
  busy_blocks_of (busy_snapshot busy) ≫= f
  = item ← busy; slot ← snd item;
    f {| title := "Busy"; day := fst item;
         start_time := be_start (busy_entry slot);
         end_time := be_end (busy_entry slot); details := "" |}.
Proof.
  unfold busy_blocks_of, busy_snapshot.
  induction busy as [|[d slots] busy IH]; [done|].
  csimpl. rewrite bind_app, IH. f_equal.
  clear IH. induction slots as [|slot slots IH]; [done|].
  csimpl. by rewrite IH.
Qed.

(** a block against the busy hour [h] of the day [d] *)
Lemma hits_hour b d h :
  is_ok (datetime.strptime_HM (start_time b)) = true →
  is_ok (datetime.strptime_HM (end_time b)) = true →
  0 ≤ h < 23 →
  overlaps b {| title := "Busy"; day := d;
                start_time := be_start (busy_entry (h, 1));
                end_time := be_end (busy_entry (h, 1)); details := "" |}
  = Ok (bool_decide (day b = d
                     ∧ minutes_of (start_time b) < 60 * (h + 1)
                     ∧ 60 * h < minutes_of (end_time b))).
Proof.
  intros Hs He Hh. unfold minutes_of.
  destruct (datetime.strptime_HM (start_time b)) as [sa|] eqn:Esa; [|done].
  destruct (datetime.strptime_HM (end_time b)) as [ea|] eqn:Eea; [|done].
  destruct (decide (day b = d)) as [Hd|Hd].
  - erewrite overlaps_same_day;
      [|done|done|done|by apply grid_start_strptime; lia
       |by apply grid_end_strptime].
    f_equal. unfold datetime.minute_of_day at 2 3. simpl.
    apply eq_true_iff_eq.
    rewrite andb_true_iff, !Z.ltb_lt, bool_decide_eq_true. 
    split; [intros [? ?]; repeat split; [done|lia|lia]
           |intros (_ & ? & ?); split; lia].
  - rewrite overlaps_other_day by done. symmetry. f_equal.
    apply bool_decide_eq_false. tauto.
Qed.

(** X18. On a busy-time dictionary with the seven weekday keys whose
    slots are one-hour slots at hours 0 to 22, and blocks whose start and
    end [strptime] reads, conflict detection returns: for each block, in
    the order of the list, one message for each busy hour [h] of the
    block's day with [start < (h+1):00] and [h:00 < end].  A block that
    runs over several busy hours gets its message as many times. *)
Theorem find_conflicts_by_hour (app : App) (blocks : list TimeBlock) :
  odict.keys (busy_slots app) = WEEKDAYS →
  Forall (λ item, Forall (λ slot, 0 ≤ fst slot < 23 ∧ snd slot = 1) (snd item))
    (busy_slots app) →
  Forall (λ b, is_ok (datetime.strptime_HM (start_time b)) = true
               ∧ is_ok (datetime.strptime_HM (end_time b)) = true) blocks →
  _find_conflicts app blocks
  = Ok (b ← blocks; item ← busy_slots app; slot ← snd item;
        if decide (day b = fst item
                   ∧ minutes_of (start_time b) < 60 * (fst slot + 1)
                   ∧ 60 * fst slot < minutes_of (end_time b))
        then [conflict_message b] else []).
Proof.
  intros Hkeys Hslots Hblocks.
  assert (∀ b, b ∈ blocks →
    (busy_blocks_of (busy_snapshot (busy_slots app)) ≫= λ busy,
       if hits b busy then [conflict_message b] else [])
    = (item ← busy_slots app; slot ← snd item;
       if decide (day b = fst item
                  ∧ minutes_of (start_time b) < 60 * (fst slot + 1)
                  ∧ 60 * fst slot < minutes_of (end_time b))
       then [conflict_message b] else [])
    ∧ ∀ busy, busy ∈ busy_blocks_of (busy_snapshot (busy_slots app)) →
        is_ok (overlaps b busy) = true) as Hone.
  { intros b Hb. rewrite Forall_forall in Hblocks.
    destruct (Hblocks b Hb) as [Hs He]. split.
    - rewrite bind_busy_blocks. apply Forall_bind_ext.
      eapply Forall_impl; [exact Hslots|]. intros [d slots] Hd.
      cbn [fst snd] in *.
      apply Forall_bind_ext. eapply Forall_impl; [exact Hd|].
      intros [h dur] [Hh Hdur]. cbn [fst snd] in *. subst dur.
      unfold hits. rewrite hits_hour by done.
      by destruct (decide _) as [H|H];
        [rewrite bool_decide_eq_true_2|rewrite bool_decide_eq_false_2].
    - intros busy Hbusy. unfold busy_blocks_of, busy_snapshot in Hbusy.
      apply list_elem_of_bind in Hbusy as ([d es] & Hbusy & Hitem).
      apply list_elem_of_bind in Hbusy as (e & Hbusy & He').
      apply list_elem_of_singleton in Hbusy as ->.
      apply list_elem_of_fmap in Hitem as ([d' slots] & [= -> ->] & Hitem).
      cbn [snd] in He'.
      apply list_elem_of_fmap in He' as ([h dur] & -> & Hslot).
      rewrite Forall_forall in Hslots. specialize (Hslots _ Hitem).
      cbn [snd] in Hslots. rewrite Forall_forall in Hslots.
      destruct (Hslots _ Hslot) as [Hh Hdur]. cbn [fst snd] in *. subst dur.
      by rewrite hits_hour. }
  rewrite find_conflicts_report;
    [|done|intros b busy Hb; by apply (Hone b Hb)].
  f_equal. unfold conflict_report. apply Forall_bind_ext, Forall_forall.
  intros b Hb. by apply (Hone b Hb).
Qed.

(** ** Trimmed text *)













(** ** Conflict detection: when it returns *)

Lemma find_conflicts_raises app blocks e :
  odict.keys (busy_slots app) = WEEKDAYS →
  _find_conflicts app blocks = Raise e → e = ValueError.
Proof.
  intros Hkeys. unfold _find_conflicts.
  rewrite build_busy_context_snapshot by done. cbn [mbind result_bind].
  apply for_each_only. intros messages block e'. apply for_each_only.
  intros ???. apply conflict_step_raises.
Qed.

Lemma overlaps_unread a b :
  day a = day b →
  is_ok (datetime.strptime_HM (start_time a)) = false
  ∨ is_ok (datetime.strptime_HM (end_time a)) = false
  ∨ is_ok (datetime.strptime_HM (start_time b)) = false
  ∨ is_ok (datetime.strptime_HM (end_time b)) = false →
  overlaps a b = Raise ValueError.
Proof.
  intros Hd Hbad. destruct (overlaps a b) as [r|e] eqn:E.
  - exfalso. revert E. unfold overlaps.
    apply String.eqb_eq in Hd as ->. simpl.
    destruct (datetime.strptime_HM (start_time a)); simpl; [|done].
    destruct (datetime.strptime_HM (end_time a)); simpl; [|done].
    destruct (datetime.strptime_HM (start_time b)); simpl; [|done].
    destruct (datetime.strptime_HM (end_time b)); simpl; [|done].
    simpl in Hbad. intuition congruence.
  - by apply overlaps_raises in E as ->.
Qed.

Lemma grid_end_unread :
  is_ok (datetime.strptime_HM (be_end (busy_entry (23, 1)))) = false.
Proof. done. Qed.

(** X19. On the busy times the grid can make, conflict detection returns
    exactly when every block that falls on a day with a busy hour has a
    start and an end that [strptime] reads, and no such day has hour 23
    busy; otherwise it raises [ValueError].  Blocks on days without a busy
    hour are never read. *)
Theorem find_conflicts_returns_iff (app : App) (blocks : list TimeBlock) :
  week_model (busy_slots app) → on_grid (busy_slots app) →
  (is_ok (_find_conflicts app blocks) = true
   ↔ ∀ b slots h, b ∈ blocks →
       odict.get (day b) (busy_slots app) = Some slots → h ∈ fst <$> slots →
       h ≠ 23
       ∧ is_ok (datetime.strptime_HM (start_time b)) = true
       ∧ is_ok (datetime.strptime_HM (end_time b)) = true)
  ∧ (is_ok (_find_conflicts app blocks) = false →
     _find_conflicts app blocks = Raise ValueError).
Proof.
  intros [Hkeys Hmade] Hgrid. split.
  - split.
    + intros Hok b slots h Hb Hget Hh.
      apply list_elem_of_fmap in Hh as ([h' dur] & -> & Hslot). simpl.
      assert (dur = 1) as ->.
      { rewrite Forall_forall in Hmade.
        destruct (Hmade (day b, slots) (get_elem_of _ _ _ Hget)) as [_ Hone].
        rewrite Forall_forall in Hone. apply (Hone _ Hslot). }
      assert (0 ≤ h' < 24) as Hrange.
      { unfold on_grid in Hgrid. rewrite Forall_forall in Hgrid.
        specialize (Hgrid (day b, slots) (get_elem_of _ _ _ Hget)).
        rewrite Forall_forall in Hgrid. apply (Hgrid _ Hslot). }
      destruct (decide (h' ≠ 23
                        ∧ is_ok (datetime.strptime_HM (start_time b)) = true
                        ∧ is_ok (datetime.strptime_HM (end_time b)) = true))
        as [?|Hbad]; [done|].
      exfalso.
      assert (_find_conflicts app blocks = Raise ValueError) as Hraise;
        [|by rewrite Hraise in Hok].
      unfold _find_conflicts. rewrite build_busy_context_snapshot by done.
      cbn [mbind result_bind].
      apply for_each_raises with (x := b); [|done|].
      * intros messages block e. apply for_each_only.
        intros ???. apply conflict_step_raises.
      * intros messages.
        apply for_each_raises
          with (x := mkTimeBlock "Busy" (day b)
                       (be_start (busy_entry (h', 1)))
                       (be_end (busy_entry (h', 1))) "").
        -- intros ???. apply conflict_step_raises.
        -- apply (elem_of_busy_blocks (day b) (busy_entry <$> slots)
                    (busy_entry (h', 1))).
           ++ by apply get_busy_snapshot.
           ++ by apply list_elem_of_fmap_2.
        -- intros messages'. rewrite overlaps_unread; [done|done|].
           destruct (is_ok (datetime.strptime_HM (start_time b)));
             [|by left].
           destruct (is_ok (datetime.strptime_HM (end_time b)));
             [|by right; left].
           right; right; right. cbn [end_time].
           destruct (decide (h' = 23)) as [->|Hne]; [done|].
           exfalso. apply Hbad. done.
    + intros Hall. rewrite find_conflicts_report; [done|done|].
      intros b busy Hb Hbusy.
      unfold busy_blocks_of, busy_snapshot in Hbusy.
      apply list_elem_of_bind in Hbusy as ([d es] & Hbusy & Hitem).
      apply list_elem_of_bind in Hbusy as (e & Hbusy & He').
      apply list_elem_of_singleton in Hbusy as ->.
      apply list_elem_of_fmap in Hitem as ([d' slots] & [= -> ->] & Hitem).
      cbn [snd] in He'.
      apply list_elem_of_fmap in He' as ([h dur] & -> & Hslot).
      destruct (decide (day b = d')) as [<-|Hne];
        [|by rewrite overlaps_other_day].
      assert (odict.get (day b) (busy_slots app) = Some slots) as Hget.
      { apply elem_of_get; [|done]. rewrite Hkeys. apply NoDup_WEEKDAYS. }
      assert (dur = 1) as ->.
      { rewrite Forall_forall in Hmade.
        destruct (Hmade (day b, slots) Hitem) as [_ Hone].
        rewrite Forall_forall in Hone. apply (Hone _ Hslot). }
      assert (0 ≤ h < 24) as Hrange.
      { unfold on_grid in Hgrid. rewrite Forall_forall in Hgrid.
        specialize (Hgrid (day b, slots) Hitem).
        rewrite Forall_forall in Hgrid. apply (Hgrid _ Hslot). }
      destruct (Hall b slots h Hb Hget) as (Hh & Hs & He).
      { apply list_elem_of_fmap. by exists (h, 1). }
      rewrite hits_hour; [done|done|done|lia].
  - intros Hno. destruct (_find_conflicts app blocks) as [r|e] eqn:E; [done|].
    by apply find_conflicts_raises in E as ->.
Qed.

(** ** Adding a task *)

(** X20. A task added through the form is appended to the task list with
    the entered name and the parsed duration, and the name, duration and
    notes fields are cleared while the goal and difficulty fields stay.
    In the request it is grouped under the text of the goal field, whether
    or not a goal of that name exists, except that a blank field, the text
    ["None"] and the text ["Unaligned"] all put it with the unaligned
    tasks: a goal that is itself called ["None"] can never be linked. *)
Theorem add_task_grouping (py_float : string → result float)
    (float_str : float → string) (app : App) (form : Form) (d : float) :
  str_strip (task_name_var form) ≠ "" →
  str_strip (task_duration_var form) ≠ "" →
  py_float (str_strip (task_duration_var form)) = Ok d →
  let o := add_task py_float float_str app form in
  ∃ t,
    tasks (fo_app o) = tasks app ++ [t]
    ∧ fo_app o = with_tasks app (tasks (fo_app o))
    ∧ fo_dialogs o = [] ∧ fo_raised o = None
    ∧ name t = str_strip (task_name_var form)
    ∧ duration_hours t = d
    ∧ (goal_key t = "Unaligned"
       ↔ str_strip (task_goal_var form) ∈ [""; "None"; "Unaligned"])
    ∧ (goal_key t ≠ "Unaligned" → goal_key t = str_strip (task_goal_var form))
    ∧ odict.get (goal_key t) (group_tasks (tasks (fo_app o)))
      = Some (bucket (goal_key t) (tasks app) ++ [task_summary t])
    ∧ task_name_var (fo_form o) = "" ∧ task_duration_var (fo_form o) = ""
    ∧ task_notes_var (fo_form o) = ""
    ∧ task_goal_var (fo_form o) = task_goal_var form
    ∧ task_difficulty_var (fo_form o) = task_difficulty_var form.
Proof.
  intros Hname Hdur Hfloat o. subst o. unfold add_task.
  apply String.eqb_neq in Hname as ->. apply String.eqb_neq in Hdur as ->.
  rewrite Hfloat. simpl.
  eexists. split; [done|]. do 5 (split; [done|]).
  split; [|split; [|split; [|done]]].
  - unfold goal_key. simpl. rewrite !elem_of_cons.
    destruct (String.eqb_spec (str_strip (task_goal_var form)) "") as [->|H1];
      simpl; [by split; [left|]|].
    destruct (String.eqb_spec (str_strip (task_goal_var form)) "None")
      as [->|H2]; simpl; [by split; [right; left|]|].
    apply String.eqb_neq in H1 as H1'. rewrite H1'.
    split; [intros ->; by right; right; left|].
    intros [?|[?|[?|?%elem_of_nil]]]; done.
  - unfold goal_key. simpl.
    destruct (String.eqb_spec (str_strip (task_goal_var form)) "") as [->|H1];
      simpl; [done|].
    destruct (String.eqb_spec (str_strip (task_goal_var form)) "None")
      as [->|H2]; simpl; [done|].
    apply String.eqb_neq in H1 as H1'. by rewrite H1'.
  - rewrite group_tasks_get. unfold bucket.
    rewrite filter_app, filter_cons_True, filter_nil by done.
    rewrite fmap_app. csimpl.
    by destruct (task_summary <$> filter _ (tasks app)).
Qed.

(** ** The session *)








(** * The further properties on sample states *)

Lemma grid_hour_round_trip_witness :
  datetime.strptime_HM "09:00"
  = Ok (datetime.mk datetime.ordinal_1900 9 0 0 0)
  ∧ parse_start "09:00" = Ok (9, 0).
Proof.
  destruct (grid_hour_round_trip 9 ltac:(lia)) as (H1 & H2 & _).
  split; [exact H1|exact H2].
Defined.

Lemma strptime_parse_start_agree_witness : parse_start "9:05" = Ok (9, 5).
Proof.
  exact (strptime_parse_start_agree "9:05"
           (datetime.mk datetime.ordinal_1900 9 5 0 0) eq_refl).
Defined.

Lemma fire_time_within_week_witness :
  ∃ monday fire,
    monday_of tuesday_later = Ok monday
    ∧ fire_time monday tuesday_later monday_standup = Ok fire
    ∧ datetime.weekday fire = 0
    ∧ datetime.to_us tuesday_later ≤ datetime.to_us fire
      < datetime.to_us tuesday_later + 7 * datetime.us_per_day.
Proof.
  assert (datetime.wf tuesday_later) as Hwf
    by (unfold datetime.wf; simpl; lia).
  assert (datetime.min_ordinal ≤ datetime.ordinal tuesday_later
          ≤ datetime.max_ordinal) as Hrange by (by vm_compute).
  assert (day monday_standup ∈ WEEKDAYS) as Hday by left.
  destruct (fire_time_within_week tuesday_later monday_standup 9 0 Hwf
              Hrange Hday eq_refl ltac:(lia) ltac:(lia))
    as (monday & Hmon & [[_ Hlate]|Hfire]).
  - exfalso. revert Hlate. by vm_compute.
  - destruct Hfire as (fire & Hfire & Hwd & _ & _ & _ & _ & _ & Hweek).
    exists monday, fire. split; [exact Hmon|]. split; [exact Hfire|].
    split; [exact Hwd|exact Hweek].
Defined.

Lemma reminder_loop_returns_iff_witness :
  is_ok (_reminder_loop (scheduled_app [monday_standup]) monday_nine []) = true
  ∧ is_ok (_reminder_loop (scheduled_app [monday_standup; monday_seconds])
             monday_nine []) = false.
Proof.
  assert (datetime.wf monday_nine) as Hwf
    by (unfold datetime.wf; simpl; lia).
  assert (datetime.min_ordinal ≤ datetime.ordinal monday_nine
          ≤ datetime.max_ordinal) as Hrange by (by vm_compute).
  split.
  - destruct (reminder_loop_returns_iff (scheduled_app [monday_standup])
                monday_nine [] Hwf Hrange) as [_ Hiff].
    apply Hiff; [by vm_compute|].
    constructor; [|constructor]. split; [left|].
    exists 9, 0. split; [reflexivity|lia].
  - destruct (reminder_loop_returns_iff
                (scheduled_app [monday_standup; monday_seconds])
                monday_nine [] Hwf Hrange) as [Honly _].
    destruct (is_ok _) eqn:E; [|reflexivity].
    exfalso. specialize (Honly eq_refl).
    apply Forall_cons in Honly as [_ Honly].
    apply Forall_cons in Honly as [[_ (h & m & Hparse & _)] _].
    revert Hparse. by vm_compute.
Defined.


Lemma toggle_busy_flips_witness :
  odict.keys (busy_slots morning_slot_app)
  = odict.keys (busy_slots (new_app no_gpt))
  ∧ ∃ l', odict.get "Monday" (busy_slots morning_slot_app) = Some l'
          ∧ (9 ∈ fst <$> l' ↔ 9 ∉ fst <$> ([] : list (Z * Z))).
Proof.
  destruct (toggle_busy_flips (new_app no_gpt) morning_slot_app "Monday" 9
              eq_refl) as (_ & Hkeys & _ & l & l' & Hl & Hl' & Hflip & _).
  split; [exact Hkeys|]. exists l'. split; [exact Hl'|].
  injection Hl as <-. exact Hflip.
Defined.

Lemma goal_named_unaligned_twice_witness :
  ∃ g,
    filter (λ e, gf_goal e = "Unaligned")
      (goal_summaries [sample_task] [unaligned_goal])
    = [goal_entry [sample_task] ("Unaligned", g);
       unaligned_entry [sample_task]].
Proof.
  destruct (goal_named_unaligned_twice [sample_task] [unaligned_goal])
    as (g & _ & Hboth & _).
  - left.
  - by left.
  - exists g. exact Hboth.
Defined.

Lemma display_schedule_by_day_witness :
  ∃ text, _display_schedule morning_slot_app [monday_standup] = Ok text.
Proof.
  destruct (display_schedule_by_day morning_slot_app [monday_standup]
              eq_refl) as [Hdays _].
  destruct Hdays as (lines & _ & Htext).
  - constructor; [left|constructor].
  - eexists. exact Htext.
Defined.

Lemma generate_schedule_success_witness :
  ∃ blocks text,
    generate_schedule (planned_app replying_gpt)
    = {| out_app :=
           with_display (with_generated (planned_app replying_gpt) blocks)
             text normal;
         out_dialogs := [];
         out_raised := None |}.
Proof.
  destruct (generate_schedule_success (planned_app replying_gpt)
              (λ _, Ok week_sample) week_sample)
    as (context & blocks & conflicts & text & _ & _ & _ & _ & Hparse
        & Hconf & _ & Hgen).
  - done.
  - reflexivity.
  - reflexivity.
  - reflexivity.
  - intros blocks Hparse. vm_compute in Hparse. injection Hparse as <-.
    by vm_compute.
  - exists blocks, text. vm_compute in Hparse. injection Hparse as <-.
    vm_compute in Hconf. injection Hconf as <-. exact Hgen.
Defined.

Lemma generate_schedule_midnight_witness :
  generate_schedule late_planned_app
  = {| out_app := late_planned_app; out_dialogs := [];
       out_raised := Some ValueError |}.
Proof.
  apply (generate_schedule_midnight late_planned_app (λ _, Ok week_sample)
           week_sample
           [monday_plan;
            mkTimeBlock "Review" "Monday" "14:00" "15:00" "";
            mkTimeBlock "Deep work" "Wednesday" "09:00" "10:00" ""]
           monday_plan [(23, 1)]).
  - done.
  - reflexivity.
  - reflexivity.
  - reflexivity.
  - reflexivity.
  - left.
  - reflexivity.
  - left.
Defined.


Lemma find_conflicts_by_hour_witness :
  _find_conflicts morning_slot_app [monday_study]
  = Ok ["Study on Monday 09:30-10:30 overlaps busy time."].
Proof.
  rewrite (find_conflicts_by_hour morning_slot_app [monday_study]).
  - by vm_compute.
  - reflexivity.
  - repeat constructor; simpl; lia.
  - repeat constructor.
Defined.

Lemma find_conflicts_returns_iff_witness :
  is_ok (_find_conflicts morning_slot_app [tuesday_morning]) = true.
Proof.
  destruct (find_conflicts_returns_iff morning_slot_app [tuesday_morning])
    as [[_ Hback] _].
  - apply (week_model_toggle (new_app no_gpt) "Monday" 9);
      [apply week_model_new|reflexivity].
  - repeat constructor; simpl; lia.
  - apply Hback. intros b slots h Hb%list_elem_of_singleton. subst b.
    intros [= <-] Hh. by apply elem_of_nil in Hh.
Defined.

Lemma add_task_grouping_witness :
  ∃ t,
    tasks (fo_app (add_task sample_float sample_float_str (new_app no_gpt)
                     report_form)) = [t]
    ∧ name t = "Write report"
    ∧ goal_key t = "Unaligned".
Proof.
  pose proof (add_task_grouping sample_float sample_float_str
                (new_app no_gpt) report_form 2%float) as H.
  cbv zeta in H.
  destruct H as (t & Htasks & _ & _ & _ & Hname & _ & Hkey & _).
  - by vm_compute.
  - by vm_compute.
  - reflexivity.
  - exists t. split; [exact Htasks|]. split; [exact Hname|].
    apply Hkey. right. left.
Defined.
